(** * WalkBuddy: the matching core

    A shallow embedding of the matching core of the WalkBuddy application:
    the PL/pgSQL functions of [supabase-migration.sql]
    ([calculate_distance], [find_walk_buddy], [cleanup_expired_requests])
    and the TypeScript services that drive the request and match life cycle
    ([lib/services/walkRequest.ts], [lib/services/match.ts]).

    Conventions of the embedding.
    - [DOUBLE PRECISION] values are exact reals ([R]); the trigonometric
      functions are those of the Standard Library.
    - [UUID]s are strings, [TIMESTAMP WITH TIME ZONE] values are integers
      (microseconds since the epoch); [NOW()] and the UUID generated for a
      new [matches] row are explicit arguments.
    - A table is the list of its rows in scan order.  [UPDATE ... WHERE] is
      a [map], [SELECT ... WHERE] a [filter], [JOIN] a [flat_map].
    - Columns carry values, as the row types of [lib/supabase] declare them
      ([matched_with] is the one nullable column that is read or written).
      Columns that no modelled function reads or writes ([email],
      [first_name], [created_at]) are left out of the rows.
    - PostgreSQL's [sqrt] raises an error on a negative argument.  Over
      exact reals the arguments of the two square roots of
      [calculate_distance] are never negative ([haversine_a_range]); in
      floating point [1 - a] can round below 0 for nearly antipodal
      points.  What is stated of the value that [find_walk_buddy] returns
      is therefore stated of calls that return.
    - Row level security.  [find_walk_buddy], [cleanup_expired_requests]
      and [handle_new_user] are [SECURITY DEFINER] and run without it.
      The modules [Services], [Intake], [MatchQueries] and [Trust] have the
      statements of the TypeScript services as a session runs them that
      row level security does not restrict; the module [Client] has
      [cancelRequest], [completeMatch], [cancelMatch] and [submitReport]
      as the application's own client runs them, under the policies of
      the migration. *)

From Stdlib Require Import Reals Lra Lia ZArith List String Bool.
From Stdlib Require Import Permutation Sorted.
Import ListNotations.

(** ** Geo utility ([calculate_distance]) *)

Module Geo.
Local Open Scope R_scope.

(** PostgreSQL's [radians]: degrees to radians. *)
Definition radians (deg : R) : R := deg * PI / 180.

(** PostgreSQL's [atan2(y, x)] (the C library's): the angle of the point
    [(x, y)], in (-PI, PI]. *)
Definition atan2 (y x : R) : R :=
  if Rlt_dec 0 x then atan (y / x)
  else if Rlt_dec x 0 then
    (if Rle_dec 0 y then atan (y / x) + PI else atan (y / x) - PI)
  else if Rlt_dec 0 y then PI / 2
  else if Rlt_dec y 0 then - (PI / 2)
  else 0.

(** The local [a] of [calculate_distance]. *)
Definition haversine_a (lat1 lng1 lat2 lng2 : R) : R :=
  let dlat := radians (lat2 - lat1) in
  let dlng := radians (lng2 - lng1) in
  sin (dlat / 2) * sin (dlat / 2)
  + cos (radians lat1) * cos (radians lat2) * sin (dlng / 2) * sin (dlng / 2).

(** [calculate_distance(lat1, lng1, lat2, lng2)], in miles. *)
Definition calculate_distance (lat1 lng1 lat2 lng2 : R) : R :=
  let r := 3959 in
  let a := haversine_a lat1 lng1 lat2 lng2 in
  let c := 2 * atan2 (sqrt a) (sqrt (1 - a)) in
  r * c.

(** Comparison [x <= y] as SQL evaluates it in a [WHERE] clause. *)
Definition R_leb (x y : R) : bool := if Rle_dec x y then true else false.

End Geo.

(** ** Schema ([CREATE TABLE] statements) *)

Definition uuid := string.
Definition timestamptz := Z.
Bind Scope string_scope with uuid.
Bind Scope Z_scope with timestamptz.

Module profiles.
Record row := mk {
  id : uuid;
  trust_score : Z;
  is_banned : bool
}.

(** [CHECK (trust_score >= 0 AND trust_score <= 100)] *)
Definition trust_score_check (p : row) : bool :=
  ((0 <=? trust_score p) && (trust_score p <=? 100))%Z.
End profiles.

Module walk_requests.
(** The texts that the code writes to the [status] column.  ['completed']
    is written by [confirmMeetup] only; the column's [CHECK] does not
    list it. *)
Inductive status_t := waiting | matched | expired | cancelled | completed.

Definition status_eqb (a b : status_t) : bool :=
  match a, b with
  | waiting, waiting | matched, matched | expired, expired
  | cancelled, cancelled | completed, completed => true
  | _, _ => false
  end.

(** [CHECK (status IN ('waiting', 'matched', 'expired', 'cancelled'))] *)
Definition status_check (s : status_t) : bool :=
  match s with
  | waiting | matched | expired | cancelled => true
  | completed => false
  end.

Record row := mk {
  id : uuid;
  user_id : uuid;
  start_lat : R;
  start_lng : R;
  dest_lat : R;
  dest_lng : R;
  status : status_t;
  matched_with : option uuid;
  expires_at : timestamptz
}.

(** [SET status = s] *)
Definition set_status (s : status_t) (r : row) : row :=
  mk (id r) (user_id r) (start_lat r) (start_lng r) (dest_lat r) (dest_lng r)
     s (matched_with r) (expires_at r).

(** [SET status = s, matched_with = m] *)
Definition set_status_matched_with (s : status_t) (m : option uuid) (r : row) : row :=
  mk (id r) (user_id r) (start_lat r) (start_lng r) (dest_lat r) (dest_lng r)
     s m (expires_at r).
End walk_requests.

Module matches.
Inductive status_t := pending | active | completed | cancelled.

(** [CHECK (status IN ('pending', 'active', 'completed', 'cancelled'))] *)
Definition status_check (s : status_t) : bool := true.

Record row := mk {
  id : uuid;
  request_1 : uuid;
  request_2 : uuid;
  meetup_lat : R;
  meetup_lng : R;
  status : status_t
}.

Definition set_status (s : status_t) (m : row) : row :=
  mk (id m) (request_1 m) (request_2 m) (meetup_lat m) (meetup_lng m) s.
End matches.

Record database := mkdb {
  tbl_profiles : list profiles.row;
  tbl_walk_requests : list walk_requests.row;
  tbl_matches : list matches.row
}.

Definition with_walk_requests (d : database) (rows : list walk_requests.row) : database :=
  mkdb (tbl_profiles d) rows (tbl_matches d).

Definition with_matches (d : database) (rows : list matches.row) : database :=
  mkdb (tbl_profiles d) (tbl_walk_requests d) rows.

(** The primary key of [walk_requests]. *)
Definition walk_requests_pkey (d : database) : Prop :=
  NoDup (map walk_requests.id (tbl_walk_requests d)).

(** ** The PL/pgSQL functions of the migration *)

Module Migration.
Import Geo.
Local Open Scope R_scope.

(** What a function call leaves behind: a value, or an error raised (the
    transaction is then rolled back). *)
Inductive outcome (A : Type) : Type :=
| Return (v : A)
| Raise (sqlstate : string).
Arguments Return {A} v.
Arguments Raise {A} sqlstate.

(** [SELECT user_id INTO v_user_id FROM walk_requests WHERE id = p_request_id]:
    the first row found, NULL when there is none. *)
Definition select_user_id (d : database) (p_request_id : uuid) : option uuid :=
  option_map walk_requests.user_id
    (find (fun wr => String.eqb (walk_requests.id wr) p_request_id)
          (tbl_walk_requests d)).

(** [FROM walk_requests wr JOIN profiles p ON p.id = wr.user_id] *)
Definition join_profiles (d : database) : list (walk_requests.row * profiles.row) :=
  flat_map
    (fun wr =>
       map (pair wr)
           (filter (fun p => String.eqb (profiles.id p) (walk_requests.user_id wr))
                   (tbl_profiles d)))
    (tbl_walk_requests d).

(** [a != b] in a [WHERE] clause, [b] nullable: not true when [b] is NULL. *)
Definition sql_neq (a : uuid) (b : option uuid) : bool :=
  match b with
  | Some b => negb (String.eqb a b)
  | None => false
  end.

(** The [WHERE] clause of the candidate query. *)
Definition candidate_where (now : timestamptz) (p_request_id : uuid)
    (v_user_id : option uuid) (p_start_lat p_start_lng p_dest_lat p_dest_lng : R)
    (j : walk_requests.row * profiles.row) : bool :=
  let (wr, p) := j in
  walk_requests.status_eqb (walk_requests.status wr) walk_requests.waiting
  && negb (String.eqb (walk_requests.id wr) p_request_id)
  && sql_neq (walk_requests.user_id wr) v_user_id
  && (50 <? profiles.trust_score p)%Z
  && Bool.eqb (profiles.is_banned p) false
  && R_leb (calculate_distance p_start_lat p_start_lng
              (walk_requests.start_lat wr) (walk_requests.start_lng wr)) 0.3
  && R_leb (calculate_distance p_dest_lat p_dest_lng
              (walk_requests.dest_lat wr) (walk_requests.dest_lng wr)) 0.2
  && (now <? walk_requests.expires_at wr)%Z.

(** The [ORDER BY] key of the candidate query. *)
Definition start_distance (p_start_lat p_start_lng : R)
    (j : walk_requests.row * profiles.row) : R :=
  calculate_distance p_start_lat p_start_lng
    (walk_requests.start_lat (fst j)) (walk_requests.start_lng (fst j)).

(** [ORDER BY key LIMIT 1]: a row whose key is least.  SQL leaves the
    choice among rows of equal key open; the first of them in scan order
    is taken here. *)
Fixpoint order_by_limit_1 {A : Type} (key : A -> R) (rows : list A) : option A :=
  match rows with
  | [] => None
  | x :: rest =>
      match order_by_limit_1 key rest with
      | None => Some x
      | Some y => if R_leb (key x) (key y) then Some x else Some y
      end
  end.

(** [SELECT wr.id, wr.user_id INTO v_matched_request_id, v_matched_user_id ...] *)
Definition select_candidate (d : database) (now : timestamptz) (p_request_id : uuid)
    (v_user_id : option uuid) (p_start_lat p_start_lng p_dest_lat p_dest_lng : R)
    : option (uuid * uuid) :=
  option_map
    (fun j => (walk_requests.id (fst j), walk_requests.user_id (fst j)))
    (order_by_limit_1 (start_distance p_start_lat p_start_lng)
       (filter (candidate_where now p_request_id v_user_id
                  p_start_lat p_start_lng p_dest_lat p_dest_lng)
               (join_profiles d))).

(** [(SELECT col FROM walk_requests WHERE id = rid)]: NULL when no row has
    that id (the primary key leaves at most one). *)
Definition select_column (col : walk_requests.row -> R) (d : database) (rid : uuid)
    : option R :=
  option_map col
    (find (fun wr => String.eqb (walk_requests.id wr) rid) (tbl_walk_requests d)).

(** [UPDATE walk_requests SET status = 'matched', matched_with = m WHERE id = rid] *)
Definition update_matched (rid : uuid) (m : option uuid) (d : database) : database :=
  with_walk_requests d
    (map (fun wr =>
            if String.eqb (walk_requests.id wr) rid
            then walk_requests.set_status_matched_with walk_requests.matched m wr
            else wr)
         (tbl_walk_requests d)).

(** [INSERT INTO matches (request_1, request_2, meetup_lat, meetup_lng)]:
    [id] is the generated UUID, [status] takes its default ['pending']. *)
Definition insert_match (new_match_id request_1 request_2 : uuid)
    (meetup_lat meetup_lng : R) (d : database) : database :=
  with_matches d
    (tbl_matches d
     ++ [matches.mk new_match_id request_1 request_2 meetup_lat meetup_lng
           matches.pending]).

(** The statements of [find_walk_buddy] after a candidate was found: the
    midpoint, the two [UPDATE]s and the [INSERT].  A NULL midpoint would
    violate [NOT NULL] of [meetup_lat] / [meetup_lng]. *)
Definition record_match (d : database) (new_match_id p_request_id : uuid)
    (p_start_lat p_start_lng : R) (v_user_id : option uuid)
    (candidate : uuid * uuid) : database * outcome (option uuid) :=
  let (v_matched_request_id, v_matched_user_id) := candidate in
  let v_meetup_lat :=
    option_map (fun x => (p_start_lat + x) / 2)
      (select_column walk_requests.start_lat d v_matched_request_id) in
  let v_meetup_lng :=
    option_map (fun x => (p_start_lng + x) / 2)
      (select_column walk_requests.start_lng d v_matched_request_id) in
  let d1 := update_matched p_request_id (Some v_matched_user_id) d in
  let d2 := update_matched v_matched_request_id v_user_id d1 in
  match v_meetup_lat, v_meetup_lng with
  | Some lat, Some lng =>
      (insert_match new_match_id p_request_id v_matched_request_id lat lng d2,
       Return (Some v_matched_request_id))
  | _, _ => (d, Raise "23502")
  end.

(** [find_walk_buddy(p_request_id, p_start_lat, p_start_lng, p_dest_lat,
    p_dest_lng)], called at time [now]. *)
Definition find_walk_buddy (d : database) (now : timestamptz) (new_match_id : uuid)
    (p_request_id : uuid) (p_start_lat p_start_lng p_dest_lat p_dest_lng : R)
    : database * outcome (option uuid) :=
  let v_user_id := select_user_id d p_request_id in
  match select_candidate d now p_request_id v_user_id
          p_start_lat p_start_lng p_dest_lat p_dest_lng with
  | None => (d, Return None)
  | Some candidate =>
      record_match d new_match_id p_request_id p_start_lat p_start_lng
        v_user_id candidate
  end.

(** [cleanup_expired_requests()], called at time [now]. *)
Definition cleanup_expired_requests (d : database) (now : timestamptz) : database :=
  with_walk_requests d
    (map (fun wr =>
            if walk_requests.status_eqb (walk_requests.status wr) walk_requests.waiting
               && (walk_requests.expires_at wr <? now)%Z
            then walk_requests.set_status walk_requests.expired wr
            else wr)
         (tbl_walk_requests d)).

End Migration.

(** ** The TypeScript services *)

Module Services.
Import Migration.

(** The [Error]s that the services throw, by the fixed part of their
    message. *)
Inductive thrown :=
| Failed_to_find_match
| Failed_to_fetch_request
| Request_not_found
| Unauthorized_cancel
| Unauthorized_confirm
| Can_only_confirm_matched
| Failed_to_cancel_request
| Failed_to_update_request
| Failed_to_update_match
| Failed_to_fetch_match
| Failed_to_fetch_requests
| Unauthorized_match
| Failed_to_complete_match
| Failed_to_cancel_match.

Definition message (e : thrown) : string :=
  match e with
  | Failed_to_find_match => "Failed to find match: "
  | Failed_to_fetch_request => "Failed to fetch request: "
  | Request_not_found => "Request not found"
  | Unauthorized_cancel => "Unauthorized: You can only cancel your own requests"
  | Unauthorized_confirm => "Unauthorized: You can only confirm your own requests"
  | Can_only_confirm_matched => "Can only confirm matched requests"
  | Failed_to_cancel_request => "Failed to cancel request: "
  | Failed_to_update_request => "Failed to update request: "
  | Failed_to_update_match => "Failed to update match: "
  | Failed_to_fetch_match => "Failed to fetch match: "
  | Failed_to_fetch_requests => "Failed to fetch requests: "
  | Unauthorized_match => "Unauthorized: You are not part of this match"
  | Failed_to_complete_match => "Failed to complete match: "
  | Failed_to_cancel_match => "Failed to cancel match: "
  end.

(** The error kinds of the specification. *)
Definition is_unauthorized (e : thrown) : bool :=
  match e with
  | Unauthorized_cancel | Unauthorized_confirm | Unauthorized_match => true
  | _ => false
  end.

(** How a [Promise] settles. *)
Inductive settled (A : Type) : Type :=
| Resolved (v : A)
| Rejected (e : thrown).
Arguments Resolved {A} v.
Arguments Rejected {A} e.

(** The query builder's [.single()]: the row when exactly one came back,
    an error otherwise. *)
Definition single {A : Type} (rows : list A) : option A :=
  match rows with
  | [x] => Some x
  | _ => None
  end.

(** [from('walk_requests').select(...).eq('id', requestId)] *)
Definition walk_requests_eq_id (d : database) (requestId : uuid)
    : list walk_requests.row :=
  filter (fun wr => String.eqb (walk_requests.id wr) requestId) (tbl_walk_requests d).

(** [from('walk_requests').update({ status }).eq('id', requestId)]: an
    error, and no change, when a row to update would violate the [CHECK]
    of the column. *)
Definition walk_requests_update_status (d : database) (requestId : uuid)
    (s : walk_requests.status_t) : option database :=
  if existsb (fun wr => String.eqb (walk_requests.id wr) requestId) (tbl_walk_requests d)
     && negb (walk_requests.status_check s)
  then None
  else Some (with_walk_requests d
               (map (fun wr =>
                       if String.eqb (walk_requests.id wr) requestId
                       then walk_requests.set_status s wr
                       else wr)
                    (tbl_walk_requests d))).

(** [from('matches').select(...).eq('id', matchId)] *)
Definition matches_eq_id (d : database) (matchId : uuid) : list matches.row :=
  filter (fun m => String.eqb (matches.id m) matchId) (tbl_matches d).

(** [from('matches').select('id').or(`request_1.eq.${requestId},request_2.eq.${requestId}`)] *)
Definition matches_of_request (d : database) (requestId : uuid) : list matches.row :=
  filter (fun m => String.eqb (matches.request_1 m) requestId
                   || String.eqb (matches.request_2 m) requestId)
         (tbl_matches d).

(** [from('matches').update({ status }).eq('id', matchId)] *)
Definition matches_update_status (d : database) (matchId : uuid)
    (s : matches.status_t) : option database :=
  if existsb (fun m => String.eqb (matches.id m) matchId) (tbl_matches d)
     && negb (matches.status_check s)
  then None
  else Some (with_matches d
               (map (fun m =>
                       if String.eqb (matches.id m) matchId
                       then matches.set_status s m
                       else m)
                    (tbl_matches d))).

(** [from('walk_requests').select('id, user_id').in('id', ids)] *)
Definition walk_requests_in_id (d : database) (ids : list uuid)
    : list walk_requests.row :=
  filter (fun wr => existsb (String.eqb (walk_requests.id wr)) ids)
         (tbl_walk_requests d).

(** [findMatch]: one call of the RPC [find_walk_buddy]. *)
Definition findMatch (d : database) (now : timestamptz) (new_match_id : uuid)
    (requestId : uuid) (startLat startLng destLat destLng : R)
    : database * settled (option uuid) :=
  match find_walk_buddy d now new_match_id requestId
          startLat startLng destLat destLng with
  | (d', Return data) => (d', Resolved data)
  | (d', Raise _) => (d', Rejected Failed_to_find_match)
  end.

(** [cancelRequest(requestId, userId)].  After [.single()] succeeded the
    row is there, so the [Request not found] branch is never taken. *)
Definition cancelRequest (d : database) (requestId userId : uuid)
    : database * settled unit :=
  match single (walk_requests_eq_id d requestId) with
  | None => (d, Rejected Failed_to_fetch_request)
  | Some request =>
      if negb (String.eqb (walk_requests.user_id request) userId)
      then (d, Rejected Unauthorized_cancel)
      else
        match walk_requests_update_status d requestId walk_requests.cancelled with
        | None => (d, Rejected Failed_to_cancel_request)
        | Some d' => (d', Resolved tt)
        end
  end.

(** [confirmMeetup(requestId, userId)] *)
Definition confirmMeetup (d : database) (requestId userId : uuid)
    : database * settled unit :=
  match single (walk_requests_eq_id d requestId) with
  | None => (d, Rejected Failed_to_fetch_request)
  | Some request =>
      if negb (String.eqb (walk_requests.user_id request) userId)
      then (d, Rejected Unauthorized_confirm)
      else if negb (walk_requests.status_eqb (walk_requests.status request)
                      walk_requests.matched)
      then (d, Rejected Can_only_confirm_matched)
      else
        match walk_requests_update_status d requestId walk_requests.completed with
        | None => (d, Rejected Failed_to_update_request)
        | Some d1 =>
            match single (matches_of_request d1 requestId) with
            | None => (d1, Resolved tt)
            | Some m =>
                match matches_update_status d1 (matches.id m) matches.active with
                | None => (d1, Rejected Failed_to_update_match)
                | Some d2 => (d2, Resolved tt)
                end
            end
        end
  end.

(** [completeMatch(matchId, userId)] *)
Definition completeMatch (d : database) (matchId userId : uuid)
    : database * settled unit :=
  match single (matches_eq_id d matchId) with
  | None => (d, Rejected Failed_to_fetch_match)
  | Some m =>
      let requests :=
        walk_requests_in_id d [matches.request_1 m; matches.request_2 m] in
      let userOwnsRequest :=
        existsb (fun req => String.eqb (walk_requests.user_id req) userId) requests in
      if negb userOwnsRequest
      then (d, Rejected Unauthorized_match)
      else
        match matches_update_status d matchId matches.completed with
        | None => (d, Rejected Failed_to_complete_match)
        | Some d' => (d', Resolved tt)
        end
  end.

(** [cancelMatch(matchId, userId)] *)
Definition cancelMatch (d : database) (matchId userId : uuid)
    : database * settled unit :=
  match single (matches_eq_id d matchId) with
  | None => (d, Rejected Failed_to_fetch_match)
  | Some m =>
      let requests :=
        walk_requests_in_id d [matches.request_1 m; matches.request_2 m] in
      let userOwnsRequest :=
        existsb (fun req => String.eqb (walk_requests.user_id req) userId) requests in
      if negb userOwnsRequest
      then (d, Rejected Unauthorized_match)
      else
        match matches_update_status d matchId matches.cancelled with
        | None => (d, Rejected Failed_to_cancel_match)
        | Some d' => (d', Resolved tt)
        end
  end.

End Services.

(** ** Concurrent calls of [find_walk_buddy]

    Each call runs in a transaction of its own at PostgreSQL's default
    isolation level (read committed), where every statement sees what was
    committed before it began.  Another call can therefore commit between
    the candidate query of a call and its [UPDATE]s.  A call is modelled by
    two atomic steps: its two [SELECT ... INTO] queries, then the midpoint,
    the [UPDATE]s and the [INSERT]. *)

Module Sessions.
Import Migration.

Record call := mk_call {
  c_now : timestamptz;
  c_new_match_id : uuid;
  p_request_id : uuid;
  p_start_lat : R;
  p_start_lng : R;
  p_dest_lat : R;
  p_dest_lng : R
}.

Inductive session :=
| Called (c : call)
| Selected (c : call) (v_user_id : option uuid) (candidate : uuid * uuid)
| Finished (o : outcome (option uuid)).

Definition step (d : database) (s : session) : database * session :=
  match s with
  | Called c =>
      let v_user_id := select_user_id d (p_request_id c) in
      match select_candidate d (c_now c) (p_request_id c) v_user_id
              (p_start_lat c) (p_start_lng c) (p_dest_lat c) (p_dest_lng c) with
      | None => (d, Finished (Return None))
      | Some candidate => (d, Selected c v_user_id candidate)
      end
  | Selected c v_user_id candidate =>
      let (d', o) :=
        record_match d (c_new_match_id c) (p_request_id c)
          (p_start_lat c) (p_start_lng c) v_user_id candidate in
      (d', Finished o)
  | Finished o => (d, Finished o)
  end.

Fixpoint set_nth {A : Type} (i : nat) (x : A) (l : list A) : list A :=
  match l, i with
  | [], _ => []
  | _ :: rest, O => x :: rest
  | y :: rest, S i' => y :: set_nth i' x rest
  end.

(** [run schedule d ss]: the sessions [ss] take steps in the order of
    [schedule] (a list of session numbers). *)
Fixpoint run (schedule : list nat) (d : database) (ss : list session)
    : database * list session :=
  match schedule with
  | [] => (d, ss)
  | i :: rest =>
      match nth_error ss i with
      | None => run rest d ss
      | Some s => let (d', s') := step d s in run rest d' (set_nth i s' ss)
      end
  end.

(** The number of [matches] rows that reference a request. *)
Definition matches_referencing (d : database) (rid : uuid) : nat :=
  List.length (Services.matches_of_request d rid).

End Sessions.

(** ** Sample data *)

Module Sample.
Local Open Scope string_scope.
Local Open Scope Z_scope.

Definition profile (u : uuid) (score : Z) (banned : bool) : profiles.row :=
  profiles.mk u score banned.

(** A request whose start and destination are both at (0, [lng]). *)
Definition request (rid u : uuid) (lng : R) (s : walk_requests.status_t)
    (m : option uuid) (expires : timestamptz) : walk_requests.row :=
  walk_requests.mk rid u 0 lng 0 lng s m expires.

Definition three_users : list profiles.row :=
  [profile "u1" 100 false; profile "u2" 80 false; profile "u3" 51 false].

Definition five_users : list profiles.row :=
  [profile "u1" 100 false; profile "u2" 80 false; profile "u3" 51 false;
   profile "u4" 50 false; profile "u5" 100 true].

(** A pool for the requester [r1], read at time 500: a second request of
    the requester's own user, two legal candidates (the nearer one comes
    later in the table), and candidates that fail one condition each
    (trust score 50, banned, deadline reached, already matched). *)
Definition db_pool : database :=
  mkdb five_users
    [request "r1" "u1" 0 walk_requests.waiting None 600;
     request "r1b" "u1" 0 walk_requests.waiting None 600;
     request "far" "u2" 0.002 walk_requests.waiting None 600;
     request "near" "u3" 0.001 walk_requests.waiting None 600;
     request "low" "u4" 0 walk_requests.waiting None 600;
     request "ban" "u5" 0 walk_requests.waiting None 600;
     request "late" "u2" 0 walk_requests.waiting None 500;
     request "taken" "u3" 0 walk_requests.matched (Some "u2") 600]
    [].

(** A candidate at exactly 0.3 miles from the requester's start and
    exactly 0.2 miles from its destination. *)
Definition db_boundary : database :=
  mkdb three_users
    [request "r1" "u1" 0 walk_requests.waiting None 600;
     walk_requests.mk "edge" "u2" 0 (54 / (3959 * PI)) 0 (36 / (3959 * PI))
       walk_requests.waiting None 600]
    [].

(** A waiting requester and one waiting candidate at the same place. *)
Definition db_pair : database :=
  mkdb three_users
    [request "r1" "u1" 0 walk_requests.waiting None 600;
     request "r2" "u2" 0 walk_requests.waiting None 600]
    [].

(** [db_pair] after [find_walk_buddy] was called for [r1] with the
    generated match id [m1] and the start (0, 0). *)
Definition db_pair_matched : database :=
  mkdb three_users
    [request "r1" "u1" 0 walk_requests.matched (Some "u2") 600;
     request "r2" "u2" 0 walk_requests.matched (Some "u1") 600]
    [matches.mk "m1" "r1" "r2" ((0 + 0) / 2) ((0 + 0) / 2) matches.pending].

(** The requester's request was cancelled before the call. *)
Definition db_cancelled_requester : database :=
  mkdb three_users
    [request "r1" "u1" 0 walk_requests.cancelled None 600;
     request "r2" "u2" 0 walk_requests.waiting None 600]
    [].

(** The requester's stored start, (10, 10), is not the start that the call
    passes, (0, 0). *)
Definition db_moved_requester : database :=
  mkdb three_users
    [walk_requests.mk "r1" "u1" 10 10 0 0 walk_requests.waiting None 600;
     request "r2" "u2" 0 walk_requests.waiting None 600]
    [].

(** The requester's stored start and destination, (0, 1), are one degree
    of longitude away from those that the call passes, (0, 0), where the
    other request is. *)
Definition db_requester_elsewhere : database :=
  mkdb three_users
    [request "r1" "u1" 1 walk_requests.waiting None 600;
     request "r2" "u2" 0 walk_requests.waiting None 600]
    [].

(** Two requesters too far from each other to be matched (their
    destinations are more than 0.2 miles apart), and between them one
    candidate that is legal for both. *)
Definition db_race : database :=
  mkdb three_users
    [request "r1" "u1" 0 walk_requests.waiting None 600;
     request "r2" "u2" 0.0032 walk_requests.waiting None 600;
     request "c" "u3" 0.0016 walk_requests.waiting None 600]
    [].

Definition call_r1 : Sessions.call := Sessions.mk_call 0 "m1" "r1" 0 0 0 0.
Definition call_r2 : Sessions.call := Sessions.mk_call 0 "m2" "r2" 0 0.0032 0 0.0032.

(** [db_race] after both calls have written, the call for [r1] first. *)
Definition db_race_both_done : database :=
  mkdb three_users
    [request "r1" "u1" 0 walk_requests.matched (Some "u3") 600;
     request "r2" "u2" 0.0032 walk_requests.matched (Some "u3") 600;
     request "c" "u3" 0.0016 walk_requests.matched (Some "u2") 600]
    [matches.mk "m1" "r1" "c" ((0 + 0) / 2) ((0 + 0.0016) / 2) matches.pending;
     matches.mk "m2" "r2" "c" ((0 + 0) / 2) ((0.0032 + 0.0016) / 2) matches.pending].

(** [db_race] after the call for [r1] has matched [r1] with [c]. *)
Definition db_race_r1_done : database :=
  mkdb three_users
    [request "r1" "u1" 0 walk_requests.matched (Some "u3") 600;
     request "r2" "u2" 0.0032 walk_requests.waiting None 600;
     request "c" "u3" 0.0016 walk_requests.matched (Some "u1") 600]
    [matches.mk "m1" "r1" "c" ((0 + 0) / 2) ((0 + 0.0016) / 2) matches.pending].

(** A matched pair with its [matches] row. *)
Definition db_matched : database :=
  mkdb three_users
    [request "r1" "u1" 0 walk_requests.matched (Some "u2") 600;
     request "r2" "u2" 0 walk_requests.matched (Some "u1") 600]
    [matches.mk "m1" "r1" "r2" 0 0 matches.pending].

(** As [db_matched], with the match already cancelled. *)
Definition db_match_cancelled : database :=
  mkdb three_users
    [request "r1" "u1" 0 walk_requests.matched (Some "u2") 600;
     request "r2" "u2" 0 walk_requests.matched (Some "u1") 600]
    [matches.mk "m1" "r1" "r2" 0 0 matches.cancelled].

(** An expired request. *)
Definition db_expired : database :=
  mkdb three_users
    [request "r1" "u1" 0 walk_requests.expired None 600]
    [].

(** One request of each stored status, all past their deadline at time
    1000 but the last. *)
Definition db_sweep : database :=
  mkdb three_users
    [request "r1" "u1" 0 walk_requests.waiting None 600;
     request "r2" "u2" 0 walk_requests.matched (Some "u3") 600;
     request "r3" "u3" 0 walk_requests.cancelled None 600;
     request "r4" "u1" 0 walk_requests.expired None 600;
     request "r5" "u2" 0 walk_requests.waiting None 2000]
    [].

End Sample.

(** ** The eligibility conditions, in the words of the specification *)

Module Filter.
Import Geo.
Local Open Scope R_scope.

(** [eligible d now requester start_lat start_lng dest_lat dest_lng c]:
    the request [c] of the pool is a legal candidate for [requester],
    whose start and destination are the coordinates given. *)
Definition eligible (d : database) (now : timestamptz)
    (requester : walk_requests.row) (start_lat start_lng dest_lat dest_lng : R)
    (c : walk_requests.row) : Prop :=
  In c (tbl_walk_requests d)
  /\ walk_requests.id c <> walk_requests.id requester
  /\ walk_requests.user_id c <> walk_requests.user_id requester
  /\ (exists owner : profiles.row,
         In owner (tbl_profiles d)
         /\ profiles.id owner = walk_requests.user_id c
         /\ (50 < profiles.trust_score owner)%Z
         /\ profiles.is_banned owner = false)
  /\ calculate_distance start_lat start_lng
       (walk_requests.start_lat c) (walk_requests.start_lng c) <= 0.3
  /\ calculate_distance dest_lat dest_lng
       (walk_requests.dest_lat c) (walk_requests.dest_lng c) <= 0.2
  /\ (now < walk_requests.expires_at c)%Z
  /\ walk_requests.status c = walk_requests.waiting.

End Filter.

(** ** Vocabulary for the statements about the services *)

Module Outcome.

(** The database [d] with the status of the request [requestId] set to [s],
    and nothing else changed. *)
Definition with_status (d : database) (requestId : uuid) (s : walk_requests.status_t)
    : database :=
  with_walk_requests d
    (map (fun wr => if String.eqb (walk_requests.id wr) requestId
                    then walk_requests.set_status s wr else wr)
         (tbl_walk_requests d)).

(** The database [d] with the status of the match [matchId] set to [s],
    and nothing else changed. *)
Definition with_match_status (d : database) (matchId : uuid) (s : matches.status_t)
    : database :=
  with_matches d
    (map (fun m => if String.eqb (matches.id m) matchId
                   then matches.set_status s m else m)
         (tbl_matches d)).

(** The user [userId] owns one of the two requests of the match [m]. *)
Definition owns_request_of (d : database) (m : matches.row) (userId : uuid) : Prop :=
  exists req,
    In req (tbl_walk_requests d)
    /\ (walk_requests.id req = matches.request_1 m
        \/ walk_requests.id req = matches.request_2 m)
    /\ walk_requests.user_id req = userId.


End Outcome.

(** The primary keys of [profiles] and [matches]. *)
Definition profiles_pkey (d : database) : Prop :=
  NoDup (map profiles.id (tbl_profiles d)).

Definition matches_pkey (d : database) : Prop :=
  NoDup (map matches.id (tbl_matches d)).

(** ** Row level security ([CREATE POLICY] statements)

    [auth.uid()] is the id of the signed-in user, NULL when nobody is
    signed in.  A policy admits a row when its [USING] expression is true
    (not NULL); the [SELECT] policies of one table combine with OR. *)

Module Policies.

(** [auth.uid() = x], [x] nullable. *)
Definition uid_is (auth_uid : option uuid) (x : option uuid) : bool :=
  match auth_uid, x with
  | Some a, Some b => String.eqb a b
  | _, _ => false
  end.

(** "Users can view their own profile" *)
Definition profiles_select (auth_uid : option uuid) (p : profiles.row) : bool :=
  uid_is auth_uid (Some (profiles.id p)).

(** "Users can view their own walk requests" or
    "Users can view matched walk requests" *)
Definition walk_requests_select (auth_uid : option uuid) (wr : walk_requests.row) : bool :=
  uid_is auth_uid (Some (walk_requests.user_id wr))
  || uid_is auth_uid (walk_requests.matched_with wr).

(** "Users can update their own walk requests" *)
Definition walk_requests_update (auth_uid : option uuid) (wr : walk_requests.row) : bool :=
  uid_is auth_uid (Some (walk_requests.user_id wr)).

(** "Users can view their own matches": the rows that the [EXISTS]
    subquery asks for are the user's own requests, which the user can
    see. *)
Definition matches_select (d : database) (auth_uid : option uuid) (m : matches.row) : bool :=
  existsb
    (fun wr =>
       (String.eqb (walk_requests.id wr) (matches.request_1 m)
        || String.eqb (walk_requests.id wr) (matches.request_2 m))
       && uid_is auth_uid (Some (walk_requests.user_id wr)))
    (tbl_walk_requests d).

(** "Users can update their own profile" *)
Definition profiles_update (auth_uid : option uuid) (p : profiles.row) : bool :=
  uid_is auth_uid (Some (profiles.id p)).

(** The migration creates no policy [FOR UPDATE] on [matches]; row level
    security is enabled on the table, so an [UPDATE] of the client is
    admitted to no row. *)
Definition matches_update (auth_uid : option uuid) (m : matches.row) : bool :=
  false.

End Policies.

(** ** More of the services: [createWalkRequest], [getRequestStatus],
    [getMatchDetails], [getUserMatches] *)

(** How a [Promise] settles, for services with errors of their own. *)
Inductive promise (E A : Type) : Type :=
| Fulfilled (v : A)
| Thrown (e : E).
Arguments Fulfilled {E A} v.
Arguments Thrown {E A} e.

Module Intake.
Import Migration Services.

Inductive thrown :=
| Failed_to_create_walk_request
| Walk_request_created_but_no_data_returned
| Failed_to_fetch_request_status
| From_findMatch (e : Services.thrown).

Definition message (e : thrown) : string :=
  match e with
  | Failed_to_create_walk_request => "Failed to create walk request: "
  | Walk_request_created_but_no_data_returned =>
      "Walk request created but no data returned"
  | Failed_to_fetch_request_status => "Failed to fetch request status: "
  | From_findMatch e => Services.message e
  end.

Record CreateWalkRequestResult := mk_result {
  request : walk_requests.row;
  matchFound : bool;
  matchedRequestId : option uuid
}.

(** [from('walk_requests').insert(row)]: an error, and no change, when the
    row violates the primary key, the foreign key of [user_id] or the
    [CHECK] of [status]. *)
Definition walk_requests_insert (d : database) (row : walk_requests.row)
    : option database :=
  if existsb (fun wr => String.eqb (walk_requests.id wr) (walk_requests.id row))
       (tbl_walk_requests d)
     || negb (existsb (fun p => String.eqb (profiles.id p) (walk_requests.user_id row))
                (tbl_profiles d))
     || negb (walk_requests.status_check (walk_requests.status row))
  then None
  else Some (with_walk_requests d (tbl_walk_requests d ++ [row])).

(** [x || undefined] for a string or null [x]: the empty string is falsy. *)
Definition or_undefined (x : option string) : option string :=
  match x with
  | Some s => if String.eqb s "" then None else Some s
  | None => None
  end.

(** [x !== null] *)
Definition not_null {A : Type} (x : option A) : bool :=
  match x with
  | Some _ => true
  | None => false
  end.

(** The row that [createWalkRequest] inserts.  [Date_now] is the client's
    clock in milliseconds, [new_request_id] the UUID that the [id] column
    generates; [matched_with] takes its default, NULL. *)
Definition new_walk_request (Date_now : Z) (new_request_id userId : uuid)
    (startLat startLng destLat destLng : R) : walk_requests.row :=
  walk_requests.mk new_request_id userId startLat startLng destLat destLng
    walk_requests.waiting None ((Date_now + 10 * 60 * 1000) * 1000)%Z.

(** [createWalkRequest(userId, startLat, startLng, destLat, destLng)].
    [.select().single()] after the insert gives the inserted row, so the
    [no data returned] branch is never taken. *)
Definition createWalkRequest (d : database) (now : timestamptz) (Date_now : Z)
    (new_request_id new_match_id : uuid) (userId : uuid)
    (startLat startLng destLat destLng : R)
    : database * promise thrown CreateWalkRequestResult :=
  let walkRequest :=
    new_walk_request Date_now new_request_id userId startLat startLng destLat destLng in
  match walk_requests_insert d walkRequest with
  | None => (d, Thrown Failed_to_create_walk_request)
  | Some d1 =>
      match findMatch d1 now new_match_id (walk_requests.id walkRequest)
              startLat startLng destLat destLng with
      | (d2, Resolved matchedRequestId) =>
          (d2, Fulfilled (mk_result walkRequest (not_null matchedRequestId)
                            (or_undefined matchedRequestId)))
      | (d2, Rejected e) => (d2, Thrown (From_findMatch e))
      end
  end.

(** [getRequestStatus(requestId)] *)
Definition getRequestStatus (d : database) (requestId : uuid)
    : promise thrown walk_requests.row :=
  match single (walk_requests_eq_id d requestId) with
  | None => Thrown Failed_to_fetch_request_status
  | Some data => Fulfilled data
  end.

End Intake.

Module MatchQueries.
Import Services.

Inductive thrown :=
| Failed_to_fetch_buddy_request
| Failed_to_fetch_buddy_profile.

Definition message (e : thrown) : string :=
  match e with
  | Failed_to_fetch_buddy_request => "Failed to fetch buddy request: "
  | Failed_to_fetch_buddy_profile => "Failed to fetch buddy profile: "
  end.

Record MatchDetails := mk_details {
  matchId : uuid;
  buddyFirstName : string;
  buddyId : uuid;
  buddyTrustScore : Z;
  meetupLat : R;
  meetupLng : R;
  buddyStartLat : R;
  buddyStartLng : R;
  buddyDestLat : R;
  buddyDestLng : R;
  matchStatus : matches.status_t;
  createdAt : timestamptz
}.

(** [from('profiles').select(...).eq('id', userId)] *)
Definition profiles_eq_id (d : database) (userId : uuid) : list profiles.row :=
  filter (fun p => String.eqb (profiles.id p) userId) (tbl_profiles d).

(** [ORDER BY key DESC]: insertion into a list in descending order of
    [key].  SQL leaves the order of rows of equal key open; they keep
    their table order here. *)
Fixpoint insert_desc {A : Type} (key : A -> Z) (x : A) (l : list A) : list A :=
  match l with
  | [] => [x]
  | y :: rest =>
      if (key x <? key y)%Z then y :: insert_desc key x rest
      else x :: y :: rest
  end.

Definition order_by_desc {A : Type} (key : A -> Z) (l : list A) : list A :=
  fold_right (insert_desc key) [] l.

Section Columns.

(** The columns [profiles.first_name] and [matches.created_at], which the
    rows of this development leave out. *)
Variable first_name : profiles.row -> string.
Variable created_at : matches.row -> timestamptz.

(** [getMatchDetails(requestId)].  [.single()] fails with the code
    [PGRST116] when no row or more than one row comes back. *)
Definition getMatchDetails (d : database) (requestId : uuid)
    : promise thrown (option MatchDetails) :=
  match single (matches_of_request d requestId) with
  | None => Fulfilled None
  | Some m =>
      let buddyRequestId :=
        if String.eqb (matches.request_1 m) requestId
        then matches.request_2 m
        else matches.request_1 m in
      match single (walk_requests_eq_id d buddyRequestId) with
      | None => Thrown Failed_to_fetch_buddy_request
      | Some buddyRequest =>
          match single (profiles_eq_id d (walk_requests.user_id buddyRequest)) with
          | None => Thrown Failed_to_fetch_buddy_profile
          | Some buddyProfile =>
              Fulfilled (Some (mk_details
                (matches.id m)
                (first_name buddyProfile)
                (profiles.id buddyProfile)
                (profiles.trust_score buddyProfile)
                (matches.meetup_lat m)
                (matches.meetup_lng m)
                (walk_requests.start_lat buddyRequest)
                (walk_requests.start_lng buddyRequest)
                (walk_requests.dest_lat buddyRequest)
                (walk_requests.dest_lng buddyRequest)
                (matches.status m)
                (created_at m)))
          end
      end
  end.

(** [getUserMatches(userId)] *)
Definition getUserMatches (d : database) (userId : uuid) : list matches.row :=
  let userRequests :=
    filter (fun wr => String.eqb (walk_requests.user_id wr) userId)
           (tbl_walk_requests d) in
  match userRequests with
  | [] => []
  | _ =>
      let requestIds := map walk_requests.id userRequests in
      order_by_desc created_at
        (filter (fun m =>
                   existsb (fun id => String.eqb (matches.request_1 m) id
                                      || String.eqb (matches.request_2 m) id)
                           requestIds)
                (tbl_matches d))
  end.

End Columns.

End MatchQueries.

(** ** Reports and trust scores ([submitReport], [handle_new_user]) *)

Module reports.
Record row := mk {
  id : uuid;
  reporter_id : uuid;
  reported_user_id : uuid;
  match_id : option uuid;
  reason : string;
  details : option string
}.
End reports.

Module Trust.
Import Services.

(** The database together with the table [reports]. *)
Record store := mk_store {
  db : database;
  tbl_reports : list reports.row
}.

Inductive thrown := Failed_to_submit_report.

Definition message (e : thrown) : string :=
  match e with
  | Failed_to_submit_report => "Failed to submit report: "
  end.

(** The trigger function [handle_new_user()], for the new user [NEW_id]:
    the profile is inserted with the defaults of [trust_score] and
    [is_banned]; a second profile for one id violates the primary key. *)
Definition handle_new_user (d : database) (NEW_id : uuid) : option database :=
  if existsb (fun p => String.eqb (profiles.id p) NEW_id) (tbl_profiles d)
  then None
  else Some (mkdb (tbl_profiles d ++ [profiles.mk NEW_id 100 false])
               (tbl_walk_requests d) (tbl_matches d)).

(** [from('reports').insert(row)]: an error, and no change, when the row
    violates the primary key or one of the three foreign keys. *)
Definition reports_insert (st : store) (row : reports.row) : option store :=
  if existsb (fun r => String.eqb (reports.id r) (reports.id row)) (tbl_reports st)
     || negb (existsb (fun p => String.eqb (profiles.id p) (reports.reporter_id row))
                (tbl_profiles (db st)))
     || negb (existsb (fun p => String.eqb (profiles.id p) (reports.reported_user_id row))
                (tbl_profiles (db st)))
     || negb (match reports.match_id row with
              | None => true
              | Some mid =>
                  existsb (fun m => String.eqb (matches.id m) mid) (tbl_matches (db st))
              end)
  then None
  else Some (mk_store (db st) (tbl_reports st ++ [row])).

(** [SET trust_score = s] *)
Definition set_trust_score (s : Z) (p : profiles.row) : profiles.row :=
  profiles.mk (profiles.id p) s (profiles.is_banned p).

(** [from('profiles').update({ trust_score }).eq('id', userId)]: an error,
    and no change, when a row to update would violate the [CHECK] of the
    column. *)
Definition profiles_update_trust_score (d : database) (userId : uuid) (newScore : Z)
    : option database :=
  if existsb (fun p => String.eqb (profiles.id p) userId) (tbl_profiles d)
     && negb (profiles.trust_score_check (profiles.mk userId newScore false))
  then None
  else Some (mkdb (map (fun p => if String.eqb (profiles.id p) userId
                                 then set_trust_score newScore p else p)
                       (tbl_profiles d))
               (tbl_walk_requests d) (tbl_matches d)).

(** [rpc('decrement_trust_score', ...)]: the migration defines no function
    of this name, so the call reports an error. *)
Definition rpc_decrement_trust_score (d : database) (user_id : uuid) (amount : Z)
    : option database := None.

(** The block of [submitReport] that runs when the RPC reported an error.
    The outcome of its [update] is not looked at. *)
Definition decrement_manually (d : database) (reportedUserId : uuid) : database :=
  match single (MatchQueries.profiles_eq_id d reportedUserId) with
  | None => d
  | Some profile =>
      let newScore := Z.max 0 (profiles.trust_score profile - 10) in
      match profiles_update_trust_score d reportedUserId newScore with
      | Some d' => d'
      | None => d
      end
  end.

(** The update that [analyzeUserSafety] makes when the analysis says
    [shouldBan]: [update({ is_banned: true, trust_score: 0 }).eq('id', userId)].
    The rest of that function, the call of the analysis service, is not
    modelled. *)
Definition ban_user (d : database) (userId : uuid) : database :=
  mkdb (map (fun p => if String.eqb (profiles.id p) userId
                      then profiles.mk (profiles.id p) 0 true else p)
            (tbl_profiles d))
    (tbl_walk_requests d) (tbl_matches d).

(** [submitReport(reporterId, reportedUserId, matchId, reason, details)],
    up to the value it returns.  The safety analysis that it may start is
    not awaited and is no part of this. *)
Definition submitReport (st : store) (new_report_id : uuid)
    (reporterId reportedUserId : uuid) (matchId : option uuid)
    (reason : string) (details : option string)
    : store * promise thrown reports.row :=
  let report :=
    reports.mk new_report_id reporterId reportedUserId matchId reason
      (Intake.or_undefined details) in
  match reports_insert st report with
  | None => (st, Thrown Failed_to_submit_report)
  | Some st1 =>
      let d1 :=
        match rpc_decrement_trust_score (db st1) reportedUserId 10 with
        | Some d' => d'
        | None => decrement_manually (db st1) reportedUserId
        end in
      (mk_store d1 (tbl_reports st1), Fulfilled report)
  end.

End Trust.

(** ** The services as the application's client runs them

    The client of the application is created with the anon key, so the
    queries of a service are subject to the policies of the migration, for
    the user who is signed in ([auth_uid]; NULL when nobody is).  A
    [SELECT] returns the rows that a [SELECT] policy of the table admits.
    An [UPDATE] changes the rows that an [UPDATE] policy admits (and a
    [SELECT] policy, which every row does that the [UPDATE] policies of
    the migration admit) and passes over the others without an error; a
    table without such a policy is not changed at all.  An [INSERT] is an error when the [WITH CHECK]
    expression of the [INSERT] policy is not true of the new row.  The
    checks of foreign keys are not subject to the policies. *)

Module Client.
Import Services.

(** What a [SELECT] of the session returns of each table. *)
Definition visible (auth_uid : option uuid) (d : database) : database :=
  mkdb (filter (Policies.profiles_select auth_uid) (tbl_profiles d))
       (filter (Policies.walk_requests_select auth_uid) (tbl_walk_requests d))
       (filter (Policies.matches_select d auth_uid) (tbl_matches d)).

(** [from('walk_requests').update({ status }).eq('id', requestId)]: the
    rows of that id that "Users can update their own walk requests"
    admits; an error, and no change, when such a row would violate the
    [CHECK] of the column. *)
Definition walk_requests_update_status (auth_uid : option uuid) (d : database)
    (requestId : uuid) (s : walk_requests.status_t) : option database :=
  let updated wr :=
    String.eqb (walk_requests.id wr) requestId
    && Policies.walk_requests_update auth_uid wr in
  if existsb updated (tbl_walk_requests d) && negb (walk_requests.status_check s)
  then None
  else Some (with_walk_requests d
               (map (fun wr => if updated wr then walk_requests.set_status s wr else wr)
                    (tbl_walk_requests d))).

(** [from('matches').update({ status }).eq('id', matchId)] *)
Definition matches_update_status (auth_uid : option uuid) (d : database)
    (matchId : uuid) (s : matches.status_t) : option database :=
  let updated m :=
    String.eqb (matches.id m) matchId && Policies.matches_update auth_uid m in
  if existsb updated (tbl_matches d) && negb (matches.status_check s)
  then None
  else Some (with_matches d
               (map (fun m => if updated m then matches.set_status s m else m)
                    (tbl_matches d))).

(** [cancelRequest(requestId, userId)].  After [.single()] succeeded the
    row is there, so the [Request not found] branch is never taken. *)
Definition cancelRequest (auth_uid : option uuid) (d : database)
    (requestId userId : uuid) : database * settled unit :=
  match single (walk_requests_eq_id (visible auth_uid d) requestId) with
  | None => (d, Rejected Failed_to_fetch_request)
  | Some request =>
      if negb (String.eqb (walk_requests.user_id request) userId)
      then (d, Rejected Unauthorized_cancel)
      else
        match walk_requests_update_status auth_uid d requestId
                walk_requests.cancelled with
        | None => (d, Rejected Failed_to_cancel_request)
        | Some d' => (d', Resolved tt)
        end
  end.

(** [completeMatch(matchId, userId)] *)
Definition completeMatch (auth_uid : option uuid) (d : database)
    (matchId userId : uuid) : database * settled unit :=
  match single (matches_eq_id (visible auth_uid d) matchId) with
  | None => (d, Rejected Failed_to_fetch_match)
  | Some m =>
      let requests :=
        walk_requests_in_id (visible auth_uid d)
          [matches.request_1 m; matches.request_2 m] in
      let userOwnsRequest :=
        existsb (fun req => String.eqb (walk_requests.user_id req) userId) requests in
      if negb userOwnsRequest
      then (d, Rejected Unauthorized_match)
      else
        match matches_update_status auth_uid d matchId matches.completed with
        | None => (d, Rejected Failed_to_complete_match)
        | Some d' => (d', Resolved tt)
        end
  end.

(** [cancelMatch(matchId, userId)] *)
Definition cancelMatch (auth_uid : option uuid) (d : database)
    (matchId userId : uuid) : database * settled unit :=
  match single (matches_eq_id (visible auth_uid d) matchId) with
  | None => (d, Rejected Failed_to_fetch_match)
  | Some m =>
      let requests :=
        walk_requests_in_id (visible auth_uid d)
          [matches.request_1 m; matches.request_2 m] in
      let userOwnsRequest :=
        existsb (fun req => String.eqb (walk_requests.user_id req) userId) requests in
      if negb userOwnsRequest
      then (d, Rejected Unauthorized_match)
      else
        match matches_update_status auth_uid d matchId matches.cancelled with
        | None => (d, Rejected Failed_to_cancel_match)
        | Some d' => (d', Resolved tt)
        end
  end.

(** "Users can insert reports": [WITH CHECK (auth.uid() = reporter_id)] *)
Definition reports_with_check (auth_uid : option uuid) (r : reports.row) : bool :=
  Policies.uid_is auth_uid (Some (reports.reporter_id r)).

(** [from('reports').insert(row).select().single()] *)
Definition reports_insert (auth_uid : option uuid) (st : Trust.store)
    (row : reports.row) : option Trust.store :=
  if reports_with_check auth_uid row then Trust.reports_insert st row else None.

(** [from('profiles').update({ trust_score }).eq('id', userId)]: the rows
    of that id that "Users can update their own profile" admits. *)
Definition profiles_update_trust_score (auth_uid : option uuid) (d : database)
    (userId : uuid) (newScore : Z) : option database :=
  let updated p :=
    String.eqb (profiles.id p) userId && Policies.profiles_update auth_uid p in
  if existsb updated (tbl_profiles d)
     && negb (profiles.trust_score_check (profiles.mk userId newScore false))
  then None
  else Some (mkdb (map (fun p => if updated p
                                 then Trust.set_trust_score newScore p else p)
                       (tbl_profiles d))
               (tbl_walk_requests d) (tbl_matches d)).

(** The block of [submitReport] that runs when the RPC reported an error. *)
Definition decrement_manually (auth_uid : option uuid) (d : database)
    (reportedUserId : uuid) : database :=
  match single (MatchQueries.profiles_eq_id (visible auth_uid d) reportedUserId) with
  | None => d
  | Some profile =>
      let newScore := Z.max 0 (profiles.trust_score profile - 10) in
      match profiles_update_trust_score auth_uid d reportedUserId newScore with
      | Some d' => d'
      | None => d
      end
  end.

(** [submitReport(reporterId, reportedUserId, matchId, reason, details)],
    up to the value it returns. *)
Definition submitReport (auth_uid : option uuid) (st : Trust.store)
    (new_report_id : uuid) (reporterId reportedUserId : uuid)
    (matchId : option uuid) (reason : string) (details : option string)
    : Trust.store * promise Trust.thrown reports.row :=
  let report :=
    reports.mk new_report_id reporterId reportedUserId matchId reason
      (Intake.or_undefined details) in
  match reports_insert auth_uid st report with
  | None => (st, Thrown Trust.Failed_to_submit_report)
  | Some st1 =>
      let d1 :=
        match Trust.rpc_decrement_trust_score (Trust.db st1) reportedUserId 10 with
        | Some d' => d'
        | None => decrement_manually auth_uid (Trust.db st1) reportedUserId
        end in
      (Trust.mk_store d1 (Trust.tbl_reports st1), Fulfilled report)
  end.

End Client.

(** ** Claims of the specification as it words them

    These are stated to be compared with the code; the code does not
    satisfy them on every input. *)

Module AsStated.
Import Migration Services Sessions.
Local Open Scope R_scope.

(** [find_walk_buddy] returns the id of the candidate nearest to the
    requester among the candidates that satisfy all eligibility
    conditions, and null when there is none; the requester's start and
    destination are those of its request. *)
Definition returns_nearest_to_requester (d : database) (now : timestamptz)
    (new_match_id : uuid) (requester : walk_requests.row)
    (p_start_lat p_start_lng p_dest_lat p_dest_lng : R) : Prop :=
  let start_lat := walk_requests.start_lat requester in
  let start_lng := walk_requests.start_lng requester in
  let dest_lat := walk_requests.dest_lat requester in
  let dest_lng := walk_requests.dest_lng requester in
  match snd (find_walk_buddy d now new_match_id (walk_requests.id requester)
               p_start_lat p_start_lng p_dest_lat p_dest_lng) with
  | Return (Some cid) =>
      exists c,
        walk_requests.id c = cid
        /\ Filter.eligible d now requester start_lat start_lng dest_lat dest_lng c
        /\ forall c',
             Filter.eligible d now requester start_lat start_lng dest_lat dest_lng c' ->
             Geo.calculate_distance start_lat start_lng
               (walk_requests.start_lat c) (walk_requests.start_lng c)
             <= Geo.calculate_distance start_lat start_lng
                  (walk_requests.start_lat c') (walk_requests.start_lng c')
  | Return None =>
      forall c,
        ~ Filter.eligible d now requester start_lat start_lng dest_lat dest_lng c
  | Raise _ => False
  end.

(** Whenever [find_walk_buddy] selects a candidate, the requester's
    request and the candidate both go from waiting to matched, each
    [matched_with] is the other's user, and one [matches] row is added
    whose meetup is the midpoint of the two requests' start coordinates. *)
Definition records_match_of_waiting_pair (d : database) (now : timestamptz)
    (new_match_id p_request_id : uuid)
    (p_start_lat p_start_lng p_dest_lat p_dest_lng : R) : Prop :=
  forall d' cid,
    find_walk_buddy d now new_match_id p_request_id
      p_start_lat p_start_lng p_dest_lat p_dest_lng = (d', Return (Some cid)) ->
    exists r c,
      In r (tbl_walk_requests d) /\ walk_requests.id r = p_request_id
      /\ In c (tbl_walk_requests d) /\ walk_requests.id c = cid
      /\ walk_requests.status r = walk_requests.waiting
      /\ walk_requests.status c = walk_requests.waiting
      /\ In (walk_requests.set_status_matched_with walk_requests.matched
               (Some (walk_requests.user_id c)) r) (tbl_walk_requests d')
      /\ In (walk_requests.set_status_matched_with walk_requests.matched
               (Some (walk_requests.user_id r)) c) (tbl_walk_requests d')
      /\ tbl_matches d'
         = tbl_matches d
           ++ [matches.mk new_match_id p_request_id cid
                 ((walk_requests.start_lat r + walk_requests.start_lat c) / 2)
                 ((walk_requests.start_lng r + walk_requests.start_lng c) / 2)
                 matches.pending].

(** Some row of the table has this id and is waiting. *)
Definition still_waiting (d : database) (rid : uuid) : bool :=
  existsb (fun wr => String.eqb (walk_requests.id wr) rid
                     && walk_requests.status_eqb (walk_requests.status wr)
                          walk_requests.waiting)
          (tbl_walk_requests d).

(** A call that finds its chosen candidate claimed when it comes to write
    selects anew, or reports "no match" and leaves the store as it is; no
    error reaches the caller. *)
Definition conflict_retried (d : database) (c : call) (v_user_id : option uuid)
    (candidate : uuid * uuid) : Prop :=
  still_waiting d (fst candidate) = false ->
  match step d (Selected c v_user_id candidate) with
  | (d', Finished (Return (Some cid))) => still_waiting d cid = true
  | (d', Finished (Return None)) => d' = d
  | _ => False
  end.

(** [cancelRequest], called by the signed-in user [userId] for a request
    that exists, is rejected as unauthorized exactly when that user does
    not own the request; for the owner it cancels a waiting or matched
    request and leaves a completed, expired or cancelled one alone. *)
Definition cancel_respects_lifecycle (d : database) (requestId userId : uuid) : Prop :=
  forall r,
    In r (tbl_walk_requests d) ->
    walk_requests.id r = requestId ->
    (snd (Client.cancelRequest (Some userId) d requestId userId)
     = Rejected Unauthorized_cancel
     <-> walk_requests.user_id r <> userId)
    /\ (walk_requests.user_id r = userId ->
        match walk_requests.status r with
        | walk_requests.waiting | walk_requests.matched =>
            fst (Client.cancelRequest (Some userId) d requestId userId)
            = Outcome.with_status d requestId walk_requests.cancelled
        | walk_requests.expired | walk_requests.cancelled
        | walk_requests.completed =>
            fst (Client.cancelRequest (Some userId) d requestId userId) = d
        end).

End AsStated.

(** ** Sequences of operations *)

Module Lifecycle.
Import Migration Services.

(** The operations on the database, with the arguments that the caller
    and the environment (generated ids, the client's clock) supply.
    [report_op] is the database part of a fulfilled [submitReport],
    [ban_op] the ban that [analyzeUserSafety] may make. *)
Inductive operation :=
| createWalkRequest_op (Date_now : Z) (new_request_id new_match_id userId : uuid)
    (startLat startLng destLat destLng : R)
| findMatch_op (new_match_id requestId : uuid)
    (startLat startLng destLat destLng : R)
| cancelRequest_op (requestId userId : uuid)
| confirmMeetup_op (requestId userId : uuid)
| completeMatch_op (matchId userId : uuid)
| cancelMatch_op (matchId userId : uuid)
| cleanup_expired_requests_op
| handle_new_user_op (NEW_id : uuid)
| report_op (reportedUserId : uuid)
| ban_op (userId : uuid).

(** The database after one operation run at the database time [now]. *)
Definition apply_operation (now : timestamptz) (op : operation) (d : database)
    : database :=
  match op with
  | createWalkRequest_op Date_now new_request_id new_match_id userId
      startLat startLng destLat destLng =>
      fst (Intake.createWalkRequest d now Date_now new_request_id new_match_id
             userId startLat startLng destLat destLng)
  | findMatch_op new_match_id requestId startLat startLng destLat destLng =>
      fst (findMatch d now new_match_id requestId startLat startLng destLat destLng)
  | cancelRequest_op requestId userId => fst (cancelRequest d requestId userId)
  | confirmMeetup_op requestId userId => fst (confirmMeetup d requestId userId)
  | completeMatch_op matchId userId => fst (completeMatch d matchId userId)
  | cancelMatch_op matchId userId => fst (cancelMatch d matchId userId)
  | cleanup_expired_requests_op => cleanup_expired_requests d now
  | handle_new_user_op NEW_id =>
      match Trust.handle_new_user d NEW_id with
      | Some d' => d'
      | None => d
      end
  | report_op reportedUserId => Trust.decrement_manually d reportedUserId
  | ban_op userId => Trust.ban_user d userId
  end.

(** What [cleanup_expired_requests], run at [now], makes of one row. *)
Definition expire_row (now : timestamptz) (wr : walk_requests.row) : walk_requests.row :=
  if (walk_requests.status_eqb (walk_requests.status wr) walk_requests.waiting
      && (walk_requests.expires_at wr <? now)%Z)%bool
  then walk_requests.set_status walk_requests.expired wr
  else wr.

(** The database after the operations of a list, each with its time. *)
Fixpoint run_operations (ops : list (timestamptz * operation)) (d : database)
    : database :=
  match ops with
  | [] => d
  | (now, op) :: rest => run_operations rest (apply_operation now op d)
  end.

(** [wr'] is a later state of the request [wr]: the same id, owner,
    coordinates and deadline; not waiting again once it has left waiting;
    a status that the [CHECK] admits if it had one. *)
Definition request_step (wr wr' : walk_requests.row) : Prop :=
  walk_requests.id wr' = walk_requests.id wr
  /\ walk_requests.user_id wr' = walk_requests.user_id wr
  /\ walk_requests.start_lat wr' = walk_requests.start_lat wr
  /\ walk_requests.start_lng wr' = walk_requests.start_lng wr
  /\ walk_requests.dest_lat wr' = walk_requests.dest_lat wr
  /\ walk_requests.dest_lng wr' = walk_requests.dest_lng wr
  /\ walk_requests.expires_at wr' = walk_requests.expires_at wr
  /\ (walk_requests.status wr <> walk_requests.waiting ->
      walk_requests.status wr' <> walk_requests.waiting)
  /\ (walk_requests.status_check (walk_requests.status wr) = true ->
      walk_requests.status_check (walk_requests.status wr') = true).

(** [m'] is a later state of the match [m]: the same id, requests and
    meetup; not active if it was not. *)
Definition match_step (m m' : matches.row) : Prop :=
  matches.id m' = matches.id m
  /\ matches.request_1 m' = matches.request_1 m
  /\ matches.request_2 m' = matches.request_2 m
  /\ matches.meetup_lat m' = matches.meetup_lat m
  /\ matches.meetup_lng m' = matches.meetup_lng m
  /\ (matches.status m <> matches.active -> matches.status m' <> matches.active).

(** What is true of a match when it is created. *)
Definition fresh_match (m : matches.row) : Prop :=
  matches.status m <> matches.active
  /\ matches.request_1 m <> matches.request_2 m.

(** [d'] is a later state of [d]: the rows of [d] in their order, each in
    a later state, followed by new rows. *)
Definition evolves (d d' : database) : Prop :=
  (exists rows news,
      tbl_walk_requests d' = rows ++ news
      /\ Forall2 request_step (tbl_walk_requests d) rows
      /\ Forall (fun wr => walk_requests.status_check (walk_requests.status wr) = true)
           news)
  /\ (exists ms newms,
         tbl_matches d' = ms ++ newms
         /\ Forall2 match_step (tbl_matches d) ms
         /\ Forall fresh_match newms)
  /\ (walk_requests_pkey d -> walk_requests_pkey d').

(** [p'] is a later state of the profile [p]: the same id, a trust score
    that is not higher, and banned if [p] was. *)
Definition profile_step (p p' : profiles.row) : Prop :=
  profiles.id p' = profiles.id p
  /\ (profiles.trust_score p' <= profiles.trust_score p)%Z
  /\ (profiles.is_banned p = true -> profiles.is_banned p' = true).

(** The constraints of the table [profiles]: the primary key and the
    [CHECK] of [trust_score]. *)
Definition profiles_ok (d : database) : Prop :=
  profiles_pkey d
  /\ Forall (fun p => profiles.trust_score_check p = true) (tbl_profiles d).

(** From [d] to [d'] the constraints of [profiles] are kept and every
    profile has a later state. *)
Definition profiles_evolve (d d' : database) : Prop :=
  profiles_ok d ->
  profiles_ok d'
  /\ forall p, In p (tbl_profiles d) ->
       exists p', In p' (tbl_profiles d') /\ profile_step p p'.

End Lifecycle.

(** ** More sample data *)

Module Scenario.
Local Open Scope string_scope.
Local Open Scope Z_scope.

(** One waiting request, of the user [u2]. *)
Definition db_one_waiting : database :=
  mkdb Sample.three_users
    [Sample.request "r2" "u2" 0 walk_requests.waiting None 600]
    [].

(** The request that [createWalkRequest] inserts for [u1] at (0, 0) when
    the client's clock reads 0. *)
Definition r1_new : walk_requests.row :=
  Intake.new_walk_request 0 "r1" "u1" 0 0 0 0.

(** [db_one_waiting] after [createWalkRequest] for [u1] at (0, 0). *)
Definition db_one_waiting_matched : database :=
  mkdb Sample.three_users
    [Sample.request "r2" "u2" 0 walk_requests.matched (Some "u1") 600;
     walk_requests.mk "r1" "u1" 0 0 0 0 walk_requests.matched (Some "u2")
       ((0 + 10 * 60 * 1000) * 1000)]
    [matches.mk "m1" "r1" "r2" ((0 + 0) / 2) ((0 + 0) / 2) matches.pending].

(** No request at all. *)
Definition db_no_requests : database := mkdb Sample.three_users [] [].

(** [Sample.db_pair] with no report filed yet, the report that [u1] files
    against [u3], and the store after it. *)
Definition store_pair : Trust.store := Trust.mk_store Sample.db_pair [].

Definition report_1 : reports.row :=
  reports.mk "rep1" "u1" "u3" None "late" None.

Definition store_pair_reported : Trust.store :=
  Trust.mk_store
    (mkdb [Sample.profile "u1" 100 false; Sample.profile "u2" 80 false;
           Sample.profile "u3" 41 false]
       (tbl_walk_requests Sample.db_pair) [])
    [report_1].

(** [Sample.db_pool] with no report filed yet, and after the report
    [report_1] against [u3], the owner of the nearest candidate. *)
Definition store_pool : Trust.store := Trust.mk_store Sample.db_pool [].

Definition store_pool_reported : Trust.store :=
  Trust.mk_store
    (mkdb [Sample.profile "u1" 100 false; Sample.profile "u2" 80 false;
           Sample.profile "u3" 41 false; Sample.profile "u4" 50 false;
           Sample.profile "u5" 100 true]
       (tbl_walk_requests Sample.db_pool) [])
    [report_1].

(** No profile, request or match at all. *)
Definition db_blank : database := mkdb [] [] [].

(** A day of operations on [db_one_waiting]: [u1] asks for a walk and is
    matched with [r2]; [u2] cancels [r2]; [u1] tries to confirm and then
    completes the match; the sweeper runs after all deadlines. *)
Definition a_day : list (timestamptz * Lifecycle.operation) :=
  [(0, Lifecycle.createWalkRequest_op 0 "r1" "m1" "u1" 0 0 0 0);
   (1, Lifecycle.cancelRequest_op "r2" "u2");
   (2, Lifecycle.confirmMeetup_op "r1" "u1");
   (3, Lifecycle.completeMatch_op "m1" "u1");
   (1000000000, Lifecycle.cleanup_expired_requests_op)].

(** Operations on [Sample.db_pool]: the sweeper runs after the deadline of
    the request [late], then [u4] cancels the request [low]; and the pool
    after them. *)
Definition a_while : list (timestamptz * Lifecycle.operation) :=
  [(550, Lifecycle.cleanup_expired_requests_op);
   (560, Lifecycle.cancelRequest_op "low" "u4")].

Definition db_pool_later : database :=
  mkdb Sample.five_users
    [Sample.request "r1" "u1" 0 walk_requests.waiting None 600;
     Sample.request "r1b" "u1" 0 walk_requests.waiting None 600;
     Sample.request "far" "u2" 0.002 walk_requests.waiting None 600;
     Sample.request "near" "u3" 0.001 walk_requests.waiting None 600;
     Sample.request "low" "u4" 0 walk_requests.cancelled None 600;
     Sample.request "ban" "u5" 0 walk_requests.waiting None 600;
     Sample.request "late" "u2" 0 walk_requests.expired None 500;
     Sample.request "taken" "u3" 0 walk_requests.matched (Some "u2") 600]
    [].

End Scenario.

(** ** Geo utility: facts *)

Section GeoFacts.
Local Open Scope R_scope.
Import Geo.

Lemma R_leb_true (x y : R) : R_leb x y = true <-> x <= y.
Proof.
  unfold R_leb. destruct (Rle_dec x y); split; intros; auto; discriminate.
Qed.

Lemma R_leb_false (x y : R) : R_leb x y = false <-> y < x.
Proof.
  unfold R_leb. destruct (Rle_dec x y); split; intros; try discriminate; lra.
Qed.

Lemma radians_0 : radians 0 = 0.
Proof. unfold radians. lra. Qed.

Lemma atan2_0_1 : atan2 0 1 = 0.
Proof.
  unfold atan2. destruct (Rlt_dec 0 1) as [_ | H]; [ | lra ].
  replace (0 / 1) with 0 by lra. apply atan_0.
Qed.

Lemma haversine_a_sym (lat1 lng1 lat2 lng2 : R) :
  haversine_a lat1 lng1 lat2 lng2 = haversine_a lat2 lng2 lat1 lng1.
Proof.
  unfold haversine_a; cbv zeta.
  replace (radians (lat2 - lat1) / 2) with (- (radians (lat1 - lat2) / 2))
    by (unfold radians; lra).
  replace (radians (lng2 - lng1) / 2) with (- (radians (lng1 - lng2) / 2))
    by (unfold radians; lra).
  rewrite !sin_neg. ring.
Qed.

Lemma haversine_a_same (lat lng : R) : haversine_a lat lng lat lng = 0.
Proof.
  unfold haversine_a; cbv zeta.
  replace (radians (lat - lat) / 2) with 0 by (unfold radians; lra).
  replace (radians (lng - lng) / 2) with 0 by (unfold radians; lra).
  rewrite sin_0. ring.
Qed.

(** The arguments of both square roots of [calculate_distance] are never
    negative, whatever the coordinates: PostgreSQL's [sqrt], which raises
    an error on a negative argument, cannot fail over exact reals. *)
Lemma haversine_a_range (lat1 lng1 lat2 lng2 : R) :
  0 <= haversine_a lat1 lng1 lat2 lng2 <= 1.
Proof.
  unfold haversine_a; cbv zeta.
  set (p1 := radians lat1). set (p2 := radians lat2).
  replace (radians (lat2 - lat1)) with (p2 - p1) by (unfold p1, p2, radians; lra).
  set (h := radians (lng2 - lng1) / 2).
  pose proof (cos_2a_sin ((p2 - p1) / 2)) as Hd.
  replace (2 * ((p2 - p1) / 2)) with (p2 - p1) in Hd by lra.
  pose proof (cos_minus p2 p1) as Hm.
  pose proof (cos_plus p2 p1) as Hp.
  pose proof (COS_bound (p2 - p1)) as [Hm1 Hm2].
  pose proof (COS_bound (p2 + p1)) as [Hp1 Hp2].
  pose proof (sin2_cos2 h) as Hs. unfold Rsqr in Hs.
  assert (0 <= sin h * sin h <= 1) as [Hs0 Hs1]
    by (pose proof (Rle_0_sqr (sin h)); pose proof (Rle_0_sqr (cos h));
        unfold Rsqr in *; lra).
  set (s := sin h * sin h) in *.
  set (sd := sin ((p2 - p1) / 2)) in *.
  set (c := cos p1 * cos p2).
  set (t := sin p1 * sin p2).
  assert (Hc1 : cos (p2 - p1) = c + t) by (unfold c, t; rewrite Hm; ring).
  assert (Hc2 : cos (p2 + p1) = c - t) by (unfold c, t; rewrite Hp; ring).
  assert (Ha : sd * sd + c * sin h * sin h
               = (1 - (c + t)) / 2 * (1 - s) + (1 + (c - t)) / 2 * s).
  { replace (c * sin h * sin h) with (c * s) by (unfold s; ring).
    assert (sd * sd = (1 - (c + t)) / 2) as -> by lra. field. }
  rewrite Ha. rewrite Hc1 in *. rewrite Hc2 in *.
  split; nra.
Qed.

Lemma calculate_distance_sym (lat1 lng1 lat2 lng2 : R) :
  calculate_distance lat1 lng1 lat2 lng2 = calculate_distance lat2 lng2 lat1 lng1.
Proof.
  unfold calculate_distance; cbv zeta.
  now rewrite (haversine_a_sym lat1 lng1 lat2 lng2).
Qed.

Lemma calculate_distance_same (lat lng : R) :
  calculate_distance lat lng lat lng = 0.
Proof.
  unfold calculate_distance; cbv zeta.
  rewrite haversine_a_same, sqrt_0.
  replace (1 - 0) with 1 by lra. rewrite sqrt_1, atan2_0_1. ring.
Qed.

(** C9. The great-circle distance (Haversine formula on a sphere of radius
    3959 miles, over exact reals) is symmetric in its two points, and the
    distance from a point to itself is 0. *)
Theorem calculate_distance_symmetric_and_zero :
  (forall lat1 lng1 lat2 lng2 : R,
      calculate_distance lat1 lng1 lat2 lng2
      = calculate_distance lat2 lng2 lat1 lng1)
  /\ (forall lat lng : R, calculate_distance lat lng lat lng = 0).
Proof.
  split.
  - exact calculate_distance_sym.
  - exact calculate_distance_same.
Qed.

End GeoFacts.

(** ** [find_walk_buddy]: the candidate query *)

Section CandidateQuery.
Import Geo Migration Filter.
Local Open Scope R_scope.

Lemma status_eqb_eq (a b : walk_requests.status_t) :
  walk_requests.status_eqb a b = true <-> a = b.
Proof. destruct a, b; simpl; split; intros; congruence. Qed.

Lemma order_by_limit_1_none (A : Type) (key : A -> R) (rows : list A) :
  order_by_limit_1 key rows = None <-> rows = [].
Proof.
  destruct rows as [ | x rest ]; simpl.
  - tauto.
  - split; [ | discriminate ].
    destruct (order_by_limit_1 key rest) as [ y | ];
      [ destruct (R_leb (key x) (key y)) | ]; discriminate.
Qed.

Lemma order_by_limit_1_least (A : Type) (key : A -> R) (rows : list A) (x : A) :
  order_by_limit_1 key rows = Some x ->
  In x rows /\ forall y, In y rows -> key x <= key y.
Proof.
  revert x. induction rows as [ | z rest IH ]; simpl; intros x H.
  - discriminate.
  - destruct (order_by_limit_1 key rest) as [ y | ] eqn:E.
    + destruct (IH y eq_refl) as [Hin Hle].
      destruct (R_leb (key z) (key y)) eqn:L; injection H as <-.
      * apply R_leb_true in L. split; [ now left | ].
        intros w [ <- | Hw ]; [ lra | ]. specialize (Hle w Hw). lra.
      * apply R_leb_false in L. split; [ now right | ].
        intros w [ <- | Hw ]; [ lra | ]. now apply Hle.
    + injection H as <-. apply order_by_limit_1_none in E. subst rest.
      split; [ now left | ]. intros w [ <- | [] ]. lra.
Qed.

Lemma in_join_profiles (d : database) (wr : walk_requests.row) (p : profiles.row) :
  In (wr, p) (join_profiles d)
  <-> In wr (tbl_walk_requests d) /\ In p (tbl_profiles d)
      /\ profiles.id p = walk_requests.user_id wr.
Proof.
  unfold join_profiles. rewrite in_flat_map. split.
  - intros (wr' & Hwr & Hin). apply in_map_iff in Hin.
    destruct Hin as (p' & Heq & Hp). injection Heq as -> ->.
    apply filter_In in Hp. destruct Hp as [Hp He].
    apply String.eqb_eq in He. auto.
  - intros (Hwr & Hp & He). exists wr. split; [ assumption | ].
    apply in_map. apply filter_In. split; [ assumption | ].
    now apply String.eqb_eq.
Qed.

Lemma candidate_where_true (now : timestamptz) (p_request_id : uuid)
    (v_user_id : option uuid) (slat slng dlat dlng : R)
    (wr : walk_requests.row) (p : profiles.row) :
  candidate_where now p_request_id v_user_id slat slng dlat dlng (wr, p) = true
  <-> walk_requests.status wr = walk_requests.waiting
      /\ walk_requests.id wr <> p_request_id
      /\ (exists u, v_user_id = Some u /\ walk_requests.user_id wr <> u)
      /\ (50 < profiles.trust_score p)%Z
      /\ profiles.is_banned p = false
      /\ calculate_distance slat slng
           (walk_requests.start_lat wr) (walk_requests.start_lng wr) <= 0.3
      /\ calculate_distance dlat dlng
           (walk_requests.dest_lat wr) (walk_requests.dest_lng wr) <= 0.2
      /\ (now < walk_requests.expires_at wr)%Z.
Proof.
  unfold candidate_where.
  rewrite !andb_true_iff, status_eqb_eq, negb_true_iff, String.eqb_neq,
    Z.ltb_lt, Bool.eqb_true_iff, !R_leb_true, Z.ltb_lt.
  assert (Hneq : sql_neq (walk_requests.user_id wr) v_user_id = true
                 <-> exists u, v_user_id = Some u /\ walk_requests.user_id wr <> u).
  { destruct v_user_id as [ u | ]; simpl.
    - rewrite negb_true_iff, String.eqb_neq. split.
      + intros H. now exists u.
      + intros (u' & [= <-] & H). exact H.
    - split; [ discriminate | ]. intros (u' & H & _). discriminate. }
  rewrite Hneq. tauto.
Qed.

Lemma find_id_some (rows : list walk_requests.row) (r : walk_requests.row) :
  In r rows -> NoDup (map walk_requests.id rows) ->
  find (fun wr => String.eqb (walk_requests.id wr) (walk_requests.id r)) rows = Some r.
Proof.
  induction rows as [ | x rest IH ]; simpl; intros Hin Hnd.
  - contradiction.
  - inversion Hnd as [ | ? ? Hx Hrest ]; subst.
    destruct (String.eqb (walk_requests.id x) (walk_requests.id r)) eqn:E.
    + destruct Hin as [ -> | Hin ]; [ reflexivity | ].
      apply String.eqb_eq in E. exfalso. apply Hx. rewrite E.
      now apply in_map.
    + destruct Hin as [ -> | Hin ]; [ | now apply IH ].
      now rewrite String.eqb_refl in E.
Qed.

Lemma find_id_in (rows : list walk_requests.row) (r : walk_requests.row) :
  In r rows ->
  exists r', find (fun wr => String.eqb (walk_requests.id wr) (walk_requests.id r)) rows
             = Some r'.
Proof.
  intros Hin.
  destruct (find (fun wr => String.eqb (walk_requests.id wr) (walk_requests.id r)) rows)
    as [ r' | ] eqn:E; [ now exists r' | ].
  exfalso. apply (find_none _ _ E) in Hin. now rewrite String.eqb_refl in Hin.
Qed.

(** What the candidate query yields, for a requester that is in the table. *)
Lemma select_candidate_nearest (d : database) (now : timestamptz)
    (requester : walk_requests.row) (slat slng dlat dlng : R) :
  match select_candidate d now (walk_requests.id requester)
          (Some (walk_requests.user_id requester)) slat slng dlat dlng with
  | Some (cid, cuid) =>
      exists c, walk_requests.id c = cid /\ walk_requests.user_id c = cuid
        /\ eligible d now requester slat slng dlat dlng c
        /\ forall c', eligible d now requester slat slng dlat dlng c' ->
             calculate_distance slat slng
               (walk_requests.start_lat c) (walk_requests.start_lng c)
             <= calculate_distance slat slng
                  (walk_requests.start_lat c') (walk_requests.start_lng c')
  | None => forall c, ~ eligible d now requester slat slng dlat dlng c
  end.
Proof.
  unfold select_candidate.
  set (rows := filter _ (join_profiles d)).
  assert (Hrows : forall wr p, In (wr, p) rows
            <-> eligible d now requester slat slng dlat dlng wr
                /\ In p (tbl_profiles d) /\ profiles.id p = walk_requests.user_id wr
                /\ (50 < profiles.trust_score p)%Z /\ profiles.is_banned p = false).
  { intros wr p. unfold rows. rewrite filter_In, in_join_profiles, candidate_where_true.
    unfold eligible. split.
    - intros ((Hwr & Hp & Hid) & Hst & Hne & (u & [= <-] & Hu) & Ht & Hb & H1 & H2 & He).
      repeat split; auto. exists p. auto.
    - intros ((Hwr & Hne & Hu & _ & H1 & H2 & He & Hst) & Hp & Hid & Ht & Hb).
      repeat split; auto. exists (walk_requests.user_id requester). auto. }
  destruct (order_by_limit_1 (start_distance slat slng) rows) as [ [wr p] | ] eqn:E; simpl.
  - apply order_by_limit_1_least in E. destruct E as [Hin Hle].
    exists wr. split; [ reflexivity | ]. split; [ reflexivity | ]. split.
    + now apply Hrows in Hin.
    + intros c' Hc'. pose proof Hc' as (_ & _ & _ & (p' & Hp' & Hid' & Ht' & Hb') & _).
      assert (Hin' : In (c', p') rows) by (apply Hrows; auto).
      exact (Hle _ Hin').
  - apply order_by_limit_1_none in E. intros c Hc.
    pose proof Hc as (_ & _ & _ & (p' & Hp' & Hid' & Ht' & Hb') & _).
    assert (Hin' : In (c, p') rows) by (apply Hrows; auto).
    rewrite E in Hin'. contradiction.
Qed.

Lemma select_candidate_in (d : database) (now : timestamptz) (rid : uuid)
    (v : option uuid) (slat slng dlat dlng : R) (cid cuid : uuid) :
  select_candidate d now rid v slat slng dlat dlng = Some (cid, cuid) ->
  exists c u, In c (tbl_walk_requests d) /\ walk_requests.id c = cid
    /\ walk_requests.user_id c = cuid
    /\ walk_requests.status c = walk_requests.waiting
    /\ cid <> rid /\ v = Some u /\ cuid <> u.
Proof.
  unfold select_candidate. intros H.
  destruct (order_by_limit_1 _ _) as [ [wr p] | ] eqn:E; [ | discriminate ].
  simpl in H. injection H as <- <-.
  apply order_by_limit_1_least in E. destruct E as [Hin _].
  apply filter_In in Hin. destruct Hin as [Hj Hw].
  apply in_join_profiles in Hj. apply candidate_where_true in Hw.
  destruct Hj as (Hwr & _). destruct Hw as (Hst & Hne & (u & Hv & Hu) & _).
  exists wr, u. auto 10.
Qed.

End CandidateQuery.

(** ** Distances of the sample data *)

Section SampleDistances.
Import Geo.
Local Open Scope R_scope.

(** Along the equator the distance is the arc of the longitude difference. *)
Lemma calculate_distance_equator (lng1 lng2 : R) :
  0 <= lng2 - lng1 < 180 ->
  calculate_distance 0 lng1 0 lng2 = 3959 * radians (lng2 - lng1).
Proof.
  intros [H0 H180].
  pose proof PI_RGT_0 as HPI.
  unfold calculate_distance, haversine_a; cbv zeta.
  set (h := radians (lng2 - lng1) / 2).
  assert (Hh : 0 <= h < PI / 2) by (unfold h, radians; split; nra).
  replace (radians (0 - 0) / 2) with 0 by (unfold radians; lra).
  rewrite radians_0, sin_0, cos_0.
  replace (0 * 0 + 1 * 1 * sin h * sin h) with (sin h * sin h) by ring.
  assert (Hs : 0 <= sin h) by (apply sin_ge_0; lra).
  assert (Hc : 0 < cos h) by (apply cos_gt_0; lra).
  rewrite (sqrt_square _ Hs).
  replace (1 - sin h * sin h) with (cos h * cos h)
    by (pose proof (sin2_cos2 h) as E; unfold Rsqr in E; lra).
  rewrite sqrt_square by lra.
  unfold atan2. destruct (Rlt_dec 0 (cos h)) as [ _ | N ]; [ | contradiction ].
  change (sin h / cos h) with (tan h).
  rewrite atan_tan by lra.
  unfold h. lra.
Qed.

Lemma calculate_distance_equator_west (lng1 lng2 : R) :
  0 <= lng1 - lng2 < 180 ->
  calculate_distance 0 lng1 0 lng2 = 3959 * radians (lng1 - lng2).
Proof.
  intros H. rewrite calculate_distance_sym. now apply calculate_distance_equator.
Qed.

Lemma PI_bounds : 3 < PI <= 4.
Proof. pose proof PI2_3_2. pose proof PI_4. lra. Qed.

End SampleDistances.

(** Evaluation of the queries on sample data: distances first, then the
    comparisons of the [WHERE] and [ORDER BY] clauses. *)
Ltac real_side :=
  pose proof PI_bounds; unfold Geo.radians; first [ lra | nra ].

Ltac eval_distances :=
  rewrite ?calculate_distance_same;
  repeat first [ rewrite calculate_distance_equator by real_side
               | rewrite calculate_distance_equator_west by real_side ].

Ltac eval_R_leb :=
  repeat match goal with
  | |- context [Geo.R_leb ?x ?y] =>
      first [ replace (Geo.R_leb x y) with true
                by (symmetry; apply R_leb_true; real_side)
            | replace (Geo.R_leb x y) with false
                by (symmetry; apply R_leb_false; real_side) ]
  end.

Ltac eval_query :=
  repeat (progress (cbn -[Geo.calculate_distance Geo.R_leb]; eval_distances; eval_R_leb)).


(** ** [find_walk_buddy] *)

Section FindWalkBuddy.
Import Geo Migration Filter.
Local Open Scope string_scope.
Local Open Scope R_scope.

Lemma record_match_returns (d : database) (new_match_id rid : uuid)
    (slat slng : R) (v : option uuid) (c : walk_requests.row) (cuid : uuid) :
  In c (tbl_walk_requests d) -> walk_requests_pkey d ->
  record_match d new_match_id rid slat slng v (walk_requests.id c, cuid)
  = (insert_match new_match_id rid (walk_requests.id c)
       ((slat + walk_requests.start_lat c) / 2)
       ((slng + walk_requests.start_lng c) / 2)
       (update_matched (walk_requests.id c) v
          (update_matched rid (Some cuid) d)),
     Return (Some (walk_requests.id c))).
Proof.
  intros Hin Hpk. unfold record_match, select_column.
  now rewrite (find_id_some _ _ Hin Hpk).
Qed.

Lemma select_user_id_in (d : database) (r : walk_requests.row) :
  In r (tbl_walk_requests d) -> walk_requests_pkey d ->
  select_user_id d (walk_requests.id r) = Some (walk_requests.user_id r).
Proof.
  intros Hin Hpk. unfold select_user_id. now rewrite (find_id_some _ _ Hin Hpk).
Qed.

(** The call for [r1] passes the start and destination (0, 0), where
    [r2] is; the stored start of [r1] is (0, 1). *)
Lemma find_walk_buddy_db_requester_elsewhere :
  snd (find_walk_buddy Sample.db_requester_elsewhere 0 "m1" "r1" 0 0 0 0)
  = Return (Some "r2").
Proof.
  unfold find_walk_buddy; cbv zeta.
  assert (select_user_id Sample.db_requester_elsewhere "r1" = Some "u1") as ->
    by reflexivity.
  assert (select_candidate Sample.db_requester_elsewhere 0 "r1" (Some "u1") 0 0 0 0
          = Some ("r2", "u2")) as ->.
  { unfold select_candidate, join_profiles, Sample.db_requester_elsewhere,
      candidate_where, start_distance.
    eval_query. reflexivity. }
  reflexivity.
Qed.

(** C1, as the specification words it, fails: the distances of the
    candidate query are measured from the start and destination passed to
    the call, not from those of the requester's request.  For a requester
    whose request starts at (0, 1), a call that passes (0, 0) returns the
    request [r2] at (0, 0), which is 3959 * PI / 180 miles (more than 65)
    from the requester's start and so no legal candidate for it. *)
Lemma returns_nearest_to_requester_counterexample :
  calculate_distance 0 1 0 0 = 3959 * (PI / 180)
  /\ ~ AsStated.returns_nearest_to_requester Sample.db_requester_elsewhere 0 "m1"
         (Sample.request "r1" "u1" 1 walk_requests.waiting None 600) 0 0 0 0.
Proof.
  assert (E : calculate_distance 0 1 0 0 = 3959 * (PI / 180)).
  { rewrite calculate_distance_equator_west by lra. unfold radians. lra. }
  split; [ exact E | ].
  unfold AsStated.returns_nearest_to_requester; cbv zeta.
  change (walk_requests.id (Sample.request "r1" "u1" 1 walk_requests.waiting None 600))
    with "r1".
  rewrite find_walk_buddy_db_requester_elsewhere.
  intros (c & Hid & Hel & _).
  destruct Hel as (Hc & _ & _ & _ & Hd & _).
  simpl in Hc. destruct Hc as [ <- | [ <- | [] ] ]; simpl in Hid; try discriminate.
  simpl in Hd. rewrite E in Hd. pose proof PI_bounds. lra.
Qed.

(** C1, amended.  For a requester that is in the pool, whenever
    [find_walk_buddy] returns, it returns the id of a candidate that
    satisfies all eligibility conditions (another request, of another
    user, whose owner has a trust score above 50 and is not banned, whose
    start is at most 0.3 miles from the start passed to the call and whose
    destination is at most 0.2 miles from the destination passed to the
    call, whose deadline is after [now] and whose status is waiting) and
    whose start is nearest to the start passed to the call among all such
    candidates; it returns null exactly when there is no such
    candidate. *)
Theorem find_walk_buddy_returns_nearest_eligible
    (d : database) (now : timestamptz) (new_match_id : uuid)
    (requester : walk_requests.row) (slat slng dlat dlng : R) (v : option uuid) :
  In requester (tbl_walk_requests d) ->
  walk_requests_pkey d ->
  snd (find_walk_buddy d now new_match_id (walk_requests.id requester)
         slat slng dlat dlng) = Return v ->
  match v with
  | Some cid =>
      exists c,
        walk_requests.id c = cid
        /\ eligible d now requester slat slng dlat dlng c
        /\ forall c', eligible d now requester slat slng dlat dlng c' ->
             calculate_distance slat slng
               (walk_requests.start_lat c) (walk_requests.start_lng c)
             <= calculate_distance slat slng
                  (walk_requests.start_lat c') (walk_requests.start_lng c')
  | None =>
      forall c, ~ eligible d now requester slat slng dlat dlng c
  end.
Proof.
  intros Hin Hpk. unfold find_walk_buddy; cbv zeta.
  rewrite (select_user_id_in _ _ Hin Hpk).
  pose proof (select_candidate_nearest d now requester slat slng dlat dlng) as H.
  destruct (select_candidate _ _ _ _ _ _ _ _) as [ [cid cuid] | ].
  - destruct H as (c & <- & <- & Hel & Hmin).
    rewrite record_match_returns; [ | apply Hel | assumption ].
    simpl. intros [= <-]. exists c. auto.
  - simpl. intros [= <-]. exact H.
Qed.

Lemma db_pool_pkey : walk_requests_pkey Sample.db_pool.
Proof.
  unfold walk_requests_pkey. simpl.
  repeat (constructor; [ simpl; intuition discriminate | ]). constructor.
Defined.

(** On the sample pool the nearer of the two legal candidates is returned,
    although it comes later in the table; the candidates with trust score
    50, a banned owner, a deadline equal to [now] or status matched are
    passed over, and so is the requester's user's other request. *)
Lemma select_candidate_db_pool :
  select_candidate Sample.db_pool 500 "r1" (Some "u1") 0 0 0 0 = Some ("near", "u3").
Proof.
  unfold select_candidate, join_profiles, Sample.db_pool, candidate_where,
    start_distance.
  eval_query. reflexivity.
Qed.

Example find_walk_buddy_db_pool :
  snd (find_walk_buddy Sample.db_pool 500 "m1" "r1" 0 0 0 0) = Return (Some "near").
Proof.
  unfold find_walk_buddy; cbv zeta.
  assert (select_user_id Sample.db_pool "r1" = Some "u1") as -> by reflexivity.
  rewrite select_candidate_db_pool. reflexivity.
Qed.

Lemma find_walk_buddy_returns_nearest_eligible_witness :
  exists c,
    walk_requests.id c = "near"
    /\ eligible Sample.db_pool 500
         (Sample.request "r1" "u1" 0 walk_requests.waiting None 600) 0 0 0 0 c
    /\ forall c',
         eligible Sample.db_pool 500
           (Sample.request "r1" "u1" 0 walk_requests.waiting None 600) 0 0 0 0 c' ->
         calculate_distance 0 0
           (walk_requests.start_lat c) (walk_requests.start_lng c)
         <= calculate_distance 0 0
              (walk_requests.start_lat c') (walk_requests.start_lng c').
Proof.
  apply (find_walk_buddy_returns_nearest_eligible Sample.db_pool 500 "m1"
           (Sample.request "r1" "u1" 0 walk_requests.waiting None 600) 0 0 0 0
           (Some "near")).
  - simpl; auto.
  - exact db_pool_pkey.
  - exact find_walk_buddy_db_pool.
Defined.

(** The thresholds are inclusive: a candidate at exactly 0.3 miles from
    the start and exactly 0.2 miles from the destination is returned. *)
Example find_walk_buddy_db_boundary :
  calculate_distance 0 0 0 (54 / (3959 * PI)) = 3 / 10
  /\ calculate_distance 0 0 0 (36 / (3959 * PI)) = 2 / 10
  /\ snd (find_walk_buddy Sample.db_boundary 500 "m1" "r1" 0 0 0 0)
     = Return (Some "edge").
Proof.
  pose proof PI_bounds as HPI.
  assert (H3 : 0 < 54 / (3959 * PI) < 180).
  { split; [ apply Rdiv_lt_0_compat; lra | ].
    apply Rmult_lt_reg_r with (3959 * PI); [ lra | ].
    unfold Rdiv. rewrite Rmult_assoc, Rinv_l by lra. lra. }
  assert (H2 : 0 < 36 / (3959 * PI) < 180).
  { split; [ apply Rdiv_lt_0_compat; lra | ].
    apply Rmult_lt_reg_r with (3959 * PI); [ lra | ].
    unfold Rdiv. rewrite Rmult_assoc, Rinv_l by lra. lra. }
  assert (E3 : calculate_distance 0 0 0 (54 / (3959 * PI)) = 3 / 10).
  { rewrite calculate_distance_equator by lra. unfold radians. field. lra. }
  assert (E2 : calculate_distance 0 0 0 (36 / (3959 * PI)) = 2 / 10).
  { rewrite calculate_distance_equator by lra. unfold radians. field. lra. }
  split; [ exact E3 | ]. split; [ exact E2 | ].
  unfold find_walk_buddy; cbv zeta.
  assert (select_user_id Sample.db_boundary "r1" = Some "u1") as -> by reflexivity.
  assert (select_candidate Sample.db_boundary 500 "r1" (Some "u1") 0 0 0 0
          = Some ("edge", "u2")) as ->.
  { unfold select_candidate, join_profiles, Sample.db_boundary, candidate_where,
      start_distance.
    cbn -[calculate_distance R_leb]. rewrite E3, E2. eval_query. reflexivity. }
  reflexivity.
Qed.

Lemma find_walk_buddy_db_pair :
  find_walk_buddy Sample.db_pair 0 "m1" "r1" 0 0 0 0
  = (Sample.db_pair_matched, Return (Some "r2")).
Proof.
  unfold find_walk_buddy; cbv zeta.
  assert (select_user_id Sample.db_pair "r1" = Some "u1") as -> by reflexivity.
  assert (select_candidate Sample.db_pair 0 "r1" (Some "u1") 0 0 0 0
          = Some ("r2", "u2")) as ->.
  { unfold select_candidate, join_profiles, Sample.db_pair, candidate_where,
      start_distance.
    eval_query. reflexivity. }
  reflexivity.
Qed.

(** The requester's own status is not part of the candidate query: for a
    cancelled requester the call proceeds as for a waiting one. *)
Lemma find_walk_buddy_db_cancelled_requester :
  find_walk_buddy Sample.db_cancelled_requester 0 "m1" "r1" 0 0 0 0
  = (Sample.db_pair_matched, Return (Some "r2")).
Proof.
  unfold find_walk_buddy; cbv zeta.
  assert (select_user_id Sample.db_cancelled_requester "r1" = Some "u1") as ->
    by reflexivity.
  assert (select_candidate Sample.db_cancelled_requester 0 "r1" (Some "u1") 0 0 0 0
          = Some ("r2", "u2")) as ->.
  { unfold select_candidate, join_profiles, Sample.db_cancelled_requester,
      candidate_where, start_distance.
    eval_query. reflexivity. }
  reflexivity.
Qed.

(** The meetup is computed from the start passed to the call. *)
Lemma find_walk_buddy_db_moved_requester :
  find_walk_buddy Sample.db_moved_requester 0 "m1" "r1" 0 0 0 0
  = (mkdb Sample.three_users
       [walk_requests.mk "r1" "u1" 10 10 0 0 walk_requests.matched (Some "u2") 600;
        Sample.request "r2" "u2" 0 walk_requests.matched (Some "u1") 600]
       [matches.mk "m1" "r1" "r2" ((0 + 0) / 2) ((0 + 0) / 2) matches.pending],
     Return (Some "r2")).
Proof.
  unfold find_walk_buddy; cbv zeta.
  assert (select_user_id Sample.db_moved_requester "r1" = Some "u1") as ->
    by reflexivity.
  assert (select_candidate Sample.db_moved_requester 0 "r1" (Some "u1") 0 0 0 0
          = Some ("r2", "u2")) as ->.
  { unfold select_candidate, join_profiles, Sample.db_moved_requester,
      candidate_where, start_distance.
    eval_query. reflexivity. }
  reflexivity.
Qed.

(** C2, as the specification words it, fails on two inputs: a requester
    whose request was cancelled is moved from cancelled (not from waiting)
    to matched, and for a requester whose stored start (10, 10) differs
    from the start passed to the call (0, 0) the recorded meetup is (0, 0),
    not the midpoint (5, 5) of the two requests' stored starts. *)
Lemma records_match_of_waiting_pair_counterexample :
  ~ AsStated.records_match_of_waiting_pair
      Sample.db_cancelled_requester 0 "m1" "r1" 0 0 0 0
  /\ ~ AsStated.records_match_of_waiting_pair
         Sample.db_moved_requester 0 "m1" "r1" 0 0 0 0.
Proof.
  split; intros H.
  - destruct (H _ _ find_walk_buddy_db_cancelled_requester)
      as (r & c & Hr & Hid & _ & _ & Hst & _).
    simpl in Hr. destruct Hr as [ <- | [ <- | [] ] ]; simpl in *; discriminate.
  - destruct (H _ _ find_walk_buddy_db_moved_requester)
      as (r & c & Hr & Hid & Hc & Hcid & _ & _ & _ & _ & Hm).
    simpl in Hr, Hc.
    destruct Hr as [ <- | [ <- | [] ] ]; simpl in Hid; try discriminate.
    destruct Hc as [ <- | [ <- | [] ] ]; simpl in Hcid; try discriminate.
    simpl in Hm. injection Hm as Hlat _. lra.
Qed.

(** C2, amended.  Whenever [find_walk_buddy], called for a waiting request
    of the table, selects a candidate, the candidate is another request,
    waiting until then; both requests become matched, each with
    [matched_with] set to the other's user, and every other request and
    all profiles are left as they were; exactly one [matches] row is
    added, for the requester and the candidate in this order, with status
    pending and with the meetup at the average of the start passed to the
    call and the candidate's stored start. *)
Theorem find_walk_buddy_records_match
    (d d' : database) (now : timestamptz) (new_match_id : uuid)
    (requester : walk_requests.row) (slat slng dlat dlng : R) (cid : uuid) :
  walk_requests_pkey d ->
  In requester (tbl_walk_requests d) ->
  walk_requests.status requester = walk_requests.waiting ->
  find_walk_buddy d now new_match_id (walk_requests.id requester)
    slat slng dlat dlng = (d', Return (Some cid)) ->
  exists c,
    In c (tbl_walk_requests d)
    /\ walk_requests.id c = cid
    /\ walk_requests.id c <> walk_requests.id requester
    /\ walk_requests.status c = walk_requests.waiting
    /\ In (walk_requests.set_status_matched_with walk_requests.matched
             (Some (walk_requests.user_id c)) requester) (tbl_walk_requests d')
    /\ In (walk_requests.set_status_matched_with walk_requests.matched
             (Some (walk_requests.user_id requester)) c) (tbl_walk_requests d')
    /\ tbl_walk_requests d'
       = map (fun wr =>
                if String.eqb (walk_requests.id wr) (walk_requests.id requester)
                then walk_requests.set_status_matched_with walk_requests.matched
                       (Some (walk_requests.user_id c)) wr
                else if String.eqb (walk_requests.id wr) cid
                then walk_requests.set_status_matched_with walk_requests.matched
                       (Some (walk_requests.user_id requester)) wr
                else wr)
             (tbl_walk_requests d)
    /\ tbl_profiles d' = tbl_profiles d
    /\ tbl_matches d'
       = (tbl_matches d
          ++ [matches.mk new_match_id (walk_requests.id requester) cid
                ((slat + walk_requests.start_lat c) / 2)
                ((slng + walk_requests.start_lng c) / 2)
                matches.pending])%list.
Proof.
  intros Hpk Hin Hwaiting H. unfold find_walk_buddy in H; cbv zeta in H.
  rewrite (select_user_id_in _ _ Hin Hpk) in H.
  destruct (select_candidate _ _ _ _ _ _ _ _) as [ [cid' cuid] | ] eqn:E;
    [ | discriminate ].
  destruct (select_candidate_in _ _ _ _ _ _ _ _ _ _ E)
    as (c & u & Hc & <- & <- & Hst & Hne & [= <-] & Hu).
  rewrite (record_match_returns _ _ _ _ _ _ _ _ Hc Hpk) in H.
  injection H as <- <-.
  assert (Htbl :
    tbl_walk_requests
      (insert_match new_match_id (walk_requests.id requester) (walk_requests.id c)
         ((slat + walk_requests.start_lat c) / 2)
         ((slng + walk_requests.start_lng c) / 2)
         (update_matched (walk_requests.id c) (Some (walk_requests.user_id requester))
            (update_matched (walk_requests.id requester)
               (Some (walk_requests.user_id c)) d)))
    = map (fun wr =>
             if String.eqb (walk_requests.id wr) (walk_requests.id requester)
             then walk_requests.set_status_matched_with walk_requests.matched
                    (Some (walk_requests.user_id c)) wr
             else if String.eqb (walk_requests.id wr) (walk_requests.id c)
             then walk_requests.set_status_matched_with walk_requests.matched
                    (Some (walk_requests.user_id requester)) wr
             else wr)
          (tbl_walk_requests d)).
  { simpl. rewrite map_map. apply map_ext. intros wr.
    destruct (String.eqb (walk_requests.id wr) (walk_requests.id requester)) eqn:Er.
    - simpl. apply String.eqb_eq in Er. rewrite Er.
      apply not_eq_sym in Hne. apply String.eqb_neq in Hne. now rewrite Hne.
    - reflexivity. }
  exists c. repeat split; try assumption.
  - rewrite Htbl. apply in_map_iff. exists requester.
    now rewrite String.eqb_refl.
  - rewrite Htbl. apply in_map_iff. exists c. split; [ | assumption ].
    apply String.eqb_neq in Hne. now rewrite Hne, String.eqb_refl.
Qed.

Lemma db_pair_pkey : walk_requests_pkey Sample.db_pair.
Proof.
  unfold walk_requests_pkey. simpl.
  repeat (constructor; [ simpl; intuition discriminate | ]). constructor.
Defined.

Lemma find_walk_buddy_records_match_witness :
  exists c,
    In c (tbl_walk_requests Sample.db_pair)
    /\ walk_requests.id c = "r2"
    /\ walk_requests.id c <> "r1"
    /\ walk_requests.status c = walk_requests.waiting
    /\ In (walk_requests.set_status_matched_with walk_requests.matched
             (Some (walk_requests.user_id c))
             (Sample.request "r1" "u1" 0 walk_requests.waiting None 600))
          (tbl_walk_requests Sample.db_pair_matched)
    /\ In (walk_requests.set_status_matched_with walk_requests.matched
             (Some "u1") c)
          (tbl_walk_requests Sample.db_pair_matched)
    /\ tbl_walk_requests Sample.db_pair_matched
       = map (fun wr =>
                if String.eqb (walk_requests.id wr) "r1"
                then walk_requests.set_status_matched_with walk_requests.matched
                       (Some (walk_requests.user_id c)) wr
                else if String.eqb (walk_requests.id wr) "r2"
                then walk_requests.set_status_matched_with walk_requests.matched
                       (Some "u1") wr
                else wr)
             (tbl_walk_requests Sample.db_pair)
    /\ tbl_profiles Sample.db_pair_matched = tbl_profiles Sample.db_pair
    /\ tbl_matches Sample.db_pair_matched
       = (tbl_matches Sample.db_pair
          ++ [matches.mk "m1" "r1" "r2"
                ((0 + walk_requests.start_lat c) / 2)
                ((0 + walk_requests.start_lng c) / 2)
                matches.pending])%list.
Proof.
  apply (find_walk_buddy_records_match Sample.db_pair Sample.db_pair_matched 0 "m1"
           (Sample.request "r1" "u1" 0 walk_requests.waiting None 600)
           0 0 0 0 "r2").
  - exact db_pair_pkey.
  - simpl; auto.
  - reflexivity.
  - exact find_walk_buddy_db_pair.
Defined.

(** C4.  The retry path [findMatch], run for the cancelled request [r1],
    resolves with the candidate [r2] and leaves a [matches] row that
    references [r1], whose status was cancelled when the row was created;
    [r1] is then matched. *)
Theorem findMatch_matches_cancelled_requester :
  map (fun wr => (walk_requests.id wr, walk_requests.status wr))
      (tbl_walk_requests Sample.db_cancelled_requester)
  = [("r1", walk_requests.cancelled); ("r2", walk_requests.waiting)]
  /\ Services.findMatch Sample.db_cancelled_requester 0 "m1" "r1" 0 0 0 0
     = (Sample.db_pair_matched, Services.Resolved (Some "r2"))
  /\ map (fun m => (matches.request_1 m, matches.request_2 m))
         (tbl_matches Sample.db_pair_matched)
     = [("r1", "r2")]
  /\ map (fun wr => (walk_requests.id wr, walk_requests.status wr))
         (tbl_walk_requests Sample.db_pair_matched)
     = [("r1", walk_requests.matched); ("r2", walk_requests.matched)].
Proof.
  split; [ reflexivity | ]. split; [ | split; reflexivity ].
  unfold Services.findMatch. now rewrite find_walk_buddy_db_cancelled_requester.
Qed.

End FindWalkBuddy.

(** ** Concurrent calls of [find_walk_buddy] *)

Section ConcurrentCalls.
Import Geo Migration Services Sessions.
Local Open Scope string_scope.
Local Open Scope R_scope.

(** A session that runs alone does what [find_walk_buddy] does. *)
Lemma step_step_find_walk_buddy (d : database) (c : call) :
  (let (d1, s1) := step d (Called c) in step d1 s1)
  = (let (d', o) :=
       find_walk_buddy d (c_now c) (c_new_match_id c) (p_request_id c)
         (p_start_lat c) (p_start_lng c) (p_dest_lat c) (p_dest_lng c) in
     (d', Finished o)).
Proof.
  unfold find_walk_buddy; simpl.
  destruct (select_candidate _ _ _ _ _ _ _ _) as [ candidate | ]; reflexivity.
Qed.

Lemma step_call_r1 :
  step Sample.db_race (Called Sample.call_r1)
  = (Sample.db_race, Selected Sample.call_r1 (Some "u1") ("c", "u3")).
Proof.
  unfold step, Sample.call_r1; cbn [p_request_id c_now p_start_lat p_start_lng
    p_dest_lat p_dest_lng].
  assert (select_user_id Sample.db_race "r1" = Some "u1") as -> by reflexivity.
  assert (select_candidate Sample.db_race 0 "r1" (Some "u1") 0 0 0 0
          = Some ("c", "u3")) as ->.
  { unfold select_candidate, join_profiles, Sample.db_race, candidate_where,
      start_distance.
    eval_query. reflexivity. }
  reflexivity.
Qed.

Lemma step_call_r2 :
  step Sample.db_race (Called Sample.call_r2)
  = (Sample.db_race, Selected Sample.call_r2 (Some "u2") ("c", "u3")).
Proof.
  unfold step, Sample.call_r2; cbn [p_request_id c_now p_start_lat p_start_lng
    p_dest_lat p_dest_lng].
  assert (select_user_id Sample.db_race "r2" = Some "u2") as -> by reflexivity.
  assert (select_candidate Sample.db_race 0 "r2" (Some "u2") 0 0.0032 0 0.0032
          = Some ("c", "u3")) as ->.
  { unfold select_candidate, join_profiles, Sample.db_race, candidate_where,
      start_distance.
    eval_query. reflexivity. }
  reflexivity.
Qed.

Lemma step_write_r1 :
  step Sample.db_race (Selected Sample.call_r1 (Some "u1") ("c", "u3"))
  = (Sample.db_race_r1_done, Finished (Return (Some "c"))).
Proof. reflexivity. Qed.

Lemma step_write_r2_late :
  step Sample.db_race_r1_done (Selected Sample.call_r2 (Some "u2") ("c", "u3"))
  = (Sample.db_race_both_done, Finished (Return (Some "c"))).
Proof. reflexivity. Qed.

(** Were the call for [r2] to start after the call for [r1] has written,
    it would find no candidate. *)
Lemma step_call_r2_after :
  step Sample.db_race_r1_done (Called Sample.call_r2)
  = (Sample.db_race_r1_done, Finished (Return None)).
Proof.
  unfold step, Sample.call_r2; cbn [p_request_id c_now p_start_lat p_start_lng
    p_dest_lat p_dest_lng].
  assert (select_user_id Sample.db_race_r1_done "r2" = Some "u2") as ->
    by reflexivity.
  assert (select_candidate Sample.db_race_r1_done 0 "r2" (Some "u2") 0 0.0032 0 0.0032
          = None) as ->.
  { unfold select_candidate, join_profiles, Sample.db_race_r1_done, candidate_where,
      start_distance.
    eval_query. reflexivity. }
  reflexivity.
Qed.

Example run_one_after_the_other :
  run [0; 0; 1; 1]%nat Sample.db_race [Called Sample.call_r1; Called Sample.call_r2]
  = (Sample.db_race_r1_done, [Finished (Return (Some "c")); Finished (Return None)]).
Proof.
  cbn [run nth_error set_nth]. rewrite step_call_r1.
  cbn [run nth_error set_nth]. rewrite step_write_r1.
  cbn [run nth_error set_nth]. rewrite step_call_r2_after.
  cbn [run nth_error set_nth step]. reflexivity.
Qed.

Lemma run_until_r2_writes :
  run [0; 1; 0]%nat Sample.db_race [Called Sample.call_r1; Called Sample.call_r2]
  = (Sample.db_race_r1_done,
     [Finished (Return (Some "c"));
      Selected Sample.call_r2 (Some "u2") ("c", "u3")]).
Proof.
  cbn [run nth_error set_nth]. rewrite step_call_r1.
  cbn [run nth_error set_nth]. rewrite step_call_r2.
  cbn [run nth_error set_nth]. rewrite step_write_r1.
  reflexivity.
Qed.

(** C3.  When the two calls both run their candidate query before either
    writes, both select the candidate [c] and both write: [c] ends up in
    two [matches] rows, and both [r1] and [r2] are matched with the user
    of [c].  The [UPDATE] of the candidate carries no condition on its
    status. *)
Theorem concurrent_calls_claim_candidate_twice :
  run [0; 1; 0; 1]%nat Sample.db_race [Called Sample.call_r1; Called Sample.call_r2]
  = (Sample.db_race_both_done,
     [Finished (Return (Some "c")); Finished (Return (Some "c"))])
  /\ map (fun m => (matches.request_1 m, matches.request_2 m))
         (tbl_matches Sample.db_race_both_done)
     = [("r1", "c"); ("r2", "c")]
  /\ matches_referencing Sample.db_race_both_done "c" = 2%nat
  /\ map (fun wr => (walk_requests.id wr, walk_requests.status wr,
                     walk_requests.matched_with wr))
         (tbl_walk_requests Sample.db_race_both_done)
     = [("r1", walk_requests.matched, Some "u3");
        ("r2", walk_requests.matched, Some "u3");
        ("c", walk_requests.matched, Some "u2")].
Proof.
  split; [ | repeat split; reflexivity ].
  cbn [run nth_error set_nth]. rewrite step_call_r1.
  cbn [run nth_error set_nth]. rewrite step_call_r2.
  cbn [run nth_error set_nth]. rewrite step_write_r1.
  cbn [run nth_error set_nth]. rewrite step_write_r2_late.
  reflexivity.
Qed.

(** C5.  The call for [r2] has selected the candidate [c]; before it
    comes to write, the call for [r1] claims [c].  When the call for [r2]
    then writes, [c] is no longer waiting.  The call does not detect this:
    it does not select anew (a selection at this point finds no candidate
    and would report "no match", leaving [r2] waiting) but writes, moves
    [r2] to matched, adds a second [matches] row for [c] and returns [c]. *)
Theorem lost_race_neither_retried_nor_reported :
  run [0; 1; 0]%nat Sample.db_race [Called Sample.call_r1; Called Sample.call_r2]
  = (Sample.db_race_r1_done,
     [Finished (Return (Some "c"));
      Selected Sample.call_r2 (Some "u2") ("c", "u3")])
  /\ map (fun wr => (walk_requests.id wr, walk_requests.status wr))
         (tbl_walk_requests Sample.db_race_r1_done)
     = [("r1", walk_requests.matched); ("r2", walk_requests.waiting);
        ("c", walk_requests.matched)]
  /\ step Sample.db_race_r1_done (Called Sample.call_r2)
     = (Sample.db_race_r1_done, Finished (Return None))
  /\ step Sample.db_race_r1_done (Selected Sample.call_r2 (Some "u2") ("c", "u3"))
     = (Sample.db_race_both_done, Finished (Return (Some "c")))
  /\ map (fun wr => (walk_requests.id wr, walk_requests.status wr))
         (tbl_walk_requests Sample.db_race_both_done)
     = [("r1", walk_requests.matched); ("r2", walk_requests.matched);
        ("c", walk_requests.matched)]
  /\ matches_referencing Sample.db_race_both_done "c" = 2%nat
  /\ ~ AsStated.conflict_retried Sample.db_race_r1_done Sample.call_r2
         (Some "u2") ("c", "u3").
Proof.
  split; [ exact run_until_r2_writes | ].
  split; [ reflexivity | ].
  split; [ exact step_call_r2_after | ].
  split; [ exact step_write_r2_late | ].
  split; [ reflexivity | ].
  split; [ reflexivity | ].
  unfold AsStated.conflict_retried. intros H.
  rewrite step_write_r2_late in H.
  specialize (H eq_refl). discriminate H.
Qed.

(** A call of [findMatch] for [r2] that starts after the race is lost
    reports no match. *)
Example findMatch_after_the_race_is_lost :
  findMatch Sample.db_race_r1_done 0 "m2" "r2" 0 0.0032 0 0.0032
  = (Sample.db_race_r1_done, Resolved None).
Proof.
  pose proof step_call_r2_after as H.
  unfold step, Sample.call_r2 in H;
    cbn [p_request_id c_now p_start_lat p_start_lng p_dest_lat p_dest_lng] in H.
  unfold findMatch, find_walk_buddy; cbv zeta.
  destruct (select_candidate _ _ _ _ _ _ _ _); [ discriminate H | reflexivity ].
Qed.

End ConcurrentCalls.

(** ** [cleanup_expired_requests] *)

Section Sweeper.
Import Migration Outcome.
Local Open Scope Z_scope.




(** At time 1000 the sweeper expires the one waiting request past its
    deadline; the matched, cancelled and expired ones, past theirs too,
    and the waiting one not yet due stay as they are. *)
Example cleanup_expired_requests_db_sweep :
  map (fun wr => (walk_requests.id wr, walk_requests.status wr))
      (tbl_walk_requests (cleanup_expired_requests Sample.db_sweep 1000))
  = [("r1", walk_requests.expired); ("r2", walk_requests.matched);
     ("r3", walk_requests.cancelled); ("r4", walk_requests.expired);
     ("r5", walk_requests.waiting)]%string.
Proof. reflexivity. Qed.

End Sweeper.

(** ** The request services: [confirmMeetup] *)

Section RequestServices.
Import Services Outcome.
Local Open Scope string_scope.

Lemma single_eq_id_exists (d : database) (requestId : uuid) (r : walk_requests.row) :
  single (walk_requests_eq_id d requestId) = Some r ->
  existsb (fun wr => String.eqb (walk_requests.id wr) requestId) (tbl_walk_requests d)
  = true.
Proof.
  intros H. apply existsb_exists. exists r.
  assert (Hin : In r (walk_requests_eq_id d requestId)).
  { destruct (walk_requests_eq_id d requestId) as [ | x [ | y rest ] ];
      try discriminate. injection H as <-. now left. }
  apply filter_In in Hin. exact Hin.
Qed.

Lemma walk_requests_update_status_accepted (d : database) (requestId : uuid)
    (s : walk_requests.status_t) :
  walk_requests.status_check s = true ->
  walk_requests_update_status d requestId s = Some (with_status d requestId s).
Proof.
  intros Hs. unfold walk_requests_update_status. rewrite Hs. simpl.
  now rewrite andb_false_r.
Qed.

(** A request whose status is not matched is not confirmed: the call is
    rejected and the database is unchanged. *)
Lemma confirmMeetup_not_matched
    (d : database) (requestId userId : uuid) (r : walk_requests.row) :
  single (walk_requests_eq_id d requestId) = Some r ->
  walk_requests.user_id r = userId ->
  walk_requests.status r <> walk_requests.matched ->
  confirmMeetup d requestId userId = (d, Rejected Can_only_confirm_matched).
Proof.
  intros Hr Hu Hs. unfold confirmMeetup. rewrite Hr.
  apply String.eqb_eq in Hu. rewrite Hu. simpl.
  destruct (walk_requests.status_eqb (walk_requests.status r) walk_requests.matched)
    eqn:E; [ | reflexivity ].
  apply status_eqb_eq in E. contradiction.
Qed.

(** A matched request is not confirmed either: the [UPDATE] that writes
    ['completed'] violates the [CHECK] of the status column. *)
Lemma confirmMeetup_matched
    (d : database) (requestId userId : uuid) (r : walk_requests.row) :
  single (walk_requests_eq_id d requestId) = Some r ->
  walk_requests.user_id r = userId ->
  walk_requests.status r = walk_requests.matched ->
  confirmMeetup d requestId userId = (d, Rejected Failed_to_update_request).
Proof.
  intros Hr Hu Hs. unfold confirmMeetup. rewrite Hr.
  apply String.eqb_eq in Hu. rewrite Hu, Hs. simpl.
  unfold walk_requests_update_status.
  now rewrite (single_eq_id_exists _ _ _ Hr).
Qed.

(** C8.  [confirmMeetup], called by the owner of the matched request [r1],
    is rejected with "Failed to update request": the status column does
    not accept ['completed'], and [r1] stays matched. *)
Theorem confirmMeetup_rejected_for_matched_request :
  walk_requests.status_check walk_requests.completed = false
  /\ map (fun wr => (walk_requests.id wr, walk_requests.user_id wr,
                     walk_requests.status wr))
         (tbl_walk_requests Sample.db_matched)
     = [("r1", "u1", walk_requests.matched); ("r2", "u2", walk_requests.matched)]
  /\ confirmMeetup Sample.db_matched "r1" "u1"
     = (Sample.db_matched, Rejected Failed_to_update_request).
Proof. repeat split; reflexivity. Qed.

End RequestServices.

(** ** The match services: two lemmas on [completeMatch] and [cancelMatch] *)

Section MatchServices.
Import Services Outcome.
Local Open Scope string_scope.

Lemma userOwnsRequest_iff (d : database) (m : matches.row) (userId : uuid) :
  existsb (fun req => String.eqb (walk_requests.user_id req) userId)
    (walk_requests_in_id d [matches.request_1 m; matches.request_2 m]) = true
  <-> owns_request_of d m userId.
Proof.
  unfold owns_request_of, walk_requests_in_id. rewrite existsb_exists. split.
  - intros (req & Hin & Hu). apply filter_In in Hin. destruct Hin as [Hin Hid].
    simpl in Hid. rewrite orb_false_r in Hid. apply orb_true_iff in Hid.
    rewrite !String.eqb_eq in Hid. apply String.eqb_eq in Hu. eauto.
  - intros (req & Hin & Hid & Hu). exists req. split.
    + apply filter_In. split; [ exact Hin | ].
      simpl. rewrite orb_false_r. apply orb_true_iff.
      now rewrite !String.eqb_eq.
    + now apply String.eqb_eq.
Qed.

Lemma matches_update_status_accepted (d : database) (matchId : uuid)
    (s : matches.status_t) :
  matches_update_status d matchId s = Some (with_match_status d matchId s).
Proof.
  unfold matches_update_status. simpl. now rewrite andb_false_r.
Qed.

End MatchServices.

(** ** [find_walk_buddy]: what a call leaves behind *)

Section MatcherEffects.
Import Geo Migration Filter.
Local Open Scope string_scope.
Local Open Scope R_scope.

Lemma find_walk_buddy_some_inv
    (d d' : database) (now : timestamptz) (new_match_id : uuid)
    (requester : walk_requests.row) (slat slng dlat dlng : R) (cid : uuid) :
  walk_requests_pkey d ->
  In requester (tbl_walk_requests d) ->
  find_walk_buddy d now new_match_id (walk_requests.id requester)
    slat slng dlat dlng = (d', Return (Some cid)) ->
  exists c,
    walk_requests.id c = cid
    /\ eligible d now requester slat slng dlat dlng c
    /\ d' = insert_match new_match_id (walk_requests.id requester) cid
              ((slat + walk_requests.start_lat c) / 2)
              ((slng + walk_requests.start_lng c) / 2)
              (update_matched cid (Some (walk_requests.user_id requester))
                 (update_matched (walk_requests.id requester)
                    (Some (walk_requests.user_id c)) d)).
Proof.
  intros Hpk Hin H. unfold find_walk_buddy in H; cbv zeta in H.
  rewrite (select_user_id_in _ _ Hin Hpk) in H.
  pose proof (select_candidate_nearest d now requester slat slng dlat dlng) as Hsel.
  destruct (select_candidate _ _ _ _ _ _ _ _) as [ [cid' cuid] | ];
    [ | discriminate ].
  destruct Hsel as (c & <- & <- & Hel & _).
  rewrite (record_match_returns _ _ _ _ _ _ _ _ (proj1 Hel) Hpk) in H.
  injection H as <- <-. exists c. auto.
Qed.

Lemma find_walk_buddy_none_inv
    (d d' : database) (now : timestamptz) (new_match_id : uuid)
    (requester : walk_requests.row) (slat slng dlat dlng : R) :
  walk_requests_pkey d ->
  In requester (tbl_walk_requests d) ->
  find_walk_buddy d now new_match_id (walk_requests.id requester)
    slat slng dlat dlng = (d', Return None) ->
  d' = d /\ forall c, ~ eligible d now requester slat slng dlat dlng c.
Proof.
  intros Hpk Hin H. unfold find_walk_buddy in H; cbv zeta in H.
  rewrite (select_user_id_in _ _ Hin Hpk) in H.
  pose proof (select_candidate_nearest d now requester slat slng dlat dlng) as Hsel.
  destruct (select_candidate _ _ _ _ _ _ _ _) as [ [cid' cuid] | ].
  - destruct Hsel as (c & <- & <- & Hel & _).
    rewrite (record_match_returns _ _ _ _ _ _ _ _ (proj1 Hel) Hpk) in H.
    discriminate.
  - injection H as <-. auto.
Qed.

(** The two [UPDATE]s of a call, as one pass over the table. *)
Lemma matched_rows (d : database) (new_match_id rid cid : uuid) (lat lng : R)
    (ru cu : option uuid) :
  rid <> cid ->
  tbl_walk_requests
    (insert_match new_match_id rid cid lat lng
       (update_matched cid ru (update_matched rid cu d)))
  = map (fun wr =>
           if String.eqb (walk_requests.id wr) rid
           then walk_requests.set_status_matched_with walk_requests.matched cu wr
           else if String.eqb (walk_requests.id wr) cid
           then walk_requests.set_status_matched_with walk_requests.matched ru wr
           else wr)
        (tbl_walk_requests d).
Proof.
  intros Hne. simpl. rewrite map_map. apply map_ext. intros wr.
  destruct (String.eqb (walk_requests.id wr) rid) eqn:Er; [ | reflexivity ].
  simpl. apply String.eqb_eq in Er. rewrite Er.
  apply String.eqb_neq in Hne. now rewrite Hne.
Qed.

Lemma single_eq_id_pkey (rows : list walk_requests.row) (r : walk_requests.row) :
  In r rows -> NoDup (map walk_requests.id rows) ->
  filter (fun wr => String.eqb (walk_requests.id wr) (walk_requests.id r)) rows = [r].
Proof.
  induction rows as [ | x rest IH ]; simpl; intros Hin Hnd; [ contradiction | ].
  inversion Hnd as [ | ? ? Hx Hrest ]; subst.
  destruct (String.eqb (walk_requests.id x) (walk_requests.id r)) eqn:E.
  - apply String.eqb_eq in E.
    destruct Hin as [ -> | Hin ].
    + f_equal.
      destruct (filter _ rest) as [ | y ys ] eqn:F; [ reflexivity | ].
      assert (Hy : In y (filter
                (fun wr => String.eqb (walk_requests.id wr) (walk_requests.id r)) rest))
        by (rewrite F; now left).
      apply filter_In in Hy. destruct Hy as [Hy Ey]. apply String.eqb_eq in Ey.
      exfalso. apply Hx. rewrite <- Ey. now apply in_map.
    + exfalso. apply Hx. rewrite E. now apply in_map.
  - destruct Hin as [ -> | Hin ]; [ now rewrite String.eqb_refl in E | ].
    now apply IH.
Qed.

End MatcherEffects.

(** ** [createWalkRequest] and [getRequestStatus] *)

Section IntakeFacts.
Import Geo Migration Services Filter Intake.
Local Open Scope string_scope.
Local Open Scope R_scope.

Lemma walk_requests_insert_inv (d d1 : database) (row : walk_requests.row) :
  walk_requests_insert d row = Some d1 ->
  d1 = with_walk_requests d (tbl_walk_requests d ++ [row])%list
  /\ ~ In (walk_requests.id row) (map walk_requests.id (tbl_walk_requests d))
  /\ (exists p, In p (tbl_profiles d) /\ profiles.id p = walk_requests.user_id row)
  /\ walk_requests.status_check (walk_requests.status row) = true.
Proof.
  unfold walk_requests_insert. intros H.
  destruct (existsb _ (tbl_walk_requests d)) eqn:E1; [ discriminate | ].
  destruct (existsb _ (tbl_profiles d)) eqn:E2; [ | discriminate ].
  destruct (walk_requests.status_check _) eqn:E3; [ | discriminate ].
  simpl in H. injection H as <-. repeat split.
  - intros Hin. apply in_map_iff in Hin. destruct Hin as (wr & Hid & Hwr).
    assert (Ht : existsb (fun wr => String.eqb (walk_requests.id wr) (walk_requests.id row))
                   (tbl_walk_requests d) = true)
      by (apply existsb_exists; exists wr; split; [ exact Hwr | now apply String.eqb_eq ]).
    congruence.
  - apply existsb_exists in E2. destruct E2 as (p & Hp & Ep).
    apply String.eqb_eq in Ep. eauto.
Qed.

Lemma walk_requests_insert_pkey (d d1 : database) (row : walk_requests.row) :
  walk_requests_pkey d -> walk_requests_insert d row = Some d1 ->
  walk_requests_pkey d1.
Proof.
  intros Hpk H. apply walk_requests_insert_inv in H. destruct H as (-> & Hfresh & _).
  unfold walk_requests_pkey in *. simpl. rewrite map_app. simpl.
  apply NoDup_app; [ exact Hpk | repeat constructor; intros [] | ].
  intros x Hx [ <- | [] ]. contradiction.
Qed.

(** What a fulfilled [createWalkRequest] leaves behind. *)
Lemma createWalkRequest_inv
    (d d' : database) (now : timestamptz) (Date_now : Z)
    (new_request_id new_match_id userId : uuid)
    (startLat startLng destLat destLng : R) (res : CreateWalkRequestResult) :
  walk_requests_pkey d ->
  createWalkRequest d now Date_now new_request_id new_match_id userId
    startLat startLng destLat destLng = (d', Fulfilled res) ->
  ~ In new_request_id (map walk_requests.id (tbl_walk_requests d))
  /\ request res
     = new_walk_request Date_now new_request_id userId
         startLat startLng destLat destLng
  /\ ((matchFound res = false
       /\ matchedRequestId res = None
       /\ d' = with_walk_requests d
                 (tbl_walk_requests d
                  ++ [new_walk_request Date_now new_request_id userId
                        startLat startLng destLat destLng])%list
       /\ forall c,
            ~ eligible d' now
                (new_walk_request Date_now new_request_id userId
                   startLat startLng destLat destLng)
                startLat startLng destLat destLng c)
      \/ (matchFound res = true
          /\ exists c,
               In c (tbl_walk_requests d)
               /\ walk_requests.status c = walk_requests.waiting
               /\ walk_requests.user_id c <> userId
               /\ walk_requests.id c <> new_request_id
               /\ matchedRequestId res = or_undefined (Some (walk_requests.id c))
               /\ tbl_walk_requests d'
                  = (map (fun wr =>
                            if String.eqb (walk_requests.id wr) (walk_requests.id c)
                            then walk_requests.set_status_matched_with
                                   walk_requests.matched (Some userId) wr
                            else wr)
                         (tbl_walk_requests d)
                     ++ [walk_requests.mk new_request_id userId
                           startLat startLng destLat destLng
                           walk_requests.matched (Some (walk_requests.user_id c))
                           ((Date_now + 10 * 60 * 1000) * 1000)%Z])%list
               /\ tbl_matches d'
                  = (tbl_matches d
                     ++ [matches.mk new_match_id new_request_id (walk_requests.id c)
                           ((startLat + walk_requests.start_lat c) / 2)
                           ((startLng + walk_requests.start_lng c) / 2)
                           matches.pending])%list
               /\ tbl_profiles d' = tbl_profiles d)).
Proof.
  intros Hpk H. unfold createWalkRequest in H; cbv zeta in H.
  set (row := new_walk_request Date_now new_request_id userId
                startLat startLng destLat destLng) in *.
  destruct (walk_requests_insert d row) as [ d1 | ] eqn:Ei; [ | discriminate ].
  pose proof (walk_requests_insert_pkey _ _ _ Hpk Ei) as Hpk1.
  apply walk_requests_insert_inv in Ei. destruct Ei as (Hd1 & Hfresh & _ & _).
  assert (Hrow : In row (tbl_walk_requests d1))
    by (subst d1; simpl; apply in_or_app; right; now left).
  unfold findMatch in H.
  destruct (find_walk_buddy d1 now new_match_id (walk_requests.id row)
              startLat startLng destLat destLng) as [d2 [ v | e ]] eqn:Ef;
    [ | discriminate ].
  injection H as <- <-. simpl.
  split; [ exact Hfresh | ]. split; [ reflexivity | ].
  destruct v as [ cid | ].
  - right. split; [ reflexivity | ].
    destruct (find_walk_buddy_some_inv _ _ _ _ _ _ _ _ _ _ Hpk1 Hrow Ef)
      as (c & <- & Hel & ->).
    destruct Hel as (Hc & Hne & Hu & _ & _ & _ & _ & Hst).
    assert (Hcd : In c (tbl_walk_requests d)).
    { subst d1. simpl in Hc. apply in_app_or in Hc.
      destruct Hc as [ Hc | [ <- | [] ] ]; [ exact Hc | now contradiction Hne ]. }
    exists c. split; [ exact Hcd | ]. split; [ exact Hst | ].
    split; [ exact Hu | ]. split; [ exact Hne | ]. split; [ reflexivity | ].
    split; [ | split; [ subst d1; reflexivity | subst d1; reflexivity ] ].
    rewrite matched_rows by (apply not_eq_sym; exact Hne).
    subst d1. simpl. rewrite map_app. simpl. rewrite String.eqb_refl. f_equal.
    apply map_ext_in. intros wr Hwr.
    destruct (String.eqb (walk_requests.id wr) new_request_id) eqn:E; [ | reflexivity ].
    apply String.eqb_eq in E. exfalso. apply Hfresh. simpl. rewrite <- E.
    now apply in_map.
  - left. destruct (find_walk_buddy_none_inv _ _ _ _ _ _ _ _ _ Hpk1 Hrow Ef)
      as (-> & Hno).
    repeat split; auto.
Qed.

(** X1.  When [createWalkRequest] finds a match at once, the candidate is
    a request that was waiting in the table, of another user; the new
    request and the candidate are stored as matched, each with
    [matched_with] set to the other's user, no other request changes, and
    one [matches] row is added whose meetup is the midpoint of the two
    requests' stored start coordinates. *)
Theorem createWalkRequest_match
    (d d' : database) (now : timestamptz) (Date_now : Z)
    (new_request_id new_match_id userId : uuid)
    (startLat startLng destLat destLng : R) (res : CreateWalkRequestResult) :
  walk_requests_pkey d ->
  createWalkRequest d now Date_now new_request_id new_match_id userId
    startLat startLng destLat destLng = (d', Fulfilled res) ->
  matchFound res = true ->
  exists c,
    In c (tbl_walk_requests d)
    /\ walk_requests.status c = walk_requests.waiting
    /\ walk_requests.user_id c <> userId
    /\ matchedRequestId res = or_undefined (Some (walk_requests.id c))
    /\ tbl_walk_requests d'
       = (map (fun wr =>
                 if String.eqb (walk_requests.id wr) (walk_requests.id c)
                 then walk_requests.set_status_matched_with walk_requests.matched
                        (Some userId) wr
                 else wr)
              (tbl_walk_requests d)
          ++ [walk_requests.mk new_request_id userId startLat startLng destLat destLng
                walk_requests.matched (Some (walk_requests.user_id c))
                ((Date_now + 10 * 60 * 1000) * 1000)%Z])%list
    /\ tbl_matches d'
       = (tbl_matches d
          ++ [matches.mk new_match_id new_request_id (walk_requests.id c)
                ((startLat + walk_requests.start_lat c) / 2)
                ((startLng + walk_requests.start_lng c) / 2)
                matches.pending])%list
    /\ tbl_profiles d' = tbl_profiles d.
Proof.
  intros Hpk H Hfound.
  destruct (createWalkRequest_inv _ _ _ _ _ _ _ _ _ _ _ _ Hpk H)
    as (_ & _ & [ (Hno & _) | (_ & c & Hc) ]).
  - rewrite Hfound in Hno. discriminate.
  - exists c. tauto.
Qed.

(** X2.  When [createWalkRequest] finds no match, the new request is
    stored as waiting at the end of the table, nothing else changes, no
    match id is reported, and no request of the table is a legal candidate
    for the new one. *)
Theorem createWalkRequest_no_match
    (d d' : database) (now : timestamptz) (Date_now : Z)
    (new_request_id new_match_id userId : uuid)
    (startLat startLng destLat destLng : R) (res : CreateWalkRequestResult) :
  walk_requests_pkey d ->
  createWalkRequest d now Date_now new_request_id new_match_id userId
    startLat startLng destLat destLng = (d', Fulfilled res) ->
  matchFound res = false ->
  matchedRequestId res = None
  /\ tbl_walk_requests d'
     = (tbl_walk_requests d
        ++ [walk_requests.mk new_request_id userId startLat startLng destLat destLng
              walk_requests.waiting None ((Date_now + 10 * 60 * 1000) * 1000)%Z])%list
  /\ tbl_matches d' = tbl_matches d
  /\ tbl_profiles d' = tbl_profiles d
  /\ forall c,
       ~ eligible d' now (request res) startLat startLng destLat destLng c.
Proof.
  intros Hpk H Hfound.
  destruct (createWalkRequest_inv _ _ _ _ _ _ _ _ _ _ _ _ Hpk H)
    as (_ & Hreq & [ (_ & Hid & -> & Hno) | (Hyes & _) ]).
  - rewrite Hreq. repeat split; auto.
  - rewrite Hfound in Hyes. discriminate.
Qed.

(** X3.  [createWalkRequest] is rejected with "Failed to create walk
    request", and stores nothing, when the user has no profile or the id
    generated for the request is taken.  Whenever it is fulfilled, the
    request it hands back is the row as it was inserted (status waiting,
    no [matched_with]); when a match was found this is not the stored
    row, which is matched by then. *)
Theorem createWalkRequest_rejected_or_snapshot
    (d : database) (now : timestamptz) (Date_now : Z)
    (new_request_id new_match_id userId : uuid)
    (startLat startLng destLat destLng : R) :
  walk_requests_pkey d ->
  ((~ (exists p, In p (tbl_profiles d) /\ profiles.id p = userId)
    \/ In new_request_id (map walk_requests.id (tbl_walk_requests d))) ->
   createWalkRequest d now Date_now new_request_id new_match_id userId
     startLat startLng destLat destLng
   = (d, Thrown Failed_to_create_walk_request))
  /\ forall d' res,
       createWalkRequest d now Date_now new_request_id new_match_id userId
         startLat startLng destLat destLng = (d', Fulfilled res) ->
       request res
       = walk_requests.mk new_request_id userId startLat startLng destLat destLng
           walk_requests.waiting None ((Date_now + 10 * 60 * 1000) * 1000)%Z
       /\ (matchFound res = false -> In (request res) (tbl_walk_requests d'))
       /\ (matchFound res = true ->
           ~ In (request res) (tbl_walk_requests d')
           /\ exists u,
                In (walk_requests.mk new_request_id userId
                      startLat startLng destLat destLng
                      walk_requests.matched (Some u)
                      ((Date_now + 10 * 60 * 1000) * 1000)%Z)
                   (tbl_walk_requests d')).
Proof.
  intros Hpk. split.
  - unfold createWalkRequest, walk_requests_insert; cbv zeta. simpl.
    rewrite orb_false_r.
    intros [ Hnp | Htaken ].
    + destruct (existsb _ (tbl_profiles d)) eqn:E.
      * apply existsb_exists in E. destruct E as (p & Hp & Ep).
        apply String.eqb_eq in Ep. exfalso. apply Hnp. eauto.
      * now rewrite orb_true_r.
    + destruct (existsb _ (tbl_walk_requests d)) eqn:E; [ reflexivity | ].
      apply in_map_iff in Htaken. destruct Htaken as (wr & Hid & Hwr).
      assert (Ht : existsb (fun wr => String.eqb (walk_requests.id wr) new_request_id)
                     (tbl_walk_requests d) = true)
        by (apply existsb_exists; exists wr; split;
            [ exact Hwr | now apply String.eqb_eq ]).
      congruence.
  - intros d' res H.
    destruct (createWalkRequest_inv _ _ _ _ _ _ _ _ _ _ _ _ Hpk H)
      as (Hfresh & Hreq & Hcases).
    split; [ exact Hreq | ]. rewrite Hreq.
    destruct Hcases as [ (Hno & _ & -> & _) | (Hyes & c & _ & _ & _ & _ & _ & Ht & _) ].
    + split; [ | intros Hy; congruence ].
      intros _. simpl. apply in_or_app. right. now left.
    + split; [ intros Hn; congruence | ].
      intros _. rewrite Ht. split.
      * intros Hin. apply in_app_or in Hin. destruct Hin as [ Hin | [ Heq | [] ] ].
        -- apply in_map_iff in Hin. destruct Hin as (wr & Hwr & Hwrin).
           apply Hfresh. apply in_map_iff. exists wr. split; [ | exact Hwrin ].
           apply (f_equal walk_requests.id) in Hwr. simpl in Hwr.
           destruct (String.eqb (walk_requests.id wr) (walk_requests.id c));
             exact Hwr.
        -- discriminate Heq.
      * exists (walk_requests.user_id c). apply in_or_app. right. now left.
Qed.

(** X4.  After a fulfilled [createWalkRequest], [getRequestStatus] for
    the new id is fulfilled with the stored request: it carries the user,
    the coordinates and the deadline that were passed in, and its status
    is matched when a match was found and waiting otherwise. *)
Theorem getRequestStatus_after_createWalkRequest
    (d d' : database) (now : timestamptz) (Date_now : Z)
    (new_request_id new_match_id userId : uuid)
    (startLat startLng destLat destLng : R) (res : CreateWalkRequestResult) :
  walk_requests_pkey d ->
  createWalkRequest d now Date_now new_request_id new_match_id userId
    startLat startLng destLat destLng = (d', Fulfilled res) ->
  exists m,
    getRequestStatus d' new_request_id
    = Fulfilled (walk_requests.mk new_request_id userId
                   startLat startLng destLat destLng
                   (if matchFound res then walk_requests.matched
                    else walk_requests.waiting)
                   m ((Date_now + 10 * 60 * 1000) * 1000)%Z)
    /\ (matchFound res = false -> m = None)
    /\ (matchFound res = true -> exists u, m = Some u /\ u <> userId).
Proof.
  intros Hpk H.
  destruct (createWalkRequest_inv _ _ _ _ _ _ _ _ _ _ _ _ Hpk H)
    as (Hfresh & _ & Hcases).
  assert (Hsingle : forall rows row,
            ~ In new_request_id (map walk_requests.id rows) ->
            walk_requests.id row = new_request_id ->
            single (filter (fun wr => String.eqb (walk_requests.id wr) new_request_id)
                      (rows ++ [row])) = Some row).
  { intros rows row Hf Hid. rewrite filter_app. simpl.
    rewrite Hid, String.eqb_refl.
    assert (filter (fun wr => String.eqb (walk_requests.id wr) new_request_id) rows = [])
      as ->; [ | reflexivity ].
    destruct (filter _ rows) as [ | y ys ] eqn:F; [ reflexivity | ].
    assert (Hy : In y (filter
              (fun wr => String.eqb (walk_requests.id wr) new_request_id) rows))
      by (rewrite F; now left).
    apply filter_In in Hy. destruct Hy as [Hy Ey]. apply String.eqb_eq in Ey.
    exfalso. apply Hf. rewrite <- Ey. now apply in_map. }
  unfold getRequestStatus, walk_requests_eq_id.
  destruct Hcases as [ (Hno & _ & -> & _) | (Hyes & c & _ & _ & Hu & _ & _ & Ht & _) ].
  - rewrite Hno. exists None. simpl tbl_walk_requests.
    rewrite Hsingle by (auto; reflexivity).
    repeat split; auto. intros; discriminate.
  - rewrite Hyes, Ht. exists (Some (walk_requests.user_id c)).
    rewrite Hsingle.
    + repeat split; [ intros; discriminate | eauto ].
    + rewrite map_map. intros Hin. apply Hfresh.
      apply in_map_iff in Hin. destruct Hin as (wr & Hid & Hwr).
      apply in_map_iff. exists wr. split; [ | exact Hwr ].
      destruct (String.eqb (walk_requests.id wr) (walk_requests.id c)); exact Hid.
    + reflexivity.
Qed.

Lemma db_one_waiting_pkey : walk_requests_pkey Scenario.db_one_waiting.
Proof.
  unfold walk_requests_pkey. simpl.
  repeat (constructor; [ simpl; intuition discriminate | ]). constructor.
Defined.

Lemma db_no_requests_pkey : walk_requests_pkey Scenario.db_no_requests.
Proof. unfold walk_requests_pkey. simpl. constructor. Defined.

Lemma createWalkRequest_db_one_waiting :
  createWalkRequest Scenario.db_one_waiting 0 0 "r1" "m1" "u1" 0 0 0 0
  = (Scenario.db_one_waiting_matched,
     Fulfilled (mk_result Scenario.r1_new true (Some "r2"))).
Proof.
  unfold createWalkRequest; cbv zeta.
  assert (walk_requests_insert Scenario.db_one_waiting
            (new_walk_request 0 "r1" "u1" 0 0 0 0)
          = Some (mkdb Sample.three_users
                    [Sample.request "r2" "u2" 0 walk_requests.waiting None 600;
                     Scenario.r1_new] [])) as -> by reflexivity.
  unfold findMatch, find_walk_buddy; cbv zeta.
  match goal with
  | |- context [select_user_id ?d ?r] =>
      assert (select_user_id d r = Some "u1") as -> by reflexivity
  end.
  match goal with
  | |- context [select_candidate ?d ?n ?r ?v ?a ?b ?c ?e] =>
      assert (select_candidate d n r v a b c e = Some ("r2", "u2")) as ->
  end.
  { unfold select_candidate, join_profiles, candidate_where, start_distance.
    eval_query. reflexivity. }
  reflexivity.
Qed.

Lemma createWalkRequest_db_no_requests :
  createWalkRequest Scenario.db_no_requests 0 0 "r1" "m1" "u1" 0 0 0 0
  = (mkdb Sample.three_users [Scenario.r1_new] [],
     Fulfilled (mk_result Scenario.r1_new false None)).
Proof. reflexivity. Qed.

Lemma createWalkRequest_match_witness :
  exists c,
    In c (tbl_walk_requests Scenario.db_one_waiting)
    /\ walk_requests.status c = walk_requests.waiting
    /\ walk_requests.user_id c <> "u1"
    /\ matchedRequestId (mk_result Scenario.r1_new true (Some "r2"))
       = or_undefined (Some (walk_requests.id c))
    /\ tbl_walk_requests Scenario.db_one_waiting_matched
       = (map (fun wr =>
                 if String.eqb (walk_requests.id wr) (walk_requests.id c)
                 then walk_requests.set_status_matched_with walk_requests.matched
                        (Some "u1") wr
                 else wr)
              (tbl_walk_requests Scenario.db_one_waiting)
          ++ [walk_requests.mk "r1" "u1" 0 0 0 0
                walk_requests.matched (Some (walk_requests.user_id c))
                ((0 + 10 * 60 * 1000) * 1000)%Z])%list
    /\ tbl_matches Scenario.db_one_waiting_matched
       = (tbl_matches Scenario.db_one_waiting
          ++ [matches.mk "m1" "r1" (walk_requests.id c)
                ((0 + walk_requests.start_lat c) / 2)
                ((0 + walk_requests.start_lng c) / 2)
                matches.pending])%list
    /\ tbl_profiles Scenario.db_one_waiting_matched
       = tbl_profiles Scenario.db_one_waiting.
Proof.
  apply (createWalkRequest_match Scenario.db_one_waiting
           Scenario.db_one_waiting_matched 0 0 "r1" "m1" "u1" 0 0 0 0
           (mk_result Scenario.r1_new true (Some "r2"))).
  - exact db_one_waiting_pkey.
  - exact createWalkRequest_db_one_waiting.
  - reflexivity.
Defined.

Lemma createWalkRequest_no_match_witness :
  matchedRequestId (mk_result Scenario.r1_new false None) = None
  /\ tbl_walk_requests (mkdb Sample.three_users [Scenario.r1_new] [])
     = (tbl_walk_requests Scenario.db_no_requests
        ++ [walk_requests.mk "r1" "u1" 0 0 0 0
              walk_requests.waiting None ((0 + 10 * 60 * 1000) * 1000)%Z])%list
  /\ tbl_matches (mkdb Sample.three_users [Scenario.r1_new] [])
     = tbl_matches Scenario.db_no_requests
  /\ tbl_profiles (mkdb Sample.three_users [Scenario.r1_new] [])
     = tbl_profiles Scenario.db_no_requests
  /\ forall c,
       ~ eligible (mkdb Sample.three_users [Scenario.r1_new] []) 0
           (request (mk_result Scenario.r1_new false None)) 0 0 0 0 c.
Proof.
  apply (createWalkRequest_no_match Scenario.db_no_requests
           (mkdb Sample.three_users [Scenario.r1_new] []) 0 0 "r1" "m1" "u1" 0 0 0 0
           (mk_result Scenario.r1_new false None)).
  - exact db_no_requests_pkey.
  - exact createWalkRequest_db_no_requests.
  - reflexivity.
Defined.

Lemma createWalkRequest_rejected_or_snapshot_witness :
  request (mk_result Scenario.r1_new true (Some "r2"))
  = walk_requests.mk "r1" "u1" 0 0 0 0
      walk_requests.waiting None ((0 + 10 * 60 * 1000) * 1000)%Z
  /\ (matchFound (mk_result Scenario.r1_new true (Some "r2")) = false ->
      In (request (mk_result Scenario.r1_new true (Some "r2")))
         (tbl_walk_requests Scenario.db_one_waiting_matched))
  /\ (matchFound (mk_result Scenario.r1_new true (Some "r2")) = true ->
      ~ In (request (mk_result Scenario.r1_new true (Some "r2")))
           (tbl_walk_requests Scenario.db_one_waiting_matched)
      /\ exists u,
           In (walk_requests.mk "r1" "u1" 0 0 0 0
                 walk_requests.matched (Some u) ((0 + 10 * 60 * 1000) * 1000)%Z)
              (tbl_walk_requests Scenario.db_one_waiting_matched)).
Proof.
  exact (proj2 (createWalkRequest_rejected_or_snapshot Scenario.db_one_waiting
                  0 0 "r1" "m1" "u1" 0 0 0 0 db_one_waiting_pkey)
           Scenario.db_one_waiting_matched
           (mk_result Scenario.r1_new true (Some "r2"))
           createWalkRequest_db_one_waiting).
Defined.

Lemma getRequestStatus_after_createWalkRequest_witness :
  exists m,
    getRequestStatus Scenario.db_one_waiting_matched "r1"
    = Fulfilled (walk_requests.mk "r1" "u1" 0 0 0 0
                   (if matchFound (mk_result Scenario.r1_new true (Some "r2"))
                    then walk_requests.matched else walk_requests.waiting)
                   m ((0 + 10 * 60 * 1000) * 1000)%Z)
    /\ (matchFound (mk_result Scenario.r1_new true (Some "r2")) = false -> m = None)
    /\ (matchFound (mk_result Scenario.r1_new true (Some "r2")) = true ->
        exists u, m = Some u /\ u <> "u1").
Proof.
  apply (getRequestStatus_after_createWalkRequest Scenario.db_one_waiting
           Scenario.db_one_waiting_matched 0 0 "r1" "m1" "u1" 0 0 0 0
           (mk_result Scenario.r1_new true (Some "r2"))).
  - exact db_one_waiting_pkey.
  - exact createWalkRequest_db_one_waiting.
Defined.

End IntakeFacts.

(** ** [getMatchDetails] and [getUserMatches] *)

Section MatchQueriesFacts.
Import Geo Migration Services Filter Outcome MatchQueries.
Local Open Scope string_scope.

Variable first_name : profiles.row -> string.
Variable created_at : matches.row -> timestamptz.

Lemma filter_key_unique (A : Type) (key : A -> string) (l : list A) (x : A) :
  In x l -> NoDup (map key l) ->
  filter (fun y => String.eqb (key y) (key x)) l = [x].
Proof.
  induction l as [ | z rest IH ]; simpl; intros Hin Hnd; [ contradiction | ].
  inversion Hnd as [ | ? ? Hz Hrest ]; subst.
  destruct (String.eqb (key z) (key x)) eqn:E.
  - apply String.eqb_eq in E.
    destruct Hin as [ -> | Hin ].
    + f_equal.
      destruct (filter _ rest) as [ | y ys ] eqn:F; [ reflexivity | ].
      assert (Hy : In y (filter (fun y => String.eqb (key y) (key x)) rest))
        by (rewrite F; now left).
      apply filter_In in Hy. destruct Hy as [Hy Ey]. apply String.eqb_eq in Ey.
      exfalso. apply Hz. rewrite <- Ey. now apply in_map.
    + exfalso. apply Hz. rewrite E. now apply in_map.
  - destruct Hin as [ -> | Hin ]; [ now rewrite String.eqb_refl in E | ].
    now apply IH.
Qed.

Lemma filter_none (A : Type) (f : A -> bool) (l : list A) :
  (forall x, In x l -> f x = false) -> filter f l = [].
Proof.
  induction l as [ | x rest IH ]; simpl; intros H; [ reflexivity | ].
  rewrite (H x) by now left. apply IH. intros y Hy. apply H. now right.
Qed.

Lemma insert_desc_perm (A : Type) (key : A -> Z) (x : A) (l : list A) :
  Permutation (insert_desc key x l) (x :: l).
Proof.
  induction l as [ | y rest IH ]; simpl; [ reflexivity | ].
  destruct (key x <? key y)%Z; [ | reflexivity ].
  rewrite IH. apply perm_swap.
Qed.

Lemma order_by_desc_perm (A : Type) (key : A -> Z) (l : list A) :
  Permutation (order_by_desc key l) l.
Proof.
  induction l as [ | x rest IH ]; simpl; [ reflexivity | ].
  rewrite insert_desc_perm. now constructor.
Qed.



(** The filter of [getUserMatches] and the policy "Users can view their
    own matches" are the same test. *)
Lemma user_match_filter_policy (d : database) (userId : uuid) (m : matches.row) :
  existsb (fun id => String.eqb (matches.request_1 m) id
                     || String.eqb (matches.request_2 m) id)
    (map walk_requests.id
       (filter (fun wr => String.eqb (walk_requests.user_id wr) userId)
          (tbl_walk_requests d)))
  = Policies.matches_select d (Some userId) m.
Proof.
  unfold Policies.matches_select, Policies.uid_is.
  induction (tbl_walk_requests d) as [ | wr rest IH ]; simpl; [ reflexivity | ].
  rewrite <- IH. rewrite (String.eqb_sym userId).
  destruct (String.eqb (walk_requests.user_id wr) userId); simpl.
  - rewrite (String.eqb_sym (matches.request_1 m)),
      (String.eqb_sym (matches.request_2 m)).
    now rewrite andb_true_r.
  - now rewrite andb_false_r.
Qed.

Lemma matches_select_owns (d : database) (userId : uuid) (m : matches.row) :
  Policies.matches_select d (Some userId) m = true <-> owns_request_of d m userId.
Proof.
  unfold Policies.matches_select, owns_request_of. rewrite existsb_exists. split.
  - intros (wr & Hwr & H). apply andb_true_iff in H. destruct H as [Hid Hu].
    apply orb_true_iff in Hid. rewrite !String.eqb_eq in Hid.
    simpl in Hu. apply String.eqb_eq in Hu. exists wr. auto.
  - intros (wr & Hwr & Hid & Hu). exists wr. split; [ exact Hwr | ].
    apply andb_true_iff. split.
    + apply orb_true_iff. now rewrite !String.eqb_eq.
    + simpl. now apply String.eqb_eq.
Qed.

Lemma getUserMatches_perm (d : database) (userId : uuid) :
  Permutation (getUserMatches created_at d userId)
    (filter (Policies.matches_select d (Some userId)) (tbl_matches d)).
Proof.
  unfold getUserMatches.
  destruct (filter (fun wr => String.eqb (walk_requests.user_id wr) userId)
              (tbl_walk_requests d)) as [ | wr0 rest0 ] eqn:F.
  - rewrite filter_none; [ reflexivity | ].
    intros m _. rewrite <- user_match_filter_policy, F. reflexivity.
  - rewrite order_by_desc_perm. rewrite <- F.
    erewrite filter_ext; [ reflexivity | ].
    intros m. apply user_match_filter_policy.
Qed.


(** X6.  The listing and the authorization agree: a match of the table is
    in [getUserMatches] for a user exactly when [completeMatch], and
    likewise [cancelMatch], called by that user for that match is
    resolved rather than rejected. *)
Theorem getUserMatches_completeMatch_cancelMatch
    (d : database) (userId : uuid) (m : matches.row) :
  matches_pkey d ->
  In m (tbl_matches d) ->
  (In m (getUserMatches created_at d userId)
   <-> snd (completeMatch d (matches.id m) userId) = Resolved tt)
  /\ (In m (getUserMatches created_at d userId)
      <-> snd (cancelMatch d (matches.id m) userId) = Resolved tt).
Proof.
  intros Hpk Hin.
  assert (Hlist : In m (getUserMatches created_at d userId)
                  <-> owns_request_of d m userId).
  { pose proof (getUserMatches_perm d userId) as Hperm. split.
    - intros H. apply (Permutation_in _ Hperm) in H. apply filter_In in H.
      now apply matches_select_owns.
    - intros H. apply (Permutation_in _ (Permutation_sym Hperm)).
      apply filter_In. split; [ exact Hin | now apply matches_select_owns ]. }
  pose proof (userOwnsRequest_iff d m userId) as Hown.
  unfold completeMatch, cancelMatch, matches_eq_id.
  rewrite (filter_key_unique _ matches.id _ _ Hin Hpk); simpl single; cbv zeta.
  rewrite !matches_update_status_accepted.
  destruct (existsb _ (walk_requests_in_id d _)); simpl.
  - assert (Ho : owns_request_of d m userId) by now apply Hown.
    split; split; intros; try reflexivity; now apply Hlist.
  - assert (Ho : ~ owns_request_of d m userId)
      by (intros Ho; apply Hown in Ho; discriminate).
    split; split; intros H; try discriminate; apply Hlist in H; contradiction.
Qed.

Lemma filter_map_key (A : Type) (key : A -> string) (f : A -> A) (k : string)
    (l : list A) :
  (forall x, key (f x) = key x) ->
  filter (fun y => String.eqb (key y) k) (map f l)
  = map f (filter (fun y => String.eqb (key y) k) l).
Proof.
  intros Hf. induction l as [ | x rest IH ]; simpl; [ reflexivity | ].
  rewrite Hf. destruct (String.eqb (key x) k); simpl; now rewrite IH.
Qed.

(** X7.  After [find_walk_buddy] has matched a requester with a candidate,
    neither of which was in a match before, [getMatchDetails] shows each
    of the two the other one: the same match id, status pending and
    meetup for both, and as buddy the other request's user, that user's
    trust score and the other request's start and destination. *)
Theorem getMatchDetails_after_find_walk_buddy
    (d d' : database) (now : timestamptz) (new_match_id : uuid)
    (requester : walk_requests.row) (owner : profiles.row)
    (slat slng dlat dlng : R) (cid : uuid) :
  walk_requests_pkey d ->
  profiles_pkey d ->
  In requester (tbl_walk_requests d) ->
  In owner (tbl_profiles d) ->
  profiles.id owner = walk_requests.user_id requester ->
  matches_of_request d (walk_requests.id requester) = [] ->
  matches_of_request d cid = [] ->
  find_walk_buddy d now new_match_id (walk_requests.id requester)
    slat slng dlat dlng = (d', Return (Some cid)) ->
  exists c pc newm,
    In c (tbl_walk_requests d) /\ walk_requests.id c = cid
    /\ In pc (tbl_profiles d) /\ profiles.id pc = walk_requests.user_id c
    /\ newm = matches.mk new_match_id (walk_requests.id requester) cid
                ((slat + walk_requests.start_lat c) / 2)%R
                ((slng + walk_requests.start_lng c) / 2)%R matches.pending
    /\ getMatchDetails first_name created_at d' (walk_requests.id requester)
       = Fulfilled (Some (mk_details new_match_id
           (first_name pc) (walk_requests.user_id c) (profiles.trust_score pc)
           (matches.meetup_lat newm) (matches.meetup_lng newm)
           (walk_requests.start_lat c) (walk_requests.start_lng c)
           (walk_requests.dest_lat c) (walk_requests.dest_lng c)
           matches.pending (created_at newm)))
    /\ getMatchDetails first_name created_at d' cid
       = Fulfilled (Some (mk_details new_match_id
           (first_name owner) (walk_requests.user_id requester)
           (profiles.trust_score owner)
           (matches.meetup_lat newm) (matches.meetup_lng newm)
           (walk_requests.start_lat requester) (walk_requests.start_lng requester)
           (walk_requests.dest_lat requester) (walk_requests.dest_lng requester)
           matches.pending (created_at newm))).
Proof.
  intros Hpk Hppk Hin Hown Hownid Hm1 Hm2 H.
  destruct (find_walk_buddy_some_inv _ _ _ _ _ _ _ _ _ _ Hpk Hin H)
    as (c & <- & Hel & ->).
  destruct Hel as (Hc & Hne & _ & (pc & Hpc & Hpcid & _) & _).
  exists c, pc, (matches.mk new_match_id (walk_requests.id requester)
                   (walk_requests.id c)
                   ((slat + walk_requests.start_lat c) / 2)%R
                   ((slng + walk_requests.start_lng c) / 2)%R matches.pending).
  repeat (split; [ first [ assumption | reflexivity ] | ]).
  assert (Hids : forall wr,
            walk_requests.id
              ((fun wr =>
                  if String.eqb (walk_requests.id wr) (walk_requests.id requester)
                  then walk_requests.set_status_matched_with walk_requests.matched
                         (Some (walk_requests.user_id c)) wr
                  else if String.eqb (walk_requests.id wr) (walk_requests.id c)
                  then walk_requests.set_status_matched_with walk_requests.matched
                         (Some (walk_requests.user_id requester)) wr
                  else wr) wr)
            = walk_requests.id wr).
  { intros wr. destruct (String.eqb (walk_requests.id wr) (walk_requests.id requester));
      [ reflexivity | ].
    destruct (String.eqb (walk_requests.id wr) (walk_requests.id c)); reflexivity. }
  pose proof (not_eq_sym Hne) as Hne'.
  pose proof (proj2 (String.eqb_neq _ _) Hne) as Ecr.
  pose proof (proj2 (String.eqb_neq _ _) Hne') as Erc.
  unfold matches_of_request in Hm1, Hm2.
  split.
  - unfold getMatchDetails, matches_of_request. simpl tbl_matches.
    rewrite filter_app, Hm1. simpl. rewrite String.eqb_refl. simpl.
    rewrite String.eqb_refl.
    unfold walk_requests_eq_id. rewrite matched_rows by exact Hne'.
    rewrite (filter_map_key _ walk_requests.id _ _ _ Hids).
    rewrite (filter_key_unique _ walk_requests.id _ _ Hc Hpk). simpl.
    rewrite Ecr, String.eqb_refl. simpl.
    unfold profiles_eq_id. simpl tbl_profiles.
    rewrite <- Hpcid.
    rewrite (filter_key_unique _ profiles.id _ _ Hpc Hppk). simpl.
    now rewrite Hpcid.
  - unfold getMatchDetails, matches_of_request. simpl tbl_matches.
    rewrite filter_app, Hm2. simpl. rewrite Erc, String.eqb_refl. simpl.
    rewrite Erc.
    unfold walk_requests_eq_id. rewrite matched_rows by exact Hne'.
    rewrite (filter_map_key _ walk_requests.id _ _ _ Hids).
    rewrite (filter_key_unique _ walk_requests.id _ _ Hin Hpk). simpl.
    rewrite String.eqb_refl. simpl.
    unfold profiles_eq_id. simpl tbl_profiles.
    rewrite <- Hownid.
    rewrite (filter_key_unique _ profiles.id _ _ Hown Hppk). simpl.
    now rewrite Hownid.
Qed.

End MatchQueriesFacts.

Lemma db_matched_matches_pkey : matches_pkey Sample.db_matched.
Proof.
  unfold matches_pkey. simpl.
  repeat (constructor; [ simpl; intuition discriminate | ]). constructor.
Defined.

Lemma getUserMatches_completeMatch_cancelMatch_witness :
  (In (matches.mk "m1" "r1" "r2" 0 0 matches.pending)
      (MatchQueries.getUserMatches (fun _ => 0%Z) Sample.db_matched "u1")
   <-> snd (Services.completeMatch Sample.db_matched "m1" "u1")
       = Services.Resolved tt)
  /\ (In (matches.mk "m1" "r1" "r2" 0 0 matches.pending)
         (MatchQueries.getUserMatches (fun _ => 0%Z) Sample.db_matched "u1")
      <-> snd (Services.cancelMatch Sample.db_matched "m1" "u1")
          = Services.Resolved tt).
Proof.
  apply (getUserMatches_completeMatch_cancelMatch (fun _ => 0%Z)
           Sample.db_matched "u1" (matches.mk "m1" "r1" "r2" 0 0 matches.pending)).
  - exact db_matched_matches_pkey.
  - simpl; auto.
Defined.

Lemma db_pair_profiles_pkey : profiles_pkey Sample.db_pair.
Proof.
  unfold profiles_pkey. simpl.
  repeat (constructor; [ simpl; intuition discriminate | ]). constructor.
Defined.

Lemma getMatchDetails_after_find_walk_buddy_witness :
  exists c pc newm,
    In c (tbl_walk_requests Sample.db_pair) /\ walk_requests.id c = "r2"%string
    /\ In pc (tbl_profiles Sample.db_pair)
    /\ profiles.id pc = walk_requests.user_id c
    /\ newm = matches.mk "m1" "r1" "r2"
                ((0 + walk_requests.start_lat c) / 2)%R
                ((0 + walk_requests.start_lng c) / 2)%R matches.pending
    /\ MatchQueries.getMatchDetails (fun _ => "name"%string) (fun _ => 0%Z)
         Sample.db_pair_matched "r1"
       = Fulfilled (Some (MatchQueries.mk_details "m1"
           "name" (walk_requests.user_id c) (profiles.trust_score pc)
           (matches.meetup_lat newm) (matches.meetup_lng newm)
           (walk_requests.start_lat c) (walk_requests.start_lng c)
           (walk_requests.dest_lat c) (walk_requests.dest_lng c)
           matches.pending 0%Z))
    /\ MatchQueries.getMatchDetails (fun _ => "name"%string) (fun _ => 0%Z)
         Sample.db_pair_matched "r2"
       = Fulfilled (Some (MatchQueries.mk_details "m1"
           "name" "u1" 100%Z
           (matches.meetup_lat newm) (matches.meetup_lng newm)
           0%R 0%R 0%R 0%R
           matches.pending 0%Z)).
Proof.
  apply (getMatchDetails_after_find_walk_buddy
           (fun _ => "name"%string) (fun _ => 0%Z)
           Sample.db_pair Sample.db_pair_matched 0%Z "m1"
           (Sample.request "r1" "u1" 0 walk_requests.waiting None 600)
           (Sample.profile "u1" 100 false) 0%R 0%R 0%R 0%R "r2").
  - exact db_pair_pkey.
  - exact db_pair_profiles_pkey.
  - simpl; auto.
  - simpl; auto.
  - reflexivity.
  - reflexivity.
  - reflexivity.
  - exact find_walk_buddy_db_pair.
Defined.

(** ** Row level security after a match *)

Section PoliciesFacts.
Import Geo Migration Filter Policies.
Local Open Scope string_scope.

(** X8.  After [find_walk_buddy] has matched a requester with a
    candidate, the policies let each of the two users see both stored
    requests (the own one, and the other one through [matched_with]) and
    the new [matches] row; they let neither of them see the other's
    profile. *)
Theorem matched_users_policies
    (d d' : database) (now : timestamptz) (new_match_id : uuid)
    (requester : walk_requests.row) (slat slng dlat dlng : R) (cid : uuid) :
  walk_requests_pkey d ->
  In requester (tbl_walk_requests d) ->
  find_walk_buddy d now new_match_id (walk_requests.id requester)
    slat slng dlat dlng = (d', Return (Some cid)) ->
  exists c r' c' m,
    In c (tbl_walk_requests d) /\ walk_requests.id c = cid
    /\ In r' (tbl_walk_requests d')
    /\ walk_requests.id r' = walk_requests.id requester
    /\ In c' (tbl_walk_requests d') /\ walk_requests.id c' = cid
    /\ In m (tbl_matches d') /\ matches.id m = new_match_id
    /\ (forall u,
          u = walk_requests.user_id requester \/ u = walk_requests.user_id c ->
          walk_requests_select (Some u) r' = true
          /\ walk_requests_select (Some u) c' = true
          /\ matches_select d' (Some u) m = true)
    /\ (forall p, profiles.id p = walk_requests.user_id c ->
          profiles_select (Some (walk_requests.user_id requester)) p = false)
    /\ (forall p, profiles.id p = walk_requests.user_id requester ->
          profiles_select (Some (walk_requests.user_id c)) p = false).
Proof.
  intros Hpk Hin H.
  destruct (find_walk_buddy_some_inv _ _ _ _ _ _ _ _ _ _ Hpk Hin H)
    as (c & <- & Hel & ->).
  destruct Hel as (Hc & Hne & Hu & _).
  pose proof (not_eq_sym Hne) as Hne'.
  set (r' := walk_requests.set_status_matched_with walk_requests.matched
               (Some (walk_requests.user_id c)) requester).
  set (c' := walk_requests.set_status_matched_with walk_requests.matched
               (Some (walk_requests.user_id requester)) c).
  assert (Hr' : In r' (tbl_walk_requests
                  (insert_match new_match_id (walk_requests.id requester)
                     (walk_requests.id c)
                     ((slat + walk_requests.start_lat c) / 2)%R
                     ((slng + walk_requests.start_lng c) / 2)%R
                     (update_matched (walk_requests.id c)
                        (Some (walk_requests.user_id requester))
                        (update_matched (walk_requests.id requester)
                           (Some (walk_requests.user_id c)) d))))).
  { rewrite matched_rows by exact Hne'. apply in_map_iff. exists requester.
    now rewrite String.eqb_refl. }
  assert (Hc' : In c' (tbl_walk_requests
                  (insert_match new_match_id (walk_requests.id requester)
                     (walk_requests.id c)
                     ((slat + walk_requests.start_lat c) / 2)%R
                     ((slng + walk_requests.start_lng c) / 2)%R
                     (update_matched (walk_requests.id c)
                        (Some (walk_requests.user_id requester))
                        (update_matched (walk_requests.id requester)
                           (Some (walk_requests.user_id c)) d))))).
  { rewrite matched_rows by exact Hne'. apply in_map_iff. exists c.
    split; [ | exact Hc ].
    apply String.eqb_neq in Hne. now rewrite Hne, String.eqb_refl. }
  exists c, r', c',
    (matches.mk new_match_id (walk_requests.id requester) (walk_requests.id c)
       ((slat + walk_requests.start_lat c) / 2)%R
       ((slng + walk_requests.start_lng c) / 2)%R matches.pending).
  split; [ exact Hc | ]. split; [ reflexivity | ].
  split; [ exact Hr' | ]. split; [ reflexivity | ].
  split; [ exact Hc' | ]. split; [ reflexivity | ].
  split; [ simpl; apply in_or_app; right; now left | ].
  split; [ reflexivity | ].
  pose proof (proj2 (String.eqb_neq _ _) Hu) as Ecu.
  pose proof (proj2 (String.eqb_neq _ _) (not_eq_sym Hu)) as Euc.
  split; [ | split ].
  - intros u [ -> | -> ]; unfold walk_requests_select, matches_select; simpl;
      rewrite ?String.eqb_refl, ?orb_true_r; simpl;
      (split; [ reflexivity | split; [ reflexivity | ] ]);
      apply existsb_exists.
    + exists r'. split; [ exact Hr' | ]. simpl. now rewrite !String.eqb_refl.
    + exists c'. split; [ exact Hc' | ]. simpl.
      now rewrite !String.eqb_refl, orb_true_r.
  - intros p Hp. unfold profiles_select. simpl. rewrite Hp. exact Euc.
  - intros p Hp. unfold profiles_select. simpl. rewrite Hp. exact Ecu.
Qed.

Lemma matched_users_policies_witness :
  exists c r' c' m,
    In c (tbl_walk_requests Sample.db_pair) /\ walk_requests.id c = "r2"
    /\ In r' (tbl_walk_requests Sample.db_pair_matched)
    /\ walk_requests.id r' = "r1"
    /\ In c' (tbl_walk_requests Sample.db_pair_matched)
    /\ walk_requests.id c' = "r2"
    /\ In m (tbl_matches Sample.db_pair_matched) /\ matches.id m = "m1"
    /\ (forall u,
          u = "u1" \/ u = walk_requests.user_id c ->
          walk_requests_select (Some u) r' = true
          /\ walk_requests_select (Some u) c' = true
          /\ matches_select Sample.db_pair_matched (Some u) m = true)
    /\ (forall p, profiles.id p = walk_requests.user_id c ->
          profiles_select (Some "u1") p = false)
    /\ (forall p, profiles.id p = "u1" ->
          profiles_select (Some (walk_requests.user_id c)) p = false).
Proof.
  apply (matched_users_policies Sample.db_pair Sample.db_pair_matched 0%Z "m1"
           (Sample.request "r1" "u1" 0 walk_requests.waiting None 600)
           0%R 0%R 0%R 0%R "r2").
  - exact db_pair_pkey.
  - simpl; auto.
  - exact find_walk_buddy_db_pair.
Defined.

End PoliciesFacts.

(** ** Reports and trust scores *)

Section TrustFacts.
Import Migration Services MatchQueries Trust.
Local Open Scope string_scope.
Local Open Scope Z_scope.

Lemma profile_ids_after_update (u : uuid) (s : Z) (l : list profiles.row) :
  map profiles.id
    (map (fun q => if String.eqb (profiles.id q) u then set_trust_score s q else q) l)
  = map profiles.id l.
Proof.
  rewrite map_map. apply map_ext. intros q.
  destruct (String.eqb (profiles.id q) u); reflexivity.
Qed.

(** What the manual decrement does to a profile that is there, once, with
    a trust score in range. *)
Lemma decrement_manually_effect (d : database) (u : uuid) (p : profiles.row) :
  profiles_pkey d -> In p (tbl_profiles d) -> profiles.id p = u ->
  profiles.trust_score_check p = true ->
  decrement_manually d u
  = mkdb (map (fun q => if String.eqb (profiles.id q) u
                        then set_trust_score (Z.max 0 (profiles.trust_score p - 10)) q
                        else q)
              (tbl_profiles d))
      (tbl_walk_requests d) (tbl_matches d).
Proof.
  intros Hpk Hin Hid Hchk. unfold decrement_manually, profiles_eq_id.
  subst u. rewrite (filter_key_unique _ profiles.id _ _ Hin Hpk). simpl single.
  cbv zeta. unfold profiles_update_trust_score.
  assert (profiles.trust_score_check
            (profiles.mk (profiles.id p) (Z.max 0 (profiles.trust_score p - 10)) false)
          = true) as ->.
  { unfold profiles.trust_score_check in *. simpl.
    apply andb_true_iff in Hchk. destruct Hchk as [H0 H100].
    apply Z.leb_le in H0, H100. apply andb_true_iff. split; apply Z.leb_le; lia. }
  simpl. now rewrite andb_false_r.
Qed.

(** X9.  A fulfilled [submitReport] against a user whose trust score is in
    range lowers that score by 10, but not below 0; the new score is in
    range again; the user's ban flag, all other profiles, the requests and
    the matches are unchanged, and the report is added to the table. *)
Theorem submitReport_lowers_trust_score
    (st st' : store) (new_report_id reporterId reportedUserId : uuid)
    (matchId : option uuid) (reason : string) (details : option string)
    (report : reports.row) (p : profiles.row) :
  profiles_pkey (db st) ->
  In p (tbl_profiles (db st)) ->
  profiles.id p = reportedUserId ->
  profiles.trust_score_check p = true ->
  submitReport st new_report_id reporterId reportedUserId matchId reason details
  = (st', Fulfilled report) ->
  tbl_profiles (db st')
  = map (fun q => if String.eqb (profiles.id q) reportedUserId
                  then profiles.mk (profiles.id q)
                         (Z.max 0 (profiles.trust_score p - 10))
                         (profiles.is_banned q)
                  else q)
        (tbl_profiles (db st))
  /\ In (profiles.mk reportedUserId (Z.max 0 (profiles.trust_score p - 10))
           (profiles.is_banned p))
        (tbl_profiles (db st'))
  /\ 0 <= Z.max 0 (profiles.trust_score p - 10) <= 100
  /\ profiles_pkey (db st')
  /\ tbl_walk_requests (db st') = tbl_walk_requests (db st)
  /\ tbl_matches (db st') = tbl_matches (db st)
  /\ tbl_reports st' = (tbl_reports st ++ [report])%list
  /\ reports.reported_user_id report = reportedUserId
  /\ reports.reporter_id report = reporterId.
Proof.
  intros Hpk Hin Hid Hchk H. unfold submitReport in H; cbv zeta in H.
  destruct (reports_insert st _) as [ st1 | ] eqn:Ei; [ | discriminate ].
  unfold reports_insert in Ei.
  destruct (_ || _ || _ || _)%bool; [ discriminate | ]. injection Ei as <-.
  simpl in H. injection H as <- <-. simpl.
  rewrite (decrement_manually_effect _ _ _ Hpk Hin Hid Hchk). simpl.
  split; [ reflexivity | ]. split.
  - apply in_map_iff. exists p. split; [ | exact Hin ].
    apply String.eqb_eq in Hid. rewrite Hid. apply String.eqb_eq in Hid.
    unfold set_trust_score. now rewrite Hid.
  - split.
    + unfold profiles.trust_score_check in Hchk.
      apply andb_true_iff in Hchk. destruct Hchk as [H0 H100].
      apply Z.leb_le in H0, H100. lia.
    + repeat split; try reflexivity.
      unfold profiles_pkey. simpl tbl_profiles.
      rewrite profile_ids_after_update. exact Hpk.
Qed.

Lemma select_candidate_owner (d : database) (now : timestamptz) (rid : uuid)
    (v : option uuid) (slat slng dlat dlng : R) (cid cuid : uuid) :
  select_candidate d now rid v slat slng dlat dlng = Some (cid, cuid) ->
  exists c q, In c (tbl_walk_requests d) /\ walk_requests.id c = cid
    /\ walk_requests.user_id c = cuid
    /\ In q (tbl_profiles d) /\ profiles.id q = cuid
    /\ 50 < profiles.trust_score q /\ profiles.is_banned q = false.
Proof.
  unfold select_candidate. intros H.
  destruct (order_by_limit_1 _ _) as [ [wr q] | ] eqn:E; [ | discriminate ].
  simpl in H. injection H as <- <-.
  apply order_by_limit_1_least in E. destruct E as [Hin _].
  apply filter_In in Hin. destruct Hin as [Hj Hw].
  apply in_join_profiles in Hj. apply candidate_where_true in Hw.
  destruct Hj as (Hwr & Hq & Hid). destruct Hw as (_ & _ & _ & Ht & Hb & _).
  exists wr, q. auto 10.
Qed.

(** X10.  For a [submitReport] run by a session that can read and update
    the profile of the reported user (one that row level security does
    not restrict; the application's own client is no such session for a
    report against another user, see X25): once it is fulfilled against a
    user whose trust score was at most 60, the candidate query of
    [find_walk_buddy] yields no request of that user, whoever asks and
    whenever. *)
Theorem submitReport_makes_ineligible
    (st st' : store) (new_report_id reporterId reportedUserId : uuid)
    (matchId : option uuid) (reason : string) (details : option string)
    (report : reports.row) (p : profiles.row) :
  profiles_pkey (db st) ->
  In p (tbl_profiles (db st)) ->
  profiles.id p = reportedUserId ->
  profiles.trust_score_check p = true ->
  profiles.trust_score p <= 60 ->
  submitReport st new_report_id reporterId reportedUserId matchId reason details
  = (st', Fulfilled report) ->
  forall now rid v slat slng dlat dlng cid cuid,
    select_candidate (db st') now rid v slat slng dlat dlng = Some (cid, cuid) ->
    cuid <> reportedUserId.
Proof.
  intros Hpk Hin Hid Hchk H60 H now rid v slat slng dlat dlng cid cuid Hsel Heq.
  unfold submitReport in H; cbv zeta in H.
  destruct (reports_insert st _) as [ st1 | ] eqn:Ei; [ | discriminate ].
  unfold reports_insert in Ei.
  destruct (_ || _ || _ || _)%bool; [ discriminate | ]. injection Ei as <-.
  simpl in H. injection H as <- _. simpl in Hsel.
  rewrite (decrement_manually_effect _ _ _ Hpk Hin Hid Hchk) in Hsel.
  destruct (select_candidate_owner _ _ _ _ _ _ _ _ _ _ Hsel)
    as (c & q & _ & _ & _ & Hq & Hqid & Ht & _).
  simpl in Hq. apply in_map_iff in Hq. destruct Hq as (q0 & Hq0 & _).
  subst cuid. rewrite <- Hq0 in Hqid, Ht.
  destruct (String.eqb (profiles.id q0) reportedUserId) eqn:E.
  - simpl in Ht. lia.
  - apply String.eqb_neq in E. contradiction.
Qed.

Lemma handle_new_user_inv (d d1 : database) (u : uuid) :
  profiles_pkey d -> handle_new_user d u = Some d1 ->
  profiles_pkey d1 /\ In (profiles.mk u 100 false) (tbl_profiles d1).
Proof.
  unfold handle_new_user. intros Hpk H.
  destruct (existsb _ (tbl_profiles d)) eqn:E; [ discriminate | ].
  injection H as <-. unfold profiles_pkey in *. simpl. split.
  - rewrite map_app. simpl.
    apply NoDup_app; [ exact Hpk | repeat constructor; intros [] | ].
    intros x Hx [ <- | [] ]. apply in_map_iff in Hx. destruct Hx as (q & Hid & Hq).
    assert (Ht : existsb (fun p => String.eqb (profiles.id p) u) (tbl_profiles d) = true)
      by (apply existsb_exists; exists q; split; [ exact Hq | now apply String.eqb_eq ]).
    congruence.
  - apply in_or_app. right. now left.
Qed.

(** X11.  A user whose profile the sign-up trigger has just created starts
    with trust score 100 and no ban.  After [k] manual decrements, each
    run by a session that can read and update the profile (one that row
    level security does not restrict; the decrement of a report that the
    application's own client files against another user is none, see
    X25), the score is [max 0 (100 - 10 k)], and the user passes the trust
    and ban conditions of the candidate query exactly when [k] is at
    most 4. *)
Theorem new_user_eligible_through_four_reports
    (d d1 : database) (u : uuid) (k : nat) :
  profiles_pkey d ->
  handle_new_user d u = Some d1 ->
  exists p,
    In p (tbl_profiles (Nat.iter k (fun d' => decrement_manually d' u) d1))
    /\ profiles.id p = u
    /\ profiles.trust_score p = Z.max 0 (100 - 10 * Z.of_nat k)
    /\ profiles.is_banned p = false
    /\ (((50 <? profiles.trust_score p) && Bool.eqb (profiles.is_banned p) false)%bool
        = true <-> (k <= 4)%nat).
Proof.
  intros Hpk H. destruct (handle_new_user_inv _ _ _ Hpk H) as [Hpk1 Hin1].
  assert (Hk : profiles_pkey (Nat.iter k (fun d' => decrement_manually d' u) d1)
               /\ In (profiles.mk u (Z.max 0 (100 - 10 * Z.of_nat k)) false)
                    (tbl_profiles (Nat.iter k (fun d' => decrement_manually d' u) d1))).
  { induction k as [ | k IH ].
    - simpl. auto.
    - destruct IH as [Hpkk Hink]. rewrite Nat.iter_succ.
      set (dk := Nat.iter k (fun d' => decrement_manually d' u) d1) in *.
      rewrite (decrement_manually_effect dk u _ Hpkk Hink eq_refl).
      + cbn [profiles.trust_score tbl_profiles]. split.
        * unfold profiles_pkey. cbn [tbl_profiles].
          rewrite profile_ids_after_update. exact Hpkk.
        * apply in_map_iff.
          exists (profiles.mk u (Z.max 0 (100 - 10 * Z.of_nat k)) false).
          split; [ | exact Hink ]. cbn [profiles.id]. rewrite String.eqb_refl.
          unfold set_trust_score. cbn [profiles.id profiles.is_banned
            profiles.trust_score]. f_equal. lia.
      + unfold profiles.trust_score_check. cbn [profiles.trust_score].
        apply andb_true_iff. split; apply Z.leb_le; lia. }
  destruct Hk as [_ Hin].
  exists (profiles.mk u (Z.max 0 (100 - 10 * Z.of_nat k)) false).
  split; [ exact Hin | ].
  cbn [profiles.id profiles.trust_score profiles.is_banned]. repeat split.
  - intros Ht. apply andb_true_iff in Ht. destruct Ht as [Ht _].
    apply Z.ltb_lt in Ht. lia.
  - intros Hle. apply andb_true_iff. split; [ | reflexivity ].
    apply Z.ltb_lt. lia.
Qed.

Lemma submitReport_store_pair :
  submitReport Scenario.store_pair "rep1" "u1" "u3" None "late" None
  = (Scenario.store_pair_reported, Fulfilled Scenario.report_1).
Proof. reflexivity. Qed.

Lemma submitReport_lowers_trust_score_witness :
  tbl_profiles (db Scenario.store_pair_reported)
  = map (fun q => if String.eqb (profiles.id q) "u3"
                  then profiles.mk (profiles.id q)
                         (Z.max 0 (profiles.trust_score (Sample.profile "u3" 51 false) - 10))
                         (profiles.is_banned q)
                  else q)
        (tbl_profiles (db Scenario.store_pair))
  /\ In (profiles.mk "u3"
           (Z.max 0 (profiles.trust_score (Sample.profile "u3" 51 false) - 10))
           (profiles.is_banned (Sample.profile "u3" 51 false)))
        (tbl_profiles (db Scenario.store_pair_reported))
  /\ 0 <= Z.max 0 (profiles.trust_score (Sample.profile "u3" 51 false) - 10) <= 100
  /\ profiles_pkey (db Scenario.store_pair_reported)
  /\ tbl_walk_requests (db Scenario.store_pair_reported)
     = tbl_walk_requests (db Scenario.store_pair)
  /\ tbl_matches (db Scenario.store_pair_reported)
     = tbl_matches (db Scenario.store_pair)
  /\ tbl_reports Scenario.store_pair_reported
     = (tbl_reports Scenario.store_pair ++ [Scenario.report_1])%list
  /\ reports.reported_user_id Scenario.report_1 = "u3"
  /\ reports.reporter_id Scenario.report_1 = "u1".
Proof.
  apply (submitReport_lowers_trust_score Scenario.store_pair
           Scenario.store_pair_reported "rep1" "u1" "u3" None "late" None
           Scenario.report_1 (Sample.profile "u3" 51 false)).
  - exact db_pair_profiles_pkey.
  - simpl; auto.
  - reflexivity.
  - reflexivity.
  - exact submitReport_store_pair.
Defined.

Lemma db_pool_profiles_pkey : profiles_pkey Sample.db_pool.
Proof.
  unfold profiles_pkey. simpl.
  repeat (constructor; [ simpl; intuition discriminate | ]). constructor.
Defined.

Lemma submitReport_store_pool :
  submitReport Scenario.store_pool "rep1" "u1" "u3" None "late" None
  = (Scenario.store_pool_reported, Fulfilled Scenario.report_1).
Proof. reflexivity. Qed.

(** With the owner of the nearest candidate reported down to 41, the
    candidate query yields the other legal candidate. *)
Lemma select_candidate_store_pool_reported :
  select_candidate (db Scenario.store_pool_reported) 500 "r1" (Some "u1")
    0 0 0 0 = Some ("far", "u2").
Proof.
  unfold select_candidate, join_profiles, Scenario.store_pool_reported,
    Sample.db_pool, candidate_where, start_distance.
  eval_query. reflexivity.
Qed.

Lemma submitReport_makes_ineligible_witness :
  select_candidate (db Scenario.store_pool_reported) 500 "r1" (Some "u1")
    0 0 0 0 = Some ("far", "u2")
  /\ "u2" <> "u3".
Proof.
  split; [ exact select_candidate_store_pool_reported | ].
  apply (submitReport_makes_ineligible Scenario.store_pool
           Scenario.store_pool_reported "rep1" "u1" "u3" None "late" None
           Scenario.report_1 (Sample.profile "u3" 51 false)
           db_pool_profiles_pkey
           (or_intror (or_intror (or_introl eq_refl)))
           eq_refl eq_refl
           ltac:(simpl; lia)
           submitReport_store_pool
           500 "r1" (Some "u1") 0%R 0%R 0%R 0%R "far" "u2"
           select_candidate_store_pool_reported).
Defined.

Lemma db_blank_profiles_pkey : profiles_pkey Scenario.db_blank.
Proof. unfold profiles_pkey. simpl. constructor. Defined.

Lemma new_user_eligible_through_four_reports_witness :
  exists p,
    In p (tbl_profiles
            (Nat.iter 5 (fun d' => decrement_manually d' "u9")
               (mkdb [profiles.mk "u9" 100 false] [] [])))
    /\ profiles.id p = "u9"
    /\ profiles.trust_score p = Z.max 0 (100 - 10 * Z.of_nat 5)
    /\ profiles.is_banned p = false
    /\ (((50 <? profiles.trust_score p) && Bool.eqb (profiles.is_banned p) false)%bool
        = true <-> (5 <= 4)%nat).
Proof.
  apply (new_user_eligible_through_four_reports Scenario.db_blank
           (mkdb [profiles.mk "u9" 100 false] [] []) "u9" 5).
  - exact db_blank_profiles_pkey.
  - reflexivity.
Defined.

End TrustFacts.

(** ** Sequences of operations: what always holds *)

Section LifecycleFacts.
Import Migration Services Lifecycle.
Local Open Scope string_scope.

Lemma request_step_refl (wr : walk_requests.row) : request_step wr wr.
Proof. unfold request_step. tauto. Qed.

Lemma request_step_trans (a b c : walk_requests.row) :
  request_step a b -> request_step b c -> request_step a c.
Proof.
  unfold request_step.
  intros (H1 & H2 & H3 & H4 & H5 & H6 & H7 & H8 & H9)
         (K1 & K2 & K3 & K4 & K5 & K6 & K7 & K8 & K9).
  repeat split; try congruence; auto.
Qed.

Lemma match_step_refl (m : matches.row) : match_step m m.
Proof. unfold match_step. tauto. Qed.

Lemma match_step_trans (a b c : matches.row) :
  match_step a b -> match_step b c -> match_step a c.
Proof.
  unfold match_step.
  intros (H1 & H2 & H3 & H4 & H5 & H6) (K1 & K2 & K3 & K4 & K5 & K6).
  repeat split; try congruence; auto.
Qed.

Lemma fresh_match_step (m m' : matches.row) :
  fresh_match m -> match_step m m' -> fresh_match m'.
Proof.
  unfold fresh_match, match_step. intros [Hs Hr] (_ & H1 & H2 & _ & _ & H).
  split; [ auto | congruence ].
Qed.

Lemma Forall2_same (A : Type) (R : A -> A -> Prop) (l : list A) :
  (forall x, R x x) -> Forall2 R l l.
Proof. intros H. induction l; constructor; auto. Qed.

Lemma Forall2_map_right (A : Type) (R : A -> A -> Prop) (f : A -> A) (l : list A) :
  (forall x, R x (f x)) -> Forall2 R l (map f l).
Proof. intros H. induction l; simpl; constructor; auto. Qed.

Lemma Forall2_compose (A : Type) (R : A -> A -> Prop) :
  (forall a b c, R a b -> R b c -> R a c) ->
  forall l1 l2 l3, Forall2 R l1 l2 -> Forall2 R l2 l3 -> Forall2 R l1 l3.
Proof.
  intros Ht l1 l2 l3 H12. revert l3.
  induction H12 as [ | a b l1 l2 Hab _ IH ]; intros l3 H23;
    inversion H23; subst; constructor; eauto.
Qed.

Lemma Forall2_Forall_right (A : Type) (R : A -> A -> Prop) (P : A -> Prop) :
  (forall a b, P a -> R a b -> P b) ->
  forall l1 l2, Forall2 R l1 l2 -> Forall P l1 -> Forall P l2.
Proof.
  intros H l1 l2 H12. induction H12 as [ | a b l1 l2 Hab _ IH ]; intros HP.
  - constructor.
  - inversion HP; subst. constructor; eauto.
Qed.

Lemma Forall2_ids (l l' : list walk_requests.row) :
  Forall2 request_step l l' -> map walk_requests.id l' = map walk_requests.id l.
Proof.
  intros H. induction H as [ | a b l l' Hab _ IH ]; simpl; [ reflexivity | ].
  destruct Hab as (Hid & _). now rewrite Hid, IH.
Qed.

Lemma evolves_refl (d : database) : evolves d d.
Proof.
  unfold evolves. split; [ | split; [ | auto ] ].
  - exists (tbl_walk_requests d), []. rewrite app_nil_r.
    split; [ reflexivity | ]. split; [ | constructor ].
    apply Forall2_same, request_step_refl.
  - exists (tbl_matches d), []. rewrite app_nil_r.
    split; [ reflexivity | ]. split; [ | constructor ].
    apply Forall2_same, match_step_refl.
Qed.

Lemma evolves_trans (d1 d2 d3 : database) :
  evolves d1 d2 -> evolves d2 d3 -> evolves d1 d3.
Proof.
  intros ((r1 & n1 & E1 & F1 & C1) & (m1 & k1 & G1 & M1 & N1) & P1)
         ((r2 & n2 & E2 & F2 & C2) & (m2 & k2 & G2 & M2 & N2) & P2).
  split; [ | split; [ | auto ] ].
  - rewrite E1 in F2. apply Forall2_app_inv_l in F2.
    destruct F2 as (a & b & Fa & Fb & ->).
    exists a, (b ++ n2)%list. rewrite E2, app_assoc.
    split; [ reflexivity | ]. split.
    + exact (Forall2_compose _ _ request_step_trans _ _ _ F1 Fa).
    + apply Forall_app. split; [ | exact C2 ].
      apply (Forall2_Forall_right _ request_step
               (fun wr => walk_requests.status_check (walk_requests.status wr) = true))
        with (l1 := n1); [ | exact Fb | exact C1 ].
      intros x y Hx (_ & _ & _ & _ & _ & _ & _ & _ & H). auto.
  - rewrite G1 in M2. apply Forall2_app_inv_l in M2.
    destruct M2 as (a & b & Ma & Mb & ->).
    exists a, (b ++ k2)%list. rewrite G2, app_assoc.
    split; [ reflexivity | ]. split.
    + exact (Forall2_compose _ _ match_step_trans _ _ _ M1 Ma).
    + apply Forall_app. split; [ | exact N2 ].
      apply (Forall2_Forall_right _ match_step fresh_match) with (l1 := k1);
        [ exact fresh_match_step | exact Mb | exact N1 ].
Qed.

Lemma evolves_requests_map (d : database)
    (f : walk_requests.row -> walk_requests.row) :
  (forall wr, request_step wr (f wr)) ->
  evolves d (with_walk_requests d (map f (tbl_walk_requests d))).
Proof.
  intros Hf.
  assert (HF : Forall2 request_step (tbl_walk_requests d) (map f (tbl_walk_requests d)))
    by now apply Forall2_map_right.
  split; [ | split ].
  - exists (map f (tbl_walk_requests d)), []. simpl. rewrite app_nil_r.
    split; [ reflexivity | ]. split; [ exact HF | constructor ].
  - exists (tbl_matches d), []. simpl. rewrite app_nil_r.
    split; [ reflexivity | ]. split; [ | constructor ].
    apply Forall2_same, match_step_refl.
  - unfold walk_requests_pkey. simpl. now rewrite (Forall2_ids _ _ HF).
Qed.

Lemma evolves_matches_map (d : database) (g : matches.row -> matches.row) :
  (forall m, match_step m (g m)) ->
  evolves d (with_matches d (map g (tbl_matches d))).
Proof.
  intros Hg. split; [ | split; [ | auto ] ].
  - exists (tbl_walk_requests d), []. simpl. rewrite app_nil_r.
    split; [ reflexivity | ]. split; [ | constructor ].
    apply Forall2_same, request_step_refl.
  - exists (map g (tbl_matches d)), []. simpl. rewrite app_nil_r.
    split; [ reflexivity | ]. split; [ | constructor ].
    now apply Forall2_map_right.
Qed.

Lemma evolves_same_tables (d d' : database) :
  tbl_walk_requests d' = tbl_walk_requests d ->
  tbl_matches d' = tbl_matches d ->
  evolves d d'.
Proof.
  intros Hr Hm. unfold evolves, walk_requests_pkey. rewrite Hr, Hm.
  exact (evolves_refl d).
Qed.

Lemma set_status_step (s : walk_requests.status_t) (wr : walk_requests.row) :
  s <> walk_requests.waiting -> walk_requests.status_check s = true ->
  request_step wr (walk_requests.set_status s wr).
Proof. intros Hs Hc. unfold request_step. simpl. tauto. Qed.

Lemma set_status_matched_with_step (m : option uuid) (wr : walk_requests.row) :
  request_step wr
    (walk_requests.set_status_matched_with walk_requests.matched m wr).
Proof.
  unfold request_step. simpl. repeat split; auto; intros; discriminate.
Qed.

Lemma evolves_update_matched (rid : uuid) (m : option uuid) (d : database) :
  evolves d (update_matched rid m d).
Proof.
  apply evolves_requests_map. intros wr.
  destruct (String.eqb (walk_requests.id wr) rid).
  - apply set_status_matched_with_step.
  - apply request_step_refl.
Qed.

Lemma evolves_insert_match (mid r1 r2 : uuid) (lat lng : R) (d : database) :
  r1 <> r2 -> evolves d (insert_match mid r1 r2 lat lng d).
Proof.
  intros Hne. split; [ | split; [ | auto ] ].
  - exists (tbl_walk_requests d), []. simpl. rewrite app_nil_r.
    split; [ reflexivity | ]. split; [ | constructor ].
    apply Forall2_same, request_step_refl.
  - exists (tbl_matches d), [matches.mk mid r1 r2 lat lng matches.pending]. simpl.
    split; [ reflexivity | ]. split.
    + apply Forall2_same, match_step_refl.
    + repeat constructor; simpl; [ discriminate | exact Hne ].
Qed.

Lemma evolves_find_walk_buddy (d : database) (now : timestamptz)
    (new_match_id rid : uuid) (slat slng dlat dlng : R) :
  evolves d (fst (find_walk_buddy d now new_match_id rid slat slng dlat dlng)).
Proof.
  unfold find_walk_buddy; cbv zeta.
  destruct (select_candidate _ _ _ _ _ _ _ _) as [ [cid cuid] | ] eqn:E;
    [ | apply evolves_refl ].
  destruct (select_candidate_in _ _ _ _ _ _ _ _ _ _ E)
    as (c & u & _ & _ & _ & _ & Hne & _).
  unfold record_match.
  destruct (option_map _ (select_column walk_requests.start_lat d cid));
    [ | apply evolves_refl ].
  destruct (option_map _ (select_column walk_requests.start_lng d cid));
    [ | apply evolves_refl ].
  simpl fst.
  eapply evolves_trans; [ apply (evolves_update_matched rid (Some cuid)) | ].
  eapply evolves_trans; [ apply (evolves_update_matched cid) | ].
  apply evolves_insert_match. now apply not_eq_sym.
Qed.

Lemma evolves_findMatch (d : database) (now : timestamptz)
    (new_match_id rid : uuid) (slat slng dlat dlng : R) :
  evolves d (fst (findMatch d now new_match_id rid slat slng dlat dlng)).
Proof.
  pose proof (evolves_find_walk_buddy d now new_match_id rid slat slng dlat dlng) as H.
  unfold findMatch.
  destruct (find_walk_buddy d now new_match_id rid slat slng dlat dlng) as [d' [ v | e ]];
    exact H.
Qed.

Lemma evolves_insert (d d1 : database) (row : walk_requests.row) :
  Intake.walk_requests_insert d row = Some d1 -> evolves d d1.
Proof.
  intros H. pose proof H as Hi. apply walk_requests_insert_inv in Hi.
  destruct Hi as (-> & _ & _ & Hc).
  split; [ | split ].
  - exists (tbl_walk_requests d), [row]. simpl.
    split; [ reflexivity | ]. split; [ | repeat constructor; exact Hc ].
    apply Forall2_same, request_step_refl.
  - exists (tbl_matches d), []. simpl. rewrite app_nil_r.
    split; [ reflexivity | ]. split; [ | constructor ].
    apply Forall2_same, match_step_refl.
  - intros Hpk. exact (walk_requests_insert_pkey _ _ _ Hpk H).
Qed.

Lemma evolves_createWalkRequest (d : database) (now : timestamptz) (Date_now : Z)
    (new_request_id new_match_id userId : uuid)
    (startLat startLng destLat destLng : R) :
  evolves d (fst (Intake.createWalkRequest d now Date_now new_request_id
                    new_match_id userId startLat startLng destLat destLng)).
Proof.
  unfold Intake.createWalkRequest; cbv zeta.
  destruct (Intake.walk_requests_insert d _) as [ d1 | ] eqn:Ei;
    [ | apply evolves_refl ].
  apply evolves_trans with d1; [ exact (evolves_insert _ _ _ Ei) | ].
  match goal with
  | |- context [findMatch ?a ?b ?c ?e ?f ?g ?h ?i] =>
      pose proof (evolves_findMatch a b c e f g h i) as H;
      destruct (findMatch a b c e f g h i) as [d2 [ v | e' ]]; exact H
  end.
Qed.

Lemma evolves_update_status (d d' : database) (rid : uuid)
    (s : walk_requests.status_t) :
  s <> walk_requests.waiting ->
  walk_requests_update_status d rid s = Some d' -> evolves d d'.
Proof.
  unfold walk_requests_update_status. intros Hs H.
  destruct (existsb _ _ && negb (walk_requests.status_check s))%bool eqn:E;
    [ discriminate | ].
  injection H as <-.
  destruct (walk_requests.status_check s) eqn:Hc.
  - apply evolves_requests_map. intros wr.
    destruct (String.eqb (walk_requests.id wr) rid);
      [ now apply set_status_step | apply request_step_refl ].
  - simpl in E. rewrite andb_true_r in E.
    apply evolves_same_tables; [ | reflexivity ].
    simpl. rewrite <- (map_id (tbl_walk_requests d)) at 2.
    apply map_ext_in. intros wr Hwr.
    destruct (String.eqb (walk_requests.id wr) rid) eqn:Ew; [ | reflexivity ].
    assert (Ht : existsb (fun wr => String.eqb (walk_requests.id wr) rid)
                   (tbl_walk_requests d) = true)
      by (apply existsb_exists; exists wr; auto).
    congruence.
Qed.

Lemma evolves_cancelRequest (d : database) (rid uid : uuid) :
  evolves d (fst (cancelRequest d rid uid)).
Proof.
  unfold cancelRequest.
  destruct (single _); [ | apply evolves_refl ].
  destruct (negb _); [ apply evolves_refl | ].
  destruct (walk_requests_update_status d rid walk_requests.cancelled) eqn:E;
    [ | apply evolves_refl ].
  simpl. eapply evolves_update_status; [ | exact E ]. discriminate.
Qed.

(** [confirmMeetup] is rejected whatever its arguments, and leaves the
    database as it is. *)
Lemma confirmMeetup_rejected (d : database) (rid uid : uuid) :
  exists e, confirmMeetup d rid uid = (d, Rejected e).
Proof.
  unfold confirmMeetup.
  destruct (single (walk_requests_eq_id d rid)) as [ r | ] eqn:Hr; [ | eauto ].
  destruct (negb (String.eqb (walk_requests.user_id r) uid)); [ eauto | ].
  destruct (negb (walk_requests.status_eqb _ _)); [ eauto | ].
  unfold walk_requests_update_status.
  rewrite (single_eq_id_exists _ _ _ Hr). simpl. eauto.
Qed.

Lemma evolves_matches_update_status (d d' : database) (mid : uuid)
    (s : matches.status_t) :
  s <> matches.active ->
  matches_update_status d mid s = Some d' -> evolves d d'.
Proof.
  intros Hs H. rewrite matches_update_status_accepted in H. injection H as <-.
  apply evolves_matches_map. intros m.
  destruct (String.eqb (matches.id m) mid); [ | apply match_step_refl ].
  unfold match_step. simpl. tauto.
Qed.

Lemma evolves_completeMatch (d : database) (mid uid : uuid) :
  evolves d (fst (completeMatch d mid uid)).
Proof.
  unfold completeMatch.
  destruct (single _); [ | apply evolves_refl ]. cbv zeta.
  destruct (negb _); [ apply evolves_refl | ].
  destruct (matches_update_status d mid matches.completed) eqn:E;
    [ | apply evolves_refl ].
  simpl. eapply evolves_matches_update_status; [ | exact E ]. discriminate.
Qed.

Lemma evolves_cancelMatch (d : database) (mid uid : uuid) :
  evolves d (fst (cancelMatch d mid uid)).
Proof.
  unfold cancelMatch.
  destruct (single _); [ | apply evolves_refl ]. cbv zeta.
  destruct (negb _); [ apply evolves_refl | ].
  destruct (matches_update_status d mid matches.cancelled) eqn:E;
    [ | apply evolves_refl ].
  simpl. eapply evolves_matches_update_status; [ | exact E ]. discriminate.
Qed.

Lemma evolves_cleanup (d : database) (now : timestamptz) :
  evolves d (cleanup_expired_requests d now).
Proof.
  apply evolves_requests_map. intros wr.
  destruct (_ && _)%bool.
  - apply set_status_step; [ discriminate | reflexivity ].
  - apply request_step_refl.
Qed.

Lemma evolves_decrement_manually (d : database) (u : uuid) :
  evolves d (Trust.decrement_manually d u).
Proof.
  unfold Trust.decrement_manually.
  destruct (single _); [ | apply evolves_refl ]. cbv zeta.
  unfold Trust.profiles_update_trust_score.
  destruct (_ && _)%bool; [ apply evolves_refl | ].
  now apply evolves_same_tables.
Qed.

Lemma evolves_handle_new_user (d : database) (u : uuid) :
  evolves d (match Trust.handle_new_user d u with Some d' => d' | None => d end).
Proof.
  unfold Trust.handle_new_user.
  destruct (existsb _ _); [ apply evolves_refl | ].
  now apply evolves_same_tables.
Qed.

Lemma evolves_apply_operation (now : timestamptz) (op : operation) (d : database) :
  evolves d (apply_operation now op d).
Proof.
  destruct op; simpl.
  - apply evolves_createWalkRequest.
  - apply evolves_findMatch.
  - apply evolves_cancelRequest.
  - destruct (confirmMeetup_rejected d requestId userId) as (e & ->).
    apply evolves_refl.
  - apply evolves_completeMatch.
  - apply evolves_cancelMatch.
  - apply evolves_cleanup.
  - apply evolves_handle_new_user.
  - apply evolves_decrement_manually.
  - now apply evolves_same_tables.
Qed.

Lemma evolves_run_operations (ops : list (timestamptz * operation)) (d : database) :
  evolves d (run_operations ops d).
Proof.
  revert d. induction ops as [ | [now op] rest IH ]; intros d; simpl.
  - apply evolves_refl.
  - eapply evolves_trans; [ apply evolves_apply_operation | apply IH ].
Qed.

Lemma evolves_request_persists (d d' : database) (wr : walk_requests.row) :
  evolves d d' -> In wr (tbl_walk_requests d) ->
  exists wr', In wr' (tbl_walk_requests d') /\ request_step wr wr'.
Proof.
  intros ((rows & news & E & F & _) & _) Hin. rewrite E.
  assert (H : exists wr', In wr' rows /\ request_step wr wr').
  { clear E. induction F as [ | a b l l' Hab _ IH ]; [ contradiction | ].
    destruct Hin as [ <- | Hin ].
    - exists b. split; [ now left | exact Hab ].
    - destruct (IH Hin) as (wr' & Hin' & Hs). exists wr'. split; [ now right | exact Hs ]. }
  destruct H as (wr' & Hin' & Hs). exists wr'.
  split; [ apply in_or_app; now left | exact Hs ].
Qed.

Lemma pkey_injective (l : list walk_requests.row) (a b : walk_requests.row) :
  NoDup (map walk_requests.id l) -> In a l -> In b l ->
  walk_requests.id a = walk_requests.id b -> a = b.
Proof.
  intros Hnd Ha Hb Hid.
  pose proof (find_id_some _ _ Ha Hnd) as Fa.
  pose proof (find_id_some _ _ Hb Hnd) as Fb.
  rewrite Hid in Fa. congruence.
Qed.

(** X12.  Whatever operations run, a request is never deleted and keeps
    its id, owner, coordinates and deadline; and once its status is no
    longer waiting it is never waiting again. *)
Theorem requests_persist_and_never_wait_again
    (ops : list (timestamptz * operation)) (d : database) (wr : walk_requests.row) :
  In wr (tbl_walk_requests d) ->
  exists wr',
    In wr' (tbl_walk_requests (run_operations ops d))
    /\ walk_requests.id wr' = walk_requests.id wr
    /\ walk_requests.user_id wr' = walk_requests.user_id wr
    /\ walk_requests.start_lat wr' = walk_requests.start_lat wr
    /\ walk_requests.start_lng wr' = walk_requests.start_lng wr
    /\ walk_requests.dest_lat wr' = walk_requests.dest_lat wr
    /\ walk_requests.dest_lng wr' = walk_requests.dest_lng wr
    /\ walk_requests.expires_at wr' = walk_requests.expires_at wr
    /\ (walk_requests.status wr <> walk_requests.waiting ->
        walk_requests.status wr' <> walk_requests.waiting).
Proof.
  intros Hin.
  destruct (evolves_request_persists _ _ _ (evolves_run_operations ops d) Hin)
    as (wr' & Hin' & Hs).
  exists wr'. unfold request_step in Hs. tauto.
Qed.

(** X13.  Whatever operations run, no request ever gets the status
    completed and no match ever gets the status active, if none had it to
    begin with. *)
Theorem completed_and_active_unreachable
    (ops : list (timestamptz * operation)) (d : database) :
  (forall wr, In wr (tbl_walk_requests d) ->
     walk_requests.status wr <> walk_requests.completed) ->
  (forall m, In m (tbl_matches d) -> matches.status m <> matches.active) ->
  (forall wr, In wr (tbl_walk_requests (run_operations ops d)) ->
     walk_requests.status wr <> walk_requests.completed)
  /\ (forall m, In m (tbl_matches (run_operations ops d)) ->
        matches.status m <> matches.active).
Proof.
  intros Hr Hm.
  destruct (evolves_run_operations ops d)
    as ((rows & news & E & F & C) & (ms & newms & G & M & N) & _).
  split.
  - assert (Hall : Forall (fun wr =>
               walk_requests.status_check (walk_requests.status wr) = true)
               (rows ++ news)).
    { apply Forall_app. split; [ | exact C ].
      apply (Forall2_Forall_right _ request_step
               (fun wr => walk_requests.status_check (walk_requests.status wr) = true))
        with (l1 := tbl_walk_requests d); [ | exact F | ].
      - intros x y Hx (_ & _ & _ & _ & _ & _ & _ & _ & H). auto.
      - apply Forall_forall. intros wr Hwr. specialize (Hr wr Hwr).
        destruct (walk_requests.status wr); try reflexivity. contradiction. }
    intros wr Hwr. rewrite E in Hwr. rewrite Forall_forall in Hall.
    specialize (Hall wr Hwr). intros Hc. rewrite Hc in Hall. discriminate.
  - assert (Hall : Forall (fun m => matches.status m <> matches.active) (ms ++ newms)).
    { apply Forall_app. split.
      - apply (Forall2_Forall_right _ match_step
                 (fun m => matches.status m <> matches.active))
          with (l1 := tbl_matches d); [ | exact M | ].
        + intros x y Hx (_ & _ & _ & _ & _ & H). auto.
        + apply Forall_forall. exact Hm.
      - eapply Forall_impl; [ | exact N ]. intros m [H _]. exact H. }
    intros m Hin. rewrite G in Hin. rewrite Forall_forall in Hall. now apply Hall.
Qed.

(** X14.  Whatever operations run, the matches of the table stay in
    place with their id, their two requests and their meetup: matches are
    only added, never deleted or pointed at other requests; and the two
    requests of an added match are distinct. *)
Theorem matches_never_repointed
    (ops : list (timestamptz * operation)) (d : database) :
  exists newms,
    map (fun m => (matches.id m, matches.request_1 m, matches.request_2 m,
                   matches.meetup_lat m, matches.meetup_lng m))
        (tbl_matches (run_operations ops d))
    = (map (fun m => (matches.id m, matches.request_1 m, matches.request_2 m,
                      matches.meetup_lat m, matches.meetup_lng m))
           (tbl_matches d)
       ++ map (fun m => (matches.id m, matches.request_1 m, matches.request_2 m,
                         matches.meetup_lat m, matches.meetup_lng m))
            newms)%list
    /\ Forall (fun m => matches.request_1 m <> matches.request_2 m) newms.
Proof.
  destruct (evolves_run_operations ops d) as (_ & (ms & newms & G & M & N) & _).
  exists newms. split.
  - rewrite G, map_app. f_equal. clear G.
    induction M as [ | a b l l' Hab _ IH ]; simpl; [ reflexivity | ].
    destruct Hab as (H1 & H2 & H3 & H4 & H5 & _).
    now rewrite IH, H1, H2, H3, H4, H5.
  - eapply Forall_impl; [ | exact N ]. intros m [_ H]. exact H.
Qed.

(** X15.  A request that has left the status waiting (matched, cancelled
    or expired) is never again selected by the candidate query of
    [find_walk_buddy], whatever operations have been carried out, one
    after another, before the query runs, and whoever asks.  (A call whose
    query ran while the request was still waiting can return it
    afterwards: see C3.) *)
Theorem left_waiting_never_selected
    (ops : list (timestamptz * operation)) (d : database) (wr : walk_requests.row)
    (now : timestamptz) (rid : uuid) (v : option uuid) (slat slng dlat dlng : R)
    (cid cuid : uuid) :
  walk_requests_pkey d ->
  In wr (tbl_walk_requests d) ->
  walk_requests.status wr <> walk_requests.waiting ->
  select_candidate (run_operations ops d) now rid v slat slng dlat dlng
  = Some (cid, cuid) ->
  cid <> walk_requests.id wr.
Proof.
  intros Hpk Hin Hst E Heq.
  pose proof (evolves_run_operations ops d) as Hev.
  destruct (evolves_request_persists _ _ _ Hev Hin) as (wr' & Hin' & Hs).
  destruct Hev as (_ & _ & Hpk'). specialize (Hpk' Hpk).
  destruct Hs as (Hid & _ & _ & _ & _ & _ & _ & Hw & _). specialize (Hw Hst).
  destruct (select_candidate_in _ _ _ _ _ _ _ _ _ _ E)
    as (c & u & Hc & Hcid & _ & Hcw & _).
  assert (c = wr') by (apply (pkey_injective _ _ _ Hpk' Hc Hin'); congruence).
  subst c. contradiction.
Qed.


Lemma requests_persist_and_never_wait_again_witness :
  exists wr',
    In wr' (tbl_walk_requests (run_operations Scenario.a_day Scenario.db_one_waiting))
    /\ walk_requests.id wr' = "r2"
    /\ walk_requests.user_id wr' = "u2"
    /\ walk_requests.start_lat wr' = 0%R
    /\ walk_requests.start_lng wr' = 0%R
    /\ walk_requests.dest_lat wr' = 0%R
    /\ walk_requests.dest_lng wr' = 0%R
    /\ walk_requests.expires_at wr' = 600%Z
    /\ (walk_requests.waiting <> walk_requests.waiting ->
        walk_requests.status wr' <> walk_requests.waiting).
Proof.
  apply (requests_persist_and_never_wait_again Scenario.a_day Scenario.db_one_waiting
           (Sample.request "r2" "u2" 0 walk_requests.waiting None 600)).
  simpl; auto.
Defined.

Lemma completed_and_active_unreachable_witness :
  (forall wr,
     In wr (tbl_walk_requests (run_operations Scenario.a_day Scenario.db_one_waiting)) ->
     walk_requests.status wr <> walk_requests.completed)
  /\ (forall m,
        In m (tbl_matches (run_operations Scenario.a_day Scenario.db_one_waiting)) ->
        matches.status m <> matches.active).
Proof.
  apply (completed_and_active_unreachable Scenario.a_day Scenario.db_one_waiting).
  - intros wr [ <- | [] ]. discriminate.
  - intros m [].
Defined.

Lemma run_operations_a_while :
  run_operations Scenario.a_while Sample.db_pool = Scenario.db_pool_later.
Proof. reflexivity. Qed.

(** After the sweeper has run and [low] was cancelled, the query for [r1]
    selects [near]: the requests [taken], [late] and [low], which are at
    the requester's own start and so nearer than [near], are matched,
    expired and cancelled. *)
Lemma select_candidate_db_pool_later :
  select_candidate (run_operations Scenario.a_while Sample.db_pool) 570 "r1"
    (Some "u1") 0 0 0 0 = Some ("near", "u3").
Proof.
  rewrite run_operations_a_while.
  unfold select_candidate, join_profiles, Scenario.db_pool_later, candidate_where,
    start_distance.
  eval_query. reflexivity.
Qed.

Lemma left_waiting_never_selected_witness :
  select_candidate (run_operations Scenario.a_while Sample.db_pool) 570 "r1"
    (Some "u1") 0 0 0 0 = Some ("near", "u3")
  /\ "near" <> "taken".
Proof.
  split; [ exact select_candidate_db_pool_later | ].
  apply (left_waiting_never_selected Scenario.a_while Sample.db_pool
           (Sample.request "taken" "u3" 0 walk_requests.matched (Some "u2") 600)
           570%Z "r1" (Some "u1") 0%R 0%R 0%R 0%R "near" "u3").
  - unfold walk_requests_pkey. simpl.
    repeat (constructor; [ simpl; intuition discriminate | ]). constructor.
  - simpl; auto 10.
  - discriminate.
  - exact select_candidate_db_pool_later.
Defined.

End LifecycleFacts.

(** ** More on [calculate_distance] *)

Section GeoMore.
Import Geo.
Local Open Scope R_scope.

Lemma atan2_quadrant (y x : R) : 0 <= y -> 0 <= x -> 0 <= atan2 y x <= PI / 2.
Proof.
  intros Hy Hx. pose proof PI_RGT_0 as HPI. unfold atan2.
  destruct (Rlt_dec 0 x) as [ Hpos | Hnpos ].
  - pose proof (atan_bound (y / x)) as [_ Hub].
    assert (H0 : 0 <= y / x) by (apply Rmult_le_pos; [ lra | ];
                                  left; now apply Rinv_0_lt_compat).
    split; [ | lra ].
    destruct H0 as [ H0 | <- ]; [ | rewrite atan_0; lra ].
    pose proof (atan_increasing _ _ H0) as H. rewrite atan_0 in H. lra.
  - destruct (Rlt_dec x 0) as [ Hneg | _ ]; [ lra | ].
    destruct (Rlt_dec 0 y); [ lra | ].
    destruct (Rlt_dec y 0); lra.
Qed.

(** X17.  The distance is never negative and never more than half the
    circumference of the sphere, 3959 PI miles, whatever the
    coordinates. *)
Theorem calculate_distance_bounds (lat1 lng1 lat2 lng2 : R) :
  0 <= calculate_distance lat1 lng1 lat2 lng2 <= 3959 * PI.
Proof.
  unfold calculate_distance; cbv zeta.
  pose proof (atan2_quadrant (sqrt (haversine_a lat1 lng1 lat2 lng2))
                (sqrt (1 - haversine_a lat1 lng1 lat2 lng2))
                (sqrt_pos _) (sqrt_pos _)) as [H0 H1].
  split; nra.
Qed.

(** X18.  The distance does not change when a longitude is shifted by a
    full turn of 360 degrees: two points on either side of the
    antimeridian are as near as they are on the globe. *)
Theorem calculate_distance_full_turn (lat1 lng1 lat2 lng2 : R) :
  calculate_distance lat1 lng1 lat2 (lng2 + 360)
  = calculate_distance lat1 lng1 lat2 lng2
  /\ calculate_distance lat1 (lng1 + 360) lat2 lng2
     = calculate_distance lat1 lng1 lat2 lng2.
Proof.
  assert (H : forall a1 g1 a2 g2,
             haversine_a a1 g1 a2 (g2 + 360) = haversine_a a1 g1 a2 g2).
  { intros a1 g1 a2 g2. unfold haversine_a; cbv zeta.
    replace (radians (g2 + 360 - g1) / 2) with (radians (g2 - g1) / 2 + PI)
      by (unfold radians; field).
    rewrite neg_sin. ring. }
  split.
  - unfold calculate_distance; cbv zeta. now rewrite H.
  - rewrite (calculate_distance_sym lat1 (lng1 + 360)),
      (calculate_distance_sym lat1 lng1).
    unfold calculate_distance; cbv zeta. now rewrite H.
Qed.

Lemma calculate_distance_meridian_north (lat1 lat2 lng : R) :
  0 <= lat2 - lat1 < 180 ->
  calculate_distance lat1 lng lat2 lng = 3959 * radians (lat2 - lat1).
Proof.
  intros [H0 H180].
  pose proof PI_RGT_0 as HPI.
  unfold calculate_distance, haversine_a; cbv zeta.
  set (h := radians (lat2 - lat1) / 2).
  assert (Hh : 0 <= h < PI / 2) by (unfold h, radians; split; nra).
  replace (radians (lng - lng) / 2) with 0 by (unfold radians; lra).
  rewrite sin_0.
  replace (sin h * sin h + cos (radians lat1) * cos (radians lat2) * 0 * 0)
    with (sin h * sin h) by ring.
  assert (Hs : 0 <= sin h) by (apply sin_ge_0; lra).
  assert (Hc : 0 < cos h) by (apply cos_gt_0; lra).
  rewrite (sqrt_square _ Hs).
  replace (1 - sin h * sin h) with (cos h * cos h)
    by (pose proof (sin2_cos2 h) as E; unfold Rsqr in E; lra).
  rewrite sqrt_square by lra.
  unfold atan2. destruct (Rlt_dec 0 (cos h)) as [ _ | N ]; [ | contradiction ].
  change (sin h / cos h) with (tan h).
  rewrite atan_tan by lra.
  unfold h. lra.
Qed.

(** X19.  Between two points on one meridian, and between two points on
    the equator, less than half a turn apart, the distance is the length
    of the arc: 3959 miles times the angle between them in radians. *)
Theorem calculate_distance_arc (p1 p2 other : R) :
  Rabs (p2 - p1) < 180 ->
  calculate_distance p1 other p2 other = 3959 * radians (Rabs (p2 - p1))
  /\ calculate_distance 0 p1 0 p2 = 3959 * radians (Rabs (p2 - p1)).
Proof.
  intros Habs. destruct (Rle_dec p1 p2) as [ Hle | Hgt ].
  - rewrite Rabs_pos_eq in * by lra. split.
    + apply calculate_distance_meridian_north. lra.
    + apply calculate_distance_equator. lra.
  - rewrite Rabs_left in * by lra.
    replace (- (p2 - p1)) with (p1 - p2) in * by lra. split.
    + rewrite calculate_distance_sym. apply calculate_distance_meridian_north. lra.
    + apply calculate_distance_equator_west. lra.
Qed.

Lemma calculate_distance_arc_witness :
  Rabs (1 - 0) < 180
  /\ calculate_distance 0 7 1 7 = 3959 * radians (Rabs (1 - 0))
  /\ calculate_distance 0 0 0 1 = 3959 * radians (Rabs (1 - 0)).
Proof.
  assert (H : Rabs (1 - 0) < 180) by (rewrite Rabs_pos_eq; lra).
  split; [ exact H | ].
  apply (calculate_distance_arc 0 1 7 H).
Defined.

End GeoMore.

(** ** The matcher at the edges *)

Section MatcherEdges.
Import Geo Migration Lifecycle.
Local Open Scope string_scope.

Lemma find_id_none (rows : list walk_requests.row) (rid : uuid) :
  ~ In rid (map walk_requests.id rows) ->
  find (fun wr => String.eqb (walk_requests.id wr) rid) rows = None.
Proof.
  intros Hn.
  destruct (find _ rows) as [ r | ] eqn:E; [ | reflexivity ].
  apply find_some in E. destruct E as [Hin He]. apply String.eqb_eq in He.
  exfalso. apply Hn. rewrite <- He. now apply in_map.
Qed.

(** X20.  Called for a request id that is not in the table,
    [find_walk_buddy] returns null and changes nothing, whatever requests
    are waiting: with no owner to compare with, no row passes the test
    [wr.user_id != v_user_id]. *)
Theorem find_walk_buddy_unknown_request
    (d : database) (now : timestamptz) (new_match_id rid : uuid)
    (slat slng dlat dlng : R) :
  ~ In rid (map walk_requests.id (tbl_walk_requests d)) ->
  find_walk_buddy d now new_match_id rid slat slng dlat dlng = (d, Return None).
Proof.
  intros Hn. unfold find_walk_buddy, select_user_id; cbv zeta.
  rewrite (find_id_none _ _ Hn). simpl option_map.
  unfold select_candidate.
  rewrite filter_none; [ reflexivity | ].
  intros [wr p] _. unfold candidate_where. simpl sql_neq.
  now rewrite andb_false_r.
Qed.

Lemma find_walk_buddy_unknown_request_witness :
  find_walk_buddy Sample.db_pool 500 "m1" "nobody" 0 0 0 0
  = (Sample.db_pool, Return None).
Proof.
  apply (find_walk_buddy_unknown_request Sample.db_pool 500 "m1" "nobody" 0 0 0 0).
  simpl. intuition discriminate.
Defined.

Lemma expire_row_user (now : timestamptz) (wr : walk_requests.row) :
  walk_requests.user_id (expire_row now wr) = walk_requests.user_id wr
  /\ walk_requests.id (expire_row now wr) = walk_requests.id wr.
Proof.
  unfold expire_row. destruct (_ && _)%bool; split; reflexivity.
Qed.

Lemma join_profiles_cleanup (d : database) (t : timestamptz) :
  join_profiles (cleanup_expired_requests d t)
  = map (fun j => (expire_row t (fst j), snd j)) (join_profiles d).
Proof.
  unfold join_profiles. simpl.
  change (map _ (tbl_walk_requests d)) with (map (expire_row t) (tbl_walk_requests d)).
  induction (tbl_walk_requests d) as [ | wr rest IH ]; simpl; [ reflexivity | ].
  rewrite map_app, IH. f_equal.
  rewrite (proj1 (expire_row_user t wr)). now rewrite map_map.
Qed.

Lemma filter_map_fixed (A : Type) (f : A -> bool) (g : A -> A) (l : list A) :
  (forall x, f (g x) = f x) -> (forall x, f x = true -> g x = x) ->
  filter f (map g l) = filter f l.
Proof.
  intros Hf Hg. induction l as [ | x rest IH ]; simpl; [ reflexivity | ].
  rewrite Hf. destruct (f x) eqn:E; [ | exact IH ].
  now rewrite (Hg x E), IH.
Qed.

Lemma candidate_where_expire_row (t now : timestamptz) (rid : uuid)
    (v : option uuid) (slat slng dlat dlng : R) (j : walk_requests.row * profiles.row) :
  (t <= now)%Z ->
  candidate_where now rid v slat slng dlat dlng (expire_row t (fst j), snd j)
  = candidate_where now rid v slat slng dlat dlng j
  /\ (candidate_where now rid v slat slng dlat dlng j = true ->
      (expire_row t (fst j), snd j) = j).
Proof.
  intros Hle. destruct j as [wr p]. simpl fst. simpl snd. unfold expire_row.
  destruct (walk_requests.status_eqb (walk_requests.status wr) walk_requests.waiting
            && (walk_requests.expires_at wr <? t)%Z)%bool eqn:E.
  - apply andb_true_iff in E. destruct E as [_ Ex]. apply Z.ltb_lt in Ex.
    assert (Hlate : (now <? walk_requests.expires_at wr)%Z = false)
      by (apply Z.ltb_ge; lia).
    assert (Hrhs : candidate_where now rid v slat slng dlat dlng (wr, p) = false)
      by (unfold candidate_where; rewrite Hlate; apply andb_false_r).
    rewrite Hrhs. split; [ reflexivity | discriminate ].
  - split; reflexivity.
Qed.

Lemma select_candidate_cleanup (d : database) (t now : timestamptz) (rid : uuid)
    (v : option uuid) (slat slng dlat dlng : R) :
  (t <= now)%Z ->
  select_candidate (cleanup_expired_requests d t) now rid v slat slng dlat dlng
  = select_candidate d now rid v slat slng dlat dlng.
Proof.
  intros Hle. unfold select_candidate. rewrite join_profiles_cleanup.
  rewrite filter_map_fixed; [ reflexivity | | ]; intros j.
  - apply (candidate_where_expire_row t now rid v slat slng dlat dlng j Hle).
  - apply (candidate_where_expire_row t now rid v slat slng dlat dlng j Hle).
Qed.

Lemma select_user_id_cleanup (d : database) (t : timestamptz) (rid : uuid) :
  select_user_id (cleanup_expired_requests d t) rid = select_user_id d rid.
Proof.
  unfold select_user_id. simpl.
  change (map _ (tbl_walk_requests d)) with (map (expire_row t) (tbl_walk_requests d)).
  induction (tbl_walk_requests d) as [ | wr rest IH ]; simpl; [ reflexivity | ].
  destruct (expire_row_user t wr) as [Hu Hi]. rewrite Hi.
  destruct (String.eqb (walk_requests.id wr) rid); [ simpl; now rewrite Hu | exact IH ].
Qed.

Lemma record_match_of_candidate (d : database) (now : timestamptz) (mid rid : uuid)
    (v v' : option uuid) (slat slng dlat dlng : R) (cid cuid : uuid) :
  select_candidate d now rid v slat slng dlat dlng = Some (cid, cuid) ->
  snd (record_match d mid rid slat slng v' (cid, cuid)) = Return (Some cid).
Proof.
  intros E.
  destruct (select_candidate_in _ _ _ _ _ _ _ _ _ _ E) as (c & u & Hc & <- & _).
  destruct (find_id_in _ _ Hc) as (c' & Hc').
  unfold record_match, select_column. now rewrite Hc'.
Qed.

(** X21.  Running the sweeper first never changes what a matcher call
    returns: the requests that the sweeper expires are those that the
    candidate query passes over anyway. *)
Theorem cleanup_does_not_change_the_match
    (d : database) (t now : timestamptz) (new_match_id rid : uuid)
    (slat slng dlat dlng : R) :
  (t <= now)%Z ->
  snd (find_walk_buddy (cleanup_expired_requests d t) now new_match_id rid
         slat slng dlat dlng)
  = snd (find_walk_buddy d now new_match_id rid slat slng dlat dlng).
Proof.
  intros Hle. unfold find_walk_buddy; cbv zeta.
  rewrite select_user_id_cleanup.
  pose proof (select_candidate_cleanup d t now rid (select_user_id d rid)
                slat slng dlat dlng Hle) as Hsel.
  destruct (select_candidate d now rid (select_user_id d rid) slat slng dlat dlng)
    as [ [cid cuid] | ] eqn:E.
  - rewrite Hsel.
    rewrite (record_match_of_candidate _ _ _ _ _ _ _ _ _ _ _ _ Hsel).
    now rewrite (record_match_of_candidate _ _ _ _ _ _ _ _ _ _ _ _ E).
  - now rewrite Hsel.
Qed.

(** At time 550 the sweeper expires the request [late], which is at the
    start of [r1] and would be its nearest candidate but for its deadline;
    with or without the sweep, the call for [r1] returns [near]. *)
Lemma cleanup_does_not_change_the_match_witness :
  map (fun wr => (walk_requests.id wr, walk_requests.status wr))
      (tbl_walk_requests Sample.db_pool)
  = [("r1", walk_requests.waiting); ("r1b", walk_requests.waiting);
     ("far", walk_requests.waiting); ("near", walk_requests.waiting);
     ("low", walk_requests.waiting); ("ban", walk_requests.waiting);
     ("late", walk_requests.waiting); ("taken", walk_requests.matched)]
  /\ map (fun wr => (walk_requests.id wr, walk_requests.status wr))
         (tbl_walk_requests (cleanup_expired_requests Sample.db_pool 550))
     = [("r1", walk_requests.waiting); ("r1b", walk_requests.waiting);
        ("far", walk_requests.waiting); ("near", walk_requests.waiting);
        ("low", walk_requests.waiting); ("ban", walk_requests.waiting);
        ("late", walk_requests.expired); ("taken", walk_requests.matched)]
  /\ snd (find_walk_buddy Sample.db_pool 550 "m1" "r1" 0 0 0 0)
     = Return (Some "near")
  /\ snd (find_walk_buddy (cleanup_expired_requests Sample.db_pool 550) 550 "m1" "r1"
            0 0 0 0)
     = snd (find_walk_buddy Sample.db_pool 550 "m1" "r1" 0 0 0 0).
Proof.
  split; [ reflexivity | ]. split; [ reflexivity | ]. split.
  - unfold find_walk_buddy; cbv zeta.
    assert (select_user_id Sample.db_pool "r1" = Some "u1") as -> by reflexivity.
    assert (select_candidate Sample.db_pool 550 "r1" (Some "u1") 0 0 0 0
            = Some ("near", "u3")) as ->.
    { unfold select_candidate, join_profiles, Sample.db_pool, candidate_where,
        start_distance.
      eval_query. reflexivity. }
    reflexivity.
  - apply (cleanup_does_not_change_the_match Sample.db_pool 550 550 "m1" "r1" 0 0 0 0).
    lia.
Defined.

(** X22.  Two runs of the sweeper, at any two times and in either order,
    leave what one run at the later of the two times leaves. *)
Theorem cleanup_expired_requests_twice_is_latest
    (d : database) (t1 t2 : timestamptz) :
  cleanup_expired_requests (cleanup_expired_requests d t1) t2
  = cleanup_expired_requests d (Z.max t1 t2).
Proof.
  unfold cleanup_expired_requests, with_walk_requests; simpl.
  f_equal. rewrite map_map. apply map_ext. intros wr.
  destruct (walk_requests.status_eqb (walk_requests.status wr) walk_requests.waiting)
    eqn:Es; simpl.
  - destruct (walk_requests.expires_at wr <? t1)%Z eqn:E1; simpl.
    + apply Z.ltb_lt in E1.
      assert ((walk_requests.expires_at wr <? Z.max t1 t2)%Z = true) as ->
        by (apply Z.ltb_lt; lia).
      reflexivity.
    + rewrite Es. simpl. apply Z.ltb_ge in E1.
      destruct (walk_requests.expires_at wr <? t2)%Z eqn:E2.
      * apply Z.ltb_lt in E2.
        assert ((walk_requests.expires_at wr <? Z.max t1 t2)%Z = true) as ->
          by (apply Z.ltb_lt; lia).
        reflexivity.
      * apply Z.ltb_ge in E2.
        assert ((walk_requests.expires_at wr <? Z.max t1 t2)%Z = false) as ->
          by (apply Z.ltb_ge; lia).
        reflexivity.
  - now rewrite Es.
Qed.

End MatcherEdges.

(** * Profiles over sequences of operations *)

Section ProfileFacts.
Import Migration Services Trust Lifecycle.
Local Open Scope string_scope.
Local Open Scope Z_scope.

Lemma profile_step_refl (p : profiles.row) : profile_step p p.
Proof. unfold profile_step. split; [ reflexivity | split; [ lia | tauto ] ]. Qed.

Lemma profile_step_trans (a b c : profiles.row) :
  profile_step a b -> profile_step b c -> profile_step a c.
Proof.
  unfold profile_step. intros (H1 & H2 & H3) (K1 & K2 & K3).
  split; [ congruence | split; [ lia | auto ] ].
Qed.

Lemma profiles_evolve_same (d d' : database) :
  tbl_profiles d' = tbl_profiles d -> profiles_evolve d d'.
Proof.
  intros E [Hpk Hchk]. unfold profiles_ok, profiles_pkey. rewrite E.
  split; [ split; assumption | ].
  intros p Hp. exists p. split; [ exact Hp | apply profile_step_refl ].
Qed.

Lemma profiles_evolve_trans (d1 d2 d3 : database) :
  profiles_evolve d1 d2 -> profiles_evolve d2 d3 -> profiles_evolve d1 d3.
Proof.
  intros H12 H23 Hok. destruct (H12 Hok) as [Hok2 S12].
  destruct (H23 Hok2) as [Hok3 S23]. split; [ exact Hok3 | ].
  intros p Hp. destruct (S12 p Hp) as (p2 & Hp2 & St2).
  destruct (S23 p2 Hp2) as (p3 & Hp3 & St3).
  exists p3. split; [ exact Hp3 | exact (profile_step_trans _ _ _ St2 St3) ].
Qed.

(** An [UPDATE] of [profiles] that keeps the ids, does not raise a trust
    score, lifts no ban and respects the [CHECK]. *)
Lemma profiles_evolve_map (d : database) (g : profiles.row -> profiles.row) :
  (forall p, In p (tbl_profiles d) -> profiles.trust_score_check p = true ->
     profile_step p (g p) /\ profiles.trust_score_check (g p) = true) ->
  profiles_evolve d
    (mkdb (map g (tbl_profiles d)) (tbl_walk_requests d) (tbl_matches d)).
Proof.
  intros Hg [Hpk Hchk]. rewrite Forall_forall in Hchk.
  split; [ split | ].
  - unfold profiles_pkey in *. simpl. rewrite map_map.
    rewrite (map_ext_in _ profiles.id); [ exact Hpk | ].
    intros p Hp. now destruct (Hg p Hp (Hchk p Hp)) as [ [-> _] _ ].
  - simpl. apply Forall_forall. intros q Hq.
    apply in_map_iff in Hq. destruct Hq as (p & <- & Hp).
    now destruct (Hg p Hp (Hchk p Hp)).
  - simpl. intros p Hp. exists (g p). split; [ now apply in_map | ].
    now destruct (Hg p Hp (Hchk p Hp)).
Qed.

Lemma trust_score_check_range (p : profiles.row) :
  profiles.trust_score_check p = true <-> 0 <= profiles.trust_score p <= 100.
Proof.
  unfold profiles.trust_score_check. rewrite andb_true_iff, !Z.leb_le. tauto.
Qed.

Lemma profiles_evolve_ban_user (d : database) (u : uuid) :
  profiles_evolve d (ban_user d u).
Proof.
  unfold ban_user. apply profiles_evolve_map. intros p _ Hc.
  destruct (String.eqb (profiles.id p) u);
    [ | split; [ apply profile_step_refl | exact Hc ] ].
  apply trust_score_check_range in Hc.
  split; [ | reflexivity ].
  unfold profile_step. simpl. split; [ reflexivity | split; [ lia | reflexivity ] ].
Qed.

Lemma profiles_evolve_decrement_manually (d : database) (u : uuid) :
  profiles_evolve d (decrement_manually d u).
Proof.
  intros Hok. pose proof Hok as [Hpk Hchk]. revert Hok.
  destruct (filter (fun p => String.eqb (profiles.id p) u) (tbl_profiles d))
    as [ | x rest ] eqn:F.
  - unfold decrement_manually, MatchQueries.profiles_eq_id. rewrite F. simpl.
    now apply profiles_evolve_same.
  - assert (Hx : In x (filter (fun p => String.eqb (profiles.id p) u) (tbl_profiles d)))
      by (rewrite F; now left).
    apply filter_In in Hx. destruct Hx as [Hx Ex]. apply String.eqb_eq in Ex.
    rewrite Forall_forall in Hchk. pose proof (Hchk x Hx) as Hcx.
    rewrite (decrement_manually_effect d u x Hpk Hx Ex Hcx).
    apply profiles_evolve_map. intros p Hp Hc.
    destruct (String.eqb (profiles.id p) u) eqn:E;
      [ | split; [ apply profile_step_refl | exact Hc ] ].
    assert (Hpx : In p [x]).
    { rewrite <- (filter_key_unique _ profiles.id _ _ Hx Hpk).
      apply filter_In. split; [ exact Hp | now rewrite Ex ]. }
    destruct Hpx as [ <- | [] ].
    apply trust_score_check_range in Hc.
    split.
    + unfold profile_step, set_trust_score. simpl.
      split; [ reflexivity | split; [ lia | tauto ] ].
    + apply trust_score_check_range. simpl. lia.
Qed.

Lemma profiles_evolve_handle_new_user (d : database) (u : uuid) :
  profiles_evolve d match handle_new_user d u with Some d' => d' | None => d end.
Proof.
  destruct (handle_new_user d u) as [ d1 | ] eqn:E;
    [ | now apply profiles_evolve_same ].
  intros [Hpk Hchk]. destruct (handle_new_user_inv _ _ _ Hpk E) as [Hpk1 _].
  unfold handle_new_user in E.
  destruct (existsb _ (tbl_profiles d)); [ discriminate | ]. injection E as <-.
  split; [ split; [ exact Hpk1 | ] | ].
  - simpl. apply Forall_app. split; [ exact Hchk | ]. repeat constructor.
  - simpl. intros p Hp. exists p.
    split; [ apply in_or_app; now left | apply profile_step_refl ].
Qed.

Lemma profiles_find_walk_buddy (d : database) (now : timestamptz)
    (new_match_id rid : uuid) (slat slng dlat dlng : R) :
  tbl_profiles (fst (find_walk_buddy d now new_match_id rid slat slng dlat dlng))
  = tbl_profiles d.
Proof.
  unfold find_walk_buddy; cbv zeta.
  destruct (select_candidate _ _ _ _ _ _ _ _) as [ [cid cuid] | ]; [ | reflexivity ].
  unfold record_match.
  destruct (option_map _ (select_column walk_requests.start_lat d cid));
    [ | reflexivity ].
  destruct (option_map _ (select_column walk_requests.start_lng d cid));
    reflexivity.
Qed.

Lemma profiles_findMatch (d : database) (now : timestamptz)
    (new_match_id rid : uuid) (slat slng dlat dlng : R) :
  tbl_profiles (fst (findMatch d now new_match_id rid slat slng dlat dlng))
  = tbl_profiles d.
Proof.
  pose proof (profiles_find_walk_buddy d now new_match_id rid slat slng dlat dlng) as H.
  unfold findMatch.
  destruct (find_walk_buddy d now new_match_id rid slat slng dlat dlng) as [d' [ v | e ]];
    exact H.
Qed.

Lemma profiles_createWalkRequest (d : database) (now : timestamptz) (Date_now : Z)
    (new_request_id new_match_id userId : uuid)
    (startLat startLng destLat destLng : R) :
  tbl_profiles (fst (Intake.createWalkRequest d now Date_now new_request_id
                       new_match_id userId startLat startLng destLat destLng))
  = tbl_profiles d.
Proof.
  unfold Intake.createWalkRequest; cbv zeta.
  destruct (Intake.walk_requests_insert d _) as [ d1 | ] eqn:Ei; [ | reflexivity ].
  apply walk_requests_insert_inv in Ei. destruct Ei as (-> & _).
  match goal with
  | |- context [findMatch ?a ?b ?c ?e ?f ?g ?h ?i] =>
      pose proof (profiles_findMatch a b c e f g h i) as H;
      destruct (findMatch a b c e f g h i) as [d2 [ v | e' ]]; exact H
  end.
Qed.

Lemma profiles_walk_requests_update_status (d d' : database) (rid : uuid)
    (s : walk_requests.status_t) :
  walk_requests_update_status d rid s = Some d' -> tbl_profiles d' = tbl_profiles d.
Proof.
  unfold walk_requests_update_status.
  destruct (_ && _)%bool; [ discriminate | ]. now intros [= <-].
Qed.

Lemma profiles_matches_update_status (d d' : database) (mid : uuid)
    (s : matches.status_t) :
  matches_update_status d mid s = Some d' -> tbl_profiles d' = tbl_profiles d.
Proof.
  rewrite matches_update_status_accepted. now intros [= <-].
Qed.

Lemma profiles_cancelRequest (d : database) (rid uid : uuid) :
  tbl_profiles (fst (cancelRequest d rid uid)) = tbl_profiles d.
Proof.
  unfold cancelRequest.
  destruct (single _); [ | reflexivity ].
  destruct (negb _); [ reflexivity | ].
  destruct (walk_requests_update_status d rid walk_requests.cancelled) eqn:E;
    [ | reflexivity ].
  exact (profiles_walk_requests_update_status _ _ _ _ E).
Qed.

Lemma profiles_completeMatch (d : database) (mid uid : uuid) :
  tbl_profiles (fst (completeMatch d mid uid)) = tbl_profiles d.
Proof.
  unfold completeMatch.
  destruct (single _); [ | reflexivity ]. cbv zeta.
  destruct (negb _); [ reflexivity | ].
  destruct (matches_update_status d mid matches.completed) eqn:E; [ | reflexivity ].
  exact (profiles_matches_update_status _ _ _ _ E).
Qed.

Lemma profiles_cancelMatch (d : database) (mid uid : uuid) :
  tbl_profiles (fst (cancelMatch d mid uid)) = tbl_profiles d.
Proof.
  unfold cancelMatch.
  destruct (single _); [ | reflexivity ]. cbv zeta.
  destruct (negb _); [ reflexivity | ].
  destruct (matches_update_status d mid matches.cancelled) eqn:E; [ | reflexivity ].
  exact (profiles_matches_update_status _ _ _ _ E).
Qed.

Lemma profiles_evolve_apply_operation (now : timestamptz) (op : operation)
    (d : database) :
  profiles_evolve d (apply_operation now op d).
Proof.
  destruct op; simpl.
  - apply profiles_evolve_same, profiles_createWalkRequest.
  - apply profiles_evolve_same, profiles_findMatch.
  - apply profiles_evolve_same, profiles_cancelRequest.
  - destruct (confirmMeetup_rejected d requestId userId) as [e ->].
    now apply profiles_evolve_same.
  - apply profiles_evolve_same, profiles_completeMatch.
  - apply profiles_evolve_same, profiles_cancelMatch.
  - now apply profiles_evolve_same.
  - apply profiles_evolve_handle_new_user.
  - apply profiles_evolve_decrement_manually.
  - apply profiles_evolve_ban_user.
Qed.

Lemma profiles_evolve_run_operations (ops : list (timestamptz * operation))
    (d : database) :
  profiles_evolve d (run_operations ops d).
Proof.
  revert d. induction ops as [ | [now op] rest IH ]; intros d; simpl.
  - now apply profiles_evolve_same.
  - eapply profiles_evolve_trans;
      [ apply profiles_evolve_apply_operation | apply IH ].
Qed.

(** X23.  Trust is never regained.  From a database whose profiles obey
    the primary key and the [CHECK] of the trust score, whatever
    operations run (requests, matching, cancellations, the sweeper, new
    users, reports, bans): the constraints still hold, every profile is
    still there under its id with a trust score that is not higher, and a
    banned user is still banned. *)
Theorem trust_is_never_regained
    (d : database) (ops : list (timestamptz * operation)) (p : profiles.row) :
  profiles_pkey d ->
  Forall (fun q => profiles.trust_score_check q = true) (tbl_profiles d) ->
  In p (tbl_profiles d) ->
  profiles_pkey (run_operations ops d)
  /\ Forall (fun q => profiles.trust_score_check q = true)
       (tbl_profiles (run_operations ops d))
  /\ exists p', In p' (tbl_profiles (run_operations ops d))
       /\ profiles.id p' = profiles.id p
       /\ profiles.trust_score p' <= profiles.trust_score p
       /\ (profiles.is_banned p = true -> profiles.is_banned p' = true).
Proof.
  intros Hpk Hchk Hp.
  destruct (profiles_evolve_run_operations ops d (conj Hpk Hchk)) as [ [Hpk' Hchk'] S ].
  split; [ exact Hpk' | split; [ exact Hchk' | ] ].
  destruct (S p Hp) as (p' & Hp' & Hid & Ht & Hb). eauto 6.
Qed.

(** X24.  A user who is banned, or whose trust score is at most 50, is
    never again selected as a candidate by [find_walk_buddy], whatever
    operations run in between, whoever asks and whenever. *)
Theorem untrusted_never_selected_again
    (d : database) (ops : list (timestamptz * operation)) (p : profiles.row)
    (now : timestamptz) (rid : uuid) (v : option uuid) (slat slng dlat dlng : R)
    (cid cuid : uuid) :
  profiles_pkey d ->
  Forall (fun q => profiles.trust_score_check q = true) (tbl_profiles d) ->
  In p (tbl_profiles d) ->
  profiles.trust_score p <= 50 \/ profiles.is_banned p = true ->
  select_candidate (run_operations ops d) now rid v slat slng dlat dlng
  = Some (cid, cuid) ->
  cuid <> profiles.id p.
Proof.
  intros Hpk Hchk Hp Hlow Hsel Heq.
  destruct (profiles_evolve_run_operations ops d (conj Hpk Hchk)) as [ [Hpk' _] S ].
  destruct (S p Hp) as (p' & Hp' & Hid & Ht & Hb).
  destruct (select_candidate_owner _ _ _ _ _ _ _ _ _ _ Hsel)
    as (c & q & _ & _ & _ & Hq & Hqid & Hqt & Hqb).
  assert (Hqp : In q [p']).
  { rewrite <- (filter_key_unique _ profiles.id _ _ Hp' Hpk').
    apply filter_In. split; [ exact Hq | ].
    apply String.eqb_eq. congruence. }
  destruct Hqp as [ <- | [] ].
  destruct Hlow as [ Hlow | Hban ]; [ lia | ].
  rewrite (Hb Hban) in Hqb. discriminate.
Qed.

Lemma db_pool_trust_scores :
  Forall (fun q => profiles.trust_score_check q = true) (tbl_profiles Sample.db_pool).
Proof. repeat constructor. Defined.

Lemma db_pool_after_report :
  run_operations [(0, report_op "u3")] Sample.db_pool
  = db Scenario.store_pool_reported.
Proof. reflexivity. Qed.

Lemma select_candidate_after_report :
  select_candidate (run_operations [(0, report_op "u3")] Sample.db_pool)
    500 "r1" (Some "u1") 0 0 0 0 = Some ("far", "u2").
Proof.
  rewrite db_pool_after_report.
  unfold select_candidate, join_profiles, Scenario.store_pool_reported,
    Sample.db_pool, candidate_where, start_distance.
  eval_query. reflexivity.
Qed.

Lemma trust_is_never_regained_witness :
  profiles_pkey
    (run_operations [(0, report_op "u3"); (1, ban_op "u3")] Sample.db_pool)
  /\ Forall (fun q => profiles.trust_score_check q = true)
       (tbl_profiles
          (run_operations [(0, report_op "u3"); (1, ban_op "u3")] Sample.db_pool))
  /\ exists p',
       In p' (tbl_profiles
                (run_operations [(0, report_op "u3"); (1, ban_op "u3")]
                   Sample.db_pool))
       /\ profiles.id p' = "u3"
       /\ profiles.trust_score p' <= 51
       /\ (false = true -> profiles.is_banned p' = true).
Proof.
  exact (trust_is_never_regained Sample.db_pool
           [(0, report_op "u3"); (1, ban_op "u3")] (Sample.profile "u3" 51 false)
           db_pool_profiles_pkey db_pool_trust_scores
           (or_intror (or_intror (or_introl eq_refl)))).
Defined.

Lemma untrusted_never_selected_again_witness :
  select_candidate (run_operations [(0, report_op "u3")] Sample.db_pool)
    500 "r1" (Some "u1") 0 0 0 0 = Some ("far", "u2")
  /\ "u2" <> "u5".
Proof.
  split; [ exact select_candidate_after_report | ].
  exact (untrusted_never_selected_again Sample.db_pool
           [(0, report_op "u3")] (Sample.profile "u5" 100 true)
           500 "r1" (Some "u1") 0%R 0%R 0%R 0%R "far" "u2"
           db_pool_profiles_pkey db_pool_trust_scores
           (or_intror (or_intror (or_intror (or_intror (or_introl eq_refl)))))
           (or_intror eq_refl)
           select_candidate_after_report).
Defined.

End ProfileFacts.

(** * The services under the policies of the migration *)

Section ClientFacts.
Import Services Trust.
Local Open Scope string_scope.

Lemma filter_filter (A : Type) (f g : A -> bool) (l : list A) :
  filter f (filter g l) = filter g (filter f l).
Proof.
  induction l as [ | x rest IH ]; simpl; [ reflexivity | ].
  destruct (f x) eqn:Ef, (g x) eqn:Eg; simpl; rewrite ?Ef, ?Eg, IH; reflexivity.
Qed.

Lemma with_walk_requests_same (d : database) (f : walk_requests.row -> walk_requests.row) :
  (forall wr, In wr (tbl_walk_requests d) -> f wr = wr) ->
  with_walk_requests d (map f (tbl_walk_requests d)) = d.
Proof.
  intros H. destruct d as [ps rows ms]. unfold with_walk_requests. simpl in *.
  f_equal. rewrite <- (map_id rows) at 2. now apply map_ext_in.
Qed.

(** What the session sees of a request that is in the table. *)
Lemma visible_request (auth_uid : option uuid) (d : database) (r : walk_requests.row) :
  walk_requests_pkey d -> In r (tbl_walk_requests d) ->
  walk_requests_eq_id (Client.visible auth_uid d) (walk_requests.id r)
  = if Policies.walk_requests_select auth_uid r then [r] else [].
Proof.
  intros Hpk Hin. unfold walk_requests_eq_id, Client.visible. simpl.
  rewrite filter_filter, (single_eq_id_pkey _ _ Hin Hpk). reflexivity.
Qed.

(** The rows that an [UPDATE] of the request [r] by its id reaches. *)
Lemma updated_request (auth_uid : option uuid) (d : database) (r wr : walk_requests.row) :
  walk_requests_pkey d -> In r (tbl_walk_requests d) -> In wr (tbl_walk_requests d) ->
  String.eqb (walk_requests.id wr) (walk_requests.id r)
  && Policies.walk_requests_update auth_uid wr = true ->
  wr = r /\ Policies.walk_requests_update auth_uid r = true.
Proof.
  intros Hpk Hr Hwr H. apply andb_true_iff in H. destruct H as [Hid Hpol].
  assert (Hin : In wr [r]).
  { rewrite <- (single_eq_id_pkey _ _ Hr Hpk). apply filter_In. auto. }
  destruct Hin as [ <- | [] ]. auto.
Qed.

Lemma uid_is_some (auth_uid : option uuid) (x : uuid) :
  Policies.uid_is auth_uid (Some x) = true <-> auth_uid = Some x.
Proof.
  destruct auth_uid as [ a | ]; simpl.
  - rewrite String.eqb_eq. split; [ intros ->; reflexivity | now intros [= ->] ].
  - split; discriminate.
Qed.

(** C7, as the specification words it, fails on two inputs.  The owner's
    [cancelRequest] moves an expired request to cancelled.  And a user who
    neither owns the request nor is the user it is matched with is not
    told that the call is unauthorized: the request is not among the rows
    that the user can read, and the call is rejected with "Failed to fetch
    request". *)
Lemma cancel_respects_lifecycle_counterexample :
  ~ AsStated.cancel_respects_lifecycle Sample.db_expired "r1" "u1"
  /\ ~ AsStated.cancel_respects_lifecycle Sample.db_expired "r1" "u3".
Proof.
  split; intros H.
  - destruct (H (Sample.request "r1" "u1" 0 walk_requests.expired None 600)
                (or_introl eq_refl) eq_refl) as [_ Hown].
    specialize (Hown eq_refl). simpl in Hown.
    apply (f_equal (fun d => map walk_requests.status (tbl_walk_requests d))) in Hown.
    discriminate Hown.
  - destruct (H (Sample.request "r1" "u1" 0 walk_requests.expired None 600)
                (or_introl eq_refl) eq_refl) as [[_ Hun] _].
    assert (Hne : walk_requests.user_id
                    (Sample.request "r1" "u1" 0 walk_requests.expired None 600)
                  <> "u3") by discriminate.
    specialize (Hun Hne). discriminate Hun.
Qed.

(** C7, amended.  For a request that exists, called by a client whose
    signed-in user is [auth_uid]: when that user can not read the request
    (being neither its owner nor the user it is matched with),
    [cancelRequest] is rejected with "Failed to fetch request"; it is
    rejected as unauthorized exactly when the user can read the request
    and [userId] is not its owner; in both cases the database is
    unchanged.  When [userId] is the owner and is the signed-in user, the
    status of the request is set to cancelled whatever it was before
    (waiting, matched, expired or cancelled) and nothing else changes.
    When [userId] is the owner but the signed-in user is the one the
    request is matched with, the call resolves and changes nothing. *)
Theorem cancelRequest_owner_cancels_from_any_status
    (auth_uid : option uuid) (d : database) (requestId userId : uuid)
    (r : walk_requests.row) :
  walk_requests_pkey d ->
  In r (tbl_walk_requests d) ->
  walk_requests.id r = requestId ->
  (Policies.walk_requests_select auth_uid r = false ->
   Client.cancelRequest auth_uid d requestId userId
   = (d, Rejected Failed_to_fetch_request))
  /\ (snd (Client.cancelRequest auth_uid d requestId userId)
      = Rejected Unauthorized_cancel
      <-> Policies.walk_requests_select auth_uid r = true
          /\ walk_requests.user_id r <> userId)
  /\ (snd (Client.cancelRequest auth_uid d requestId userId)
      = Rejected Unauthorized_cancel ->
      fst (Client.cancelRequest auth_uid d requestId userId) = d)
  /\ (walk_requests.user_id r = userId -> auth_uid = Some userId ->
      Client.cancelRequest auth_uid d requestId userId
      = (mkdb (tbl_profiles d)
           (map (fun wr =>
                   if String.eqb (walk_requests.id wr) requestId
                   then walk_requests.mk (walk_requests.id wr)
                          (walk_requests.user_id wr)
                          (walk_requests.start_lat wr) (walk_requests.start_lng wr)
                          (walk_requests.dest_lat wr) (walk_requests.dest_lng wr)
                          walk_requests.cancelled
                          (walk_requests.matched_with wr)
                          (walk_requests.expires_at wr)
                   else wr)
                (tbl_walk_requests d))
           (tbl_matches d),
         Resolved tt))
  /\ (walk_requests.user_id r = userId -> auth_uid <> Some userId ->
      Policies.walk_requests_select auth_uid r = true ->
      Client.cancelRequest auth_uid d requestId userId = (d, Resolved tt)).
Proof.
  intros Hpk Hin <-. unfold Client.cancelRequest.
  rewrite (visible_request auth_uid d r Hpk Hin).
  destruct (Policies.walk_requests_select auth_uid r) eqn:V;
    cbv beta iota delta [single].
  2: { split; [ reflexivity | ].
       split; [ split; [ discriminate | intros [Hv _]; discriminate ] | ].
       split; [ reflexivity | ].
       split; [ | discriminate ].
       intros Hu Ha. exfalso. unfold Policies.walk_requests_select in V.
       apply orb_false_iff in V. destruct V as [V _].
       assert (Policies.uid_is auth_uid (Some (walk_requests.user_id r)) = true)
         by (apply uid_is_some; congruence).
       congruence. }
  destruct (String.eqb (walk_requests.user_id r) userId) eqn:E; simpl negb; cbv iota.
  2: { apply String.eqb_neq in E.
       split; [ discriminate | ].
       split; [ split; auto | ].
       split; [ reflexivity | ].
       split; intros; contradiction. }
  apply String.eqb_eq in E.
  unfold Client.walk_requests_update_status; cbv zeta. simpl negb.
  rewrite andb_false_r.
  split; [ discriminate | ].
  split; [ split; [ discriminate | intros [_ Hne]; contradiction ] | ].
  split; [ discriminate | ].
  split.
  - intros _ ->. f_equal. unfold with_walk_requests. f_equal.
    apply map_ext_in. intros wr Hwr.
    destruct (String.eqb (walk_requests.id wr) (walk_requests.id r)) eqn:Ew;
      [ | reflexivity ].
    assert (Hw : In wr [r]).
    { rewrite <- (single_eq_id_pkey _ _ Hin Hpk). apply filter_In. auto. }
    destruct Hw as [ <- | [] ].
    assert (Policies.walk_requests_update (Some userId) r = true) as ->
      by (apply uid_is_some; congruence).
    reflexivity.
  - intros _ Hother _. f_equal. apply with_walk_requests_same. intros wr Hwr.
    destruct (String.eqb (walk_requests.id wr) (walk_requests.id r)
              && Policies.walk_requests_update auth_uid wr) eqn:U; [ | reflexivity ].
    destruct (updated_request _ _ _ _ Hpk Hin Hwr U) as [_ Hpol].
    apply uid_is_some in Hpol. rewrite E in Hpol. contradiction.
Qed.

Lemma db_expired_pkey : walk_requests_pkey Sample.db_expired.
Proof.
  unfold walk_requests_pkey. simpl.
  repeat (constructor; [ simpl; intuition discriminate | ]). constructor.
Defined.

(** The signed-in owner cancels an expired request. *)
Lemma cancelRequest_owner_cancels_from_any_status_witness :
  Client.cancelRequest (Some "u1") Sample.db_expired "r1" "u1"
  = (mkdb Sample.three_users
       [Sample.request "r1" "u1" 0 walk_requests.cancelled None 600] [],
     Resolved tt).
Proof.
  exact (proj1 (proj2 (proj2 (proj2
           (cancelRequest_owner_cancels_from_any_status (Some "u1") Sample.db_expired
              "r1" "u1" (Sample.request "r1" "u1" 0 walk_requests.expired None 600)
              db_expired_pkey (or_introl eq_refl) eq_refl))))
         eq_refl eq_refl).
Defined.

(** The matched users of [Sample.db_matched]: [u2], signed in and passing
    its own id, is told that it is not authorized to cancel the request of
    [u1]; [u3] is told that the request could not be fetched. *)
Example cancelRequest_of_another_user :
  Client.cancelRequest (Some "u2") Sample.db_matched "r1" "u2"
  = (Sample.db_matched, Rejected Unauthorized_cancel)
  /\ Client.cancelRequest (Some "u3") Sample.db_matched "r1" "u3"
     = (Sample.db_matched, Rejected Failed_to_fetch_request).
Proof. split; reflexivity. Qed.

Lemma client_matches_update_status (auth_uid : option uuid) (d : database)
    (matchId : uuid) (s : matches.status_t) :
  Client.matches_update_status auth_uid d matchId s = Some d.
Proof.
  unfold Client.matches_update_status, Policies.matches_update; cbv zeta.
  simpl negb. rewrite andb_false_r. f_equal.
  destruct d as [ps rows ms]. unfold with_matches. simpl. f_equal.
  rewrite <- (map_id ms) at 2. apply map_ext. intros m.
  now rewrite andb_false_r.
Qed.

(** C10.  Run by the application's client, [completeMatch] and
    [cancelMatch] never change the database, whoever is signed in and
    whatever the arguments: no policy admits the client to an [UPDATE] of
    [matches], and an [UPDATE] that reaches no row is no error.  For the
    user [u1], signed in, and the match [m1] of its request, [completeMatch]
    resolves and leaves the cancelled [m1] cancelled, and [cancelMatch]
    resolves and leaves the pending [m1] pending.  The user [u3], who owns
    neither request, can not read the match and is told "Failed to fetch
    match", not that the call is unauthorized; that is said only when the
    signed-in user passes the id of another user, who owns neither
    request. *)
Theorem completeMatch_cancelMatch_update_nothing :
  (forall auth_uid d matchId userId,
      fst (Client.completeMatch auth_uid d matchId userId) = d
      /\ fst (Client.cancelMatch auth_uid d matchId userId) = d)
  /\ Client.completeMatch (Some "u1") Sample.db_match_cancelled "m1" "u1"
     = (Sample.db_match_cancelled, Resolved tt)
  /\ map (fun m => (matches.id m, matches.status m))
         (tbl_matches Sample.db_match_cancelled)
     = [("m1", matches.cancelled)]
  /\ Client.cancelMatch (Some "u1") Sample.db_matched "m1" "u1"
     = (Sample.db_matched, Resolved tt)
  /\ map (fun m => (matches.id m, matches.status m)) (tbl_matches Sample.db_matched)
     = [("m1", matches.pending)]
  /\ Client.completeMatch (Some "u3") Sample.db_matched "m1" "u3"
     = (Sample.db_matched, Rejected Failed_to_fetch_match)
  /\ Client.cancelMatch (Some "u3") Sample.db_matched "m1" "u3"
     = (Sample.db_matched, Rejected Failed_to_fetch_match)
  /\ Client.completeMatch (Some "u1") Sample.db_matched "m1" "u3"
     = (Sample.db_matched, Rejected Unauthorized_match).
Proof.
  split; [ | repeat split; reflexivity ].
  intros auth_uid d matchId userId.
  unfold Client.completeMatch, Client.cancelMatch.
  rewrite !client_matches_update_status.
  destruct (single _) as [ m | ]; [ | split; reflexivity ]. cbv zeta.
  destruct (negb _); split; reflexivity.
Qed.

(** What the client's [submitReport] does to the profiles when the report
    is not against the reporter. *)
Lemma client_decrement_manually_other (auth_uid : option uuid) (d : database)
    (reportedUserId : uuid) :
  auth_uid <> Some reportedUserId ->
  Client.decrement_manually auth_uid d reportedUserId = d.
Proof.
  intros Hne. unfold Client.decrement_manually, MatchQueries.profiles_eq_id.
  rewrite filter_none; [ reflexivity | ].
  intros p Hp. unfold Client.visible in Hp. simpl in Hp.
  apply filter_In in Hp. destruct Hp as [_ Hv].
  unfold Policies.profiles_select in Hv. apply uid_is_some in Hv.
  destruct (String.eqb (profiles.id p) reportedUserId) eqn:E; [ | reflexivity ].
  apply String.eqb_eq in E. congruence.
Qed.

Lemma filter_filter_implied (A : Type) (f g : A -> bool) (l : list A) :
  (forall x, f x = true -> g x = true) ->
  filter f (filter g l) = filter f l.
Proof.
  intros H. induction l as [ | x rest IH ]; simpl; [ reflexivity | ].
  destruct (f x) eqn:Ef.
  - rewrite (H x Ef). simpl. now rewrite Ef, IH.
  - destruct (g x); simpl; rewrite ?Ef; exact IH.
Qed.

(** For a report of a user against itself the client's decrement is the
    one of [Trust]: the signed-in user can read and update its own
    profile. *)
Lemma client_decrement_manually_self (d : database) (u : uuid) :
  Client.decrement_manually (Some u) d u = decrement_manually d u.
Proof.
  assert (Hp : forall p : profiles.row,
            String.eqb (profiles.id p) u && Policies.profiles_update (Some u) p
            = String.eqb (profiles.id p) u).
  { intros p. unfold Policies.profiles_update. simpl.
    rewrite (String.eqb_sym u). now destruct (String.eqb (profiles.id p) u). }
  unfold Client.decrement_manually, decrement_manually, MatchQueries.profiles_eq_id.
  assert (filter (fun p => String.eqb (profiles.id p) u)
            (tbl_profiles (Client.visible (Some u) d))
          = filter (fun p => String.eqb (profiles.id p) u) (tbl_profiles d)) as ->.
  { unfold Client.visible. simpl. apply filter_filter_implied.
    intros p E. unfold Policies.profiles_select. simpl.
    now rewrite String.eqb_sym. }
  destruct (single _) as [ profile | ]; [ | reflexivity ]. cbv zeta.
  unfold Client.profiles_update_trust_score, profiles_update_trust_score; cbv zeta.
  assert (He : forall l : list profiles.row,
            existsb (fun p => String.eqb (profiles.id p) u
                              && Policies.profiles_update (Some u) p) l
            = existsb (fun p => String.eqb (profiles.id p) u) l).
  { induction l as [ | p rest IH ]; cbn [existsb]; [ reflexivity | ].
    now rewrite Hp, IH. }
  rewrite He. destruct (_ && _)%bool; [ reflexivity | ].
  apply (f_equal (fun ps => mkdb ps (tbl_walk_requests d) (tbl_matches d))).
  apply map_ext. intros p. now rewrite Hp.
Qed.

(** X25.  A report that a signed-in user files through the application
    against another user is stored, but lowers no trust score: the
    reporter can neither read nor update the profile of the reported
    user, so the manual decrement of [submitReport] does nothing, and the
    profiles, the requests and the matches are as before. *)
Theorem submitReport_of_client_changes_no_profile
    (auth_uid : option uuid) (st st' : store)
    (new_report_id reporterId reportedUserId : uuid)
    (matchId : option uuid) (reason : string) (details : option string)
    (report : reports.row) :
  reporterId <> reportedUserId ->
  Client.submitReport auth_uid st new_report_id reporterId reportedUserId
    matchId reason details = (st', Fulfilled report) ->
  auth_uid = Some reporterId
  /\ db st' = db st
  /\ tbl_reports st' = (tbl_reports st ++ [report])%list
  /\ reports.reporter_id report = reporterId
  /\ reports.reported_user_id report = reportedUserId.
Proof.
  intros Hne H. unfold Client.submitReport in H; cbv zeta in H.
  unfold Client.reports_insert, Client.reports_with_check in H. simpl in H.
  destruct (Policies.uid_is auth_uid (Some reporterId)) eqn:U; [ | discriminate ].
  apply uid_is_some in U.
  destruct (reports_insert st _) as [ st1 | ] eqn:Ei; [ | discriminate ].
  unfold reports_insert in Ei.
  destruct (_ || _ || _ || _)%bool; [ discriminate | ]. injection Ei as <-.
  simpl in H. injection H as <- <-. simpl.
  rewrite client_decrement_manually_other by congruence.
  auto.
Qed.

Lemma submitReport_of_client_changes_no_profile_witness :
  Some "u1" = Some "u1"
  /\ db (mk_store Sample.db_pool [Scenario.report_1]) = db Scenario.store_pool
  /\ tbl_reports (mk_store Sample.db_pool [Scenario.report_1])
     = (tbl_reports Scenario.store_pool ++ [Scenario.report_1])%list
  /\ reports.reporter_id Scenario.report_1 = "u1"
  /\ reports.reported_user_id Scenario.report_1 = "u3".
Proof.
  apply (submitReport_of_client_changes_no_profile (Some "u1") Scenario.store_pool
           (mk_store Sample.db_pool [Scenario.report_1]) "rep1" "u1" "u3"
           None "late" None Scenario.report_1).
  - discriminate.
  - reflexivity.
Defined.

End ClientFacts.
